(** * Barrierefreiheits-Checker: PPTX parser, accessibility validator and
      PDF/UA generator

    A shallow embedding of the document pipeline of the repository:
    - [lib/pptx/types.ts]      the data model,
    - [lib/pptx/parser.ts]     alt-text extraction and table parsing,
    - [lib/pptx/validator.ts]  the rule checks, scoring and the report,
    - [lib/pdf/generator.ts]   reading order, structure tree and metadata.

    Conventions of the embedding.
    - A JavaScript string is the list of its UTF-16 code units ([list N]);
      literals are written [js "..."] and decoded from the UTF-8 source text.
    - A JavaScript [number] that the code uses as a count, a slide number or
      a pixel coordinate is an integer [Z]; on integers below 2^53 the
      arithmetic of the code (+, -, *, comparisons, Math.round of a quotient)
      is exact, so the embedding agrees with the code on that domain.
      [readingOrderConfidence] is the exact rational value of the double.
    - An optional field ([x?: T]) is an [option]; [undefined] is [None].
    - [new Date()] reads a clock that is part of an explicit [World]. *)

From stdpp Require Import base list gmap sets strings.
From Stdlib Require Import ZArith NArith QArith Lia.
From Stdlib Require Import Permutation.

Local Open Scope Z_scope.
Set Warnings "-register-all".

(* ===================================================================== *)
(** ** JavaScript strings                                                  *)
(* ===================================================================== *)

Module JS.

(** UTF-16 code units. *)
Abbreviation jsstring := (list N).

(** Decoding of the UTF-8 bytes of a source literal into code points. *)
Fixpoint utf8_decode (bs : list N) : list N :=
  match bs with
  | [] => []
  | b0 :: r0 =>
      if (b0 <? 128)%N then b0 :: utf8_decode r0
      else match r0 with
      | [] => []
      | b1 :: r1 =>
          if (b0 <? 224)%N
          then ((b0 - 192) * 64 + (b1 - 128))%N :: utf8_decode r1
          else match r1 with
          | [] => []
          | b2 :: r2 =>
              if (b0 <? 240)%N
              then ((b0 - 224) * 4096 + (b1 - 128) * 64 + (b2 - 128))%N
                     :: utf8_decode r2
              else match r2 with
              | [] => []
              | b3 :: r3 =>
                  ((b0 - 240) * 262144 + (b1 - 128) * 4096
                   + (b2 - 128) * 64 + (b3 - 128))%N :: utf8_decode r3
              end
          end
      end
  end.

(** A code point as one or two UTF-16 code units. *)
Definition utf16_units (cp : N) : list N :=
  if (cp <? 65536)%N then [cp]
  else [(55296 + (cp - 65536) / 1024)%N; (56320 + (cp - 65536) mod 1024)%N].

Definition js (s : string) : jsstring :=
  flat_map utf16_units
    (utf8_decode (List.map Ascii.N_of_ascii (String.list_ascii_of_string s))).
Arguments js _%_string.

(** The double quote character, U+0022. *)
Definition dq : jsstring := [34%N].
(** Line feed, U+000A. *)
Definition nl : jsstring := [10%N].

Definition eqb (a b : jsstring) : bool := bool_decide (a = b).

(** Truthiness of a string: the empty string is falsy. *)
Definition truthy (s : jsstring) : bool :=
  match s with [] => false | _ => true end.

(** Truthiness of an optional string ([undefined] is falsy). *)
Definition truthy_opt (s : option jsstring) : bool :=
  match s with Some t => truthy t | None => false end.

(** [a || b] on strings. *)
Definition or_else (a b : jsstring) : jsstring :=
  if truthy a then a else b.

(** [a || b] where [a] may be [undefined]. *)
Definition opt_or_else (a : option jsstring) (b : jsstring) : jsstring :=
  match a with Some t => or_else t b | None => b end.

(** [a || b] where both may be [undefined]. *)
Definition opt_or (a b : option jsstring) : option jsstring :=
  if truthy_opt a then a else b.

(** WhiteSpace and LineTerminator code units of ECMAScript, the set that
    [String.prototype.trim] strips and that [\s] matches. *)
Definition isWhiteSpace (c : N) : bool :=
  ((9 <=? c) && (c <=? 13) || (c =? 32) || (c =? 160) || (c =? 5760)
   || (8192 <=? c) && (c <=? 8202) || (c =? 8232) || (c =? 8233)
   || (c =? 8239) || (c =? 8287) || (c =? 12288) || (c =? 65279))%N.

Fixpoint trimStart (s : jsstring) : jsstring :=
  match s with
  | [] => []
  | c :: r => if isWhiteSpace c then trimStart r else s
  end.

Definition trimEnd (s : jsstring) : jsstring :=
  reverse (trimStart (reverse s)).

Definition trim (s : jsstring) : jsstring := trimEnd (trimStart s).

(** [s?.trim()] used as a condition: truthy iff [s] is defined and has a
    character that is not white space. *)
Definition has_text (s : option jsstring) : bool :=
  match s with Some t => truthy (trim t) | None => false end.

Definition digit (d : N) : N := (48 + d)%N.

Fixpoint uint_units (u : Decimal.uint) : jsstring :=
  match u with
  | Decimal.Nil => []
  | Decimal.D0 r => digit 0 :: uint_units r
  | Decimal.D1 r => digit 1 :: uint_units r
  | Decimal.D2 r => digit 2 :: uint_units r
  | Decimal.D3 r => digit 3 :: uint_units r
  | Decimal.D4 r => digit 4 :: uint_units r
  | Decimal.D5 r => digit 5 :: uint_units r
  | Decimal.D6 r => digit 6 :: uint_units r
  | Decimal.D7 r => digit 7 :: uint_units r
  | Decimal.D8 r => digit 8 :: uint_units r
  | Decimal.D9 r => digit 9 :: uint_units r
  end.

(** [String(n)] / [`${n}`] for an integral number: decimal digits, with a
    leading minus sign for negative values. *)
Definition Number_toString (z : Z) : jsstring :=
  match Z.to_int z with
  | Decimal.Pos u => uint_units u
  | Decimal.Neg u => 45%N :: uint_units u
  end.

(** Decimal digits padded with zeros on the left to [w] places
    ([padStart(w, "0")]). *)
Definition pad (w : nat) (z : Z) : jsstring :=
  let d := Number_toString z in
  replicate (w - length d) (digit 0) ++ d.

Definition isAsciiUpper (c : N) : bool := ((65 <=? c) && (c <=? 90))%N.
Definition isDigit (c : N) : bool := ((48 <=? c) && (c <=? 57))%N.

(** Lower-casing of one code unit. Basic Latin and Latin-1 letters are
    mapped as Unicode does; U+0130 becomes "i" followed by U+0307 and the
    Kelvin and Angstrom signs become "k" and U+00E5. Every other code unit
    is kept: its real lower-case form is neither an ASCII character nor
    white space, which is all the callers below look at. *)
Definition lower_unit (c : N) : jsstring :=
  if isAsciiUpper c then [(c + 32)%N]
  else if ((192 <=? c) && (c <=? 222) && negb (c =? 215))%N then [(c + 32)%N]
  else if (c =? 304)%N then [105%N; 775%N]
  else if (c =? 8490)%N then [107%N]
  else if (c =? 8491)%N then [229%N]
  else [c].

Definition toLowerCase (s : jsstring) : jsstring := flat_map lower_unit s.

(** Equality up to the case of ASCII letters: how a pattern of ASCII
    letters, anchored at both ends and carrying the [i] flag, matches. *)
Definition ascii_lower (c : N) : N := if isAsciiUpper c then (c + 32)%N else c.

Definition eqb_nocase (pat s : jsstring) : bool :=
  eqb (List.map ascii_lower pat) (List.map ascii_lower s).

Fixpoint isPrefixOf (p s : jsstring) : bool :=
  match p, s with
  | [], _ => true
  | _ :: _, [] => false
  | a :: p', b :: s' => (a =? b)%N && isPrefixOf p' s'
  end.

Definition endsWith (s suffix : jsstring) : bool :=
  isPrefixOf (reverse suffix) (reverse s).

(** [lines.join(sep)]. *)
Fixpoint join (sep : jsstring) (lines : list jsstring) : jsstring :=
  match lines with
  | [] => []
  | [l] => l
  | l :: r => l ++ sep ++ join sep r
  end.

(** [s.split(sep).join(rep)] for a separator that is not empty: every
    occurrence of [sep], found from left to right without overlap, is
    replaced by [rep]. [skip] counts the code units of the occurrence just
    found that are still to be dropped. *)
Fixpoint replaceFrom (sep rep : jsstring) (skip : nat) (s : jsstring)
  : jsstring :=
  match s with
  | [] => []
  | c :: r =>
      match skip with
      | S k => replaceFrom sep rep k r
      | O =>
          if isPrefixOf sep s
          then rep ++ replaceFrom sep rep (length sep - 1) r
          else c :: replaceFrom sep rep 0 r
      end
  end.

Definition splitJoin (sep rep s : jsstring) : jsstring :=
  replaceFrom sep rep 0 s.

(** [s.split(/\s+/)]: the pieces between the maximal runs of white space.
    A string that begins or ends with white space has an empty first or
    last piece; the empty string has one empty piece. *)
Fixpoint splitWhitespace (s : jsstring) : list jsstring :=
  match s with
  | [] => [ [] ]
  | c :: r =>
      let rest := splitWhitespace r in
      if isWhiteSpace c then
        match r with
        | c' :: _ => if isWhiteSpace c' then rest else [] :: rest
        | [] => [] :: rest
        end
      else
        match rest with
        | piece :: pieces => (c :: piece) :: pieces
        | [] => [ [c] ]
        end
  end.


End JS.
Export JS.

(* ===================================================================== *)
(** ** The data model ([lib/pptx/types.ts])                                *)
(* ===================================================================== *)

Inductive ElementType :=
  | title | subtitle | body | paragraph | list_ | listItem | table | image
  | shape | chart | smartart | group | textbox | footer | slideNumber | date
  | unknown.

(** [type SemanticRole]; the tags are written [Role.H1], [Role.P], ... *)
Module Role.
Inductive t :=
  | H1 | H2 | H3 | P | L | LI | Lbl | LBody | Table | TR | TH | TD | Figure
  | Caption | Link | Note | Artifact | Span | Document | Part | Sect.
End Role.
Abbreviation SemanticRole := Role.t.

Inductive AltTextStatus := present | missing | decorative | needs_review.

Inductive Severity := error | warning | info.

Inductive IssueType :=
  | missing_alt_text | empty_alt_text | decorative_not_marked
  | insufficient_alt_text
  | missing_title | heading_hierarchy | reading_order_unclear | pseudo_table
  | empty_element | overlapping_elements
  | table_missing_headers | table_complex_structure | table_empty_cells
  | link_text_empty | link_text_generic | link_text_url_only
  | unclear_link_text
  | missing_language | missing_document_title | missing_metadata
  | insufficient_contrast | color_only_information | small_text
  | font_not_embedded | unicode_mapping_issue
  | grouped_content_order | flattened_content | background_not_decorative.

Inductive CellScope := row | col | rowgroup | colgroup.

Inductive ListType := bullet | ordered.

#[global] Instance ElementType_eq_dec : EqDecision ElementType.
Proof. solve_decision. Defined.
#[global] Instance SemanticRole_eq_dec : EqDecision SemanticRole.
Proof. solve_decision. Defined.
#[global] Instance AltTextStatus_eq_dec : EqDecision AltTextStatus.
Proof. solve_decision. Defined.
#[global] Instance Severity_eq_dec : EqDecision Severity.
Proof. solve_decision. Defined.
#[global] Instance IssueType_eq_dec : EqDecision IssueType.
Proof. solve_decision. Defined.

(** [interface AccessibilityIssue]. *)
Module Issue.
Record t := mk {
  id : jsstring;
  type : IssueType;
  severity : Severity;
  slideNumber : option Z;
  elementId : option jsstring;
  elementType : option ElementType;
  message : jsstring;
  messageDE : jsstring;
  wcagCriteria : option jsstring;
  pdfuaClause : option jsstring;
  suggestion : option jsstring;
  suggestionDE : option jsstring;
  autoFixable : bool;
  context : option jsstring;
}.
End Issue.
Abbreviation AccessibilityIssue := Issue.t.

Module Position.
Record t := mk { x : Z; y : Z; width : Z; height : Z; zOrder : Z }.
End Position.

(** [SlideElement.content]; the rich-text runs, which neither the validator
    nor the generator reads, are left out. *)
Module Content.
Record t := mk {
  text : option jsstring;
  altText : option jsstring;
  altTextStatus : AltTextStatus;
  longDescription : option jsstring;
}.
End Content.

Module TableCell.
Record t := mk {
  content : jsstring;
  isHeader : bool;
  scope : option CellScope;
}.
End TableCell.

Module TableData.
Record t := mk {
  rows : Z;
  columns : Z;
  cells : list (list TableCell.t);
  hasHeaderRow : bool;
  hasHeaderColumn : bool;
}.
End TableData.

Module ListItem.
Record t := mk { text : jsstring; level : Z; listType : ListType }.
End ListItem.

Module ListData.
Record t := mk { items : list ListItem.t }.
End ListData.

(** [interface SlideElement]; [style], [children] and [parentId] are read by
    none of the functions embedded here and are left out. *)
Module SlideElement.
Record t := mk {
  id : jsstring;
  type : ElementType;
  semanticRole : SemanticRole;
  position : Position.t;
  content : Content.t;
  isDecorative : bool;
  isGrouped : bool;
  groupId : option jsstring;
  hyperlink : option jsstring;
  tableData : option TableData.t;
  listData : option ListData.t;
  issues : list Issue.t;
}.
End SlideElement.

(** [interface Slide]; [layout] and [notes] are left out. *)
Module Slide.
Record t := mk {
  number : Z;
  id : jsstring;
  elements : list SlideElement.t;
  readingOrder : list jsstring;
  readingOrderConfidence : Q;
  backgroundElements : list SlideElement.t;
  issues : list Issue.t;
}.
End Slide.

Module Metadata.
Record t := mk {
  title : jsstring;
  author : option jsstring;
  subject : option jsstring;
  keywords : option (list jsstring);
  language : jsstring;
}.
End Metadata.

Module Stats.
Record t := mk {
  totalElements : Z;
  imagesWithAltText : Z;
  imagesWithoutAltText : Z;
  decorativeImages : Z;
  tables : Z;
  lists : Z;
  links : Z;
}.
End Stats.

(** [interface Presentation]; the [theme] summary is left out. *)
Module Presentation.
Record t := mk {
  metadata : Metadata.t;
  slides : list Slide.t;
  issues : list Issue.t;
  stats : Stats.t;
}.
End Presentation.

Module ConversionProfile.
Record t := mk {
  name : jsstring;
  id : jsstring;
  tagMapping : list (ElementType * SemanticRole);
  generateMissingAltText : bool;
  markUncaptionedAsDecorative : bool;
  fixEmptyTitles : bool;
  setDocumentLanguage : bool;
  fixReadingOrder : bool;
  convertPseudoTables : bool;
  pdfVersion : jsstring;
  pdfUaConformance : jsstring;
  embedFonts : bool;
  includeBookmarks : bool;
  includeLinks : bool;
  taggedPdf : bool;
  linearized : bool;
}.
End ConversionProfile.

(** ["AAA" | "AA" | "A" | "none"]. *)
Module Wcag.
Inductive t := AAA | AA | A | none.
End Wcag.
Abbreviation WcagLevel := Wcag.t.

(** ["PDF/UA-1" | "partial" | "none"]. *)
Module Pdfua.
Inductive t := PDF_UA_1 | partial | none.
End Pdfua.
Abbreviation PdfuaLevel := Pdfua.t.

Module Conformance.
Record t := mk {
  wcagLevel : WcagLevel;
  pdfuaLevel : PdfuaLevel;
  bitvConformant : bool;
}.
End Conformance.

Module Summary.
Record t := mk {
  total : Z;
  errors : Z;
  warnings : Z;
  info : Z;
  autoFixable : Z;
}.
End Summary.

(** [interface AccessibilityReport]; [timestamp] is the time value of the
    [Date], in milliseconds since the epoch. *)
Module Report.
Record t := mk {
  timestamp : Z;
  documentTitle : jsstring;
  summary : Summary.t;
  issues : list Issue.t;
  conformance : Conformance.t;
  overallScore : Z;
  wcagLevel : WcagLevel;
  pdfuaConformant : bool;
  recommendations : list jsstring;
  stats : Stats.t;
  reportText : jsstring;
  reportTextDE : jsstring;
}.
End Report.
Abbreviation AccessibilityReport := Report.t.

(* ===================================================================== *)
(** ** The clock                                                           *)
(* ===================================================================== *)

(** What [new Date()] depends on: the time of the [ticks]-th reading of the
    clock and the offset of local time from UTC, in minutes, at an instant. *)
Module World.
Record t := mk {
  now : nat -> Z;
  ticks : nat;
  utcOffset : Z -> Z;
}.
End World.

(** [new Date()]: the current time value; the clock moves on. *)
Definition newDate (w : World.t) : Z * World.t :=
  (World.now w (World.ticks w),
   World.mk (World.now w) (S (World.ticks w)) (World.utcOffset w)).

Module Date.

Definition msPerDay : Z := 86400000.

(** Year, month and day of a day number counted from 1970-01-01, in the
    proleptic Gregorian calendar. *)
Definition civil_from_days (z0 : Z) : Z * Z * Z :=
  let z := z0 + 719468 in
  let era := z / 146097 in
  let doe := z - era * 146097 in
  let yoe := (doe - doe / 1460 + doe / 36524 - doe / 146096) / 365 in
  let doy := doe - (365 * yoe + yoe / 4 - yoe / 100) in
  let mp := (5 * doy + 2) / 153 in
  let d := doy - (153 * mp + 2) / 5 + 1 in
  let m := if mp <? 10 then mp + 3 else mp - 9 in
  let y := yoe + era * 400 + (if m <=? 2 then 1 else 0) in
  (y, m, d).

Definition year_units (y : Z) : jsstring :=
  if (0 <=? y) && (y <=? 9999) then pad 4 y
  else if y <? 0 then js "-" ++ pad 6 (- y)
  else js "+" ++ pad 6 y.

(** [Date.prototype.toISOString]. *)
Definition toISOString (t : Z) : jsstring :=
  let '(y, m, d) := civil_from_days (t / msPerDay) in
  let r := t mod msPerDay in
  year_units y ++ js "-" ++ pad 2 m ++ js "-" ++ pad 2 d ++ js "T"
    ++ pad 2 (r / 3600000) ++ js ":" ++ pad 2 (r / 60000 mod 60) ++ js ":"
    ++ pad 2 (r / 1000 mod 60) ++ js "." ++ pad 3 (r mod 1000) ++ js "Z".

(** [toLocaleDateString("de-DE")]: day, month and year of the local date,
    separated by dots, for a date of the common era. *)
Definition toLocaleDateString_de (w : World.t) (t : Z) : jsstring :=
  let local := t + World.utcOffset w t * 60000 in
  let '(y, m, d) := civil_from_days (local / msPerDay) in
  Number_toString d ++ js "." ++ Number_toString m ++ js "."
    ++ Number_toString y.

End Date.

(* ===================================================================== *)
(** ** The validator ([class AccessibilityValidator])                      *)
(* ===================================================================== *)

(** Each check is embedded as the list of issues that it pushes onto
    [this.issues], in the order of the [addIssue] calls. *)
Module Validator.

Definition slidePrefix (n : Z) : jsstring := js "slide-" ++ Number_toString n.

(** The value of the literal [0.7]: the double nearest to 7/10. *)
Definition c0_7 : Q := 3152519739159347 # 4503599627370496.

Definition Qltb (a b : Q) : bool :=
  Qnum a * Zpos (Qden b) <? Qnum b * Zpos (Qden a).

(** [Math.round(c * 100)], computed on the exact value of [c]. *)
Definition roundPercent (c : Q) : Z :=
  (2 * (Qnum c * 100) + Zpos (Qden c)) / (2 * Zpos (Qden c)).

Definition validateDocument (p : Presentation.t) : list Issue.t :=
  let metadata := Presentation.metadata p in
  (if negb (truthy (trim (Metadata.title metadata))) then
     [ {| Issue.id := js "doc-no-title";
          Issue.type := missing_document_title;
          Issue.severity := error;
          Issue.slideNumber := None;
          Issue.elementId := None;
          Issue.elementType := None;
          Issue.message := js "Document title is missing";
          Issue.messageDE := js "Dokumenttitel fehlt";
          Issue.wcagCriteria := Some (js "2.4.2");
          Issue.pdfuaClause := Some (js "7.1");
          Issue.suggestion :=
            Some (js "Add a document title in File > Info > Properties");
          Issue.suggestionDE :=
            Some (js "Fügen Sie einen Dokumenttitel unter Datei > Info > Eigenschaften hinzu");
          Issue.autoFixable := true;
          Issue.context := None |} ]
   else [])
  ++
  (let language := Metadata.language metadata in
   if negb (truthy language) || eqb language (js "und")
      || (Z.of_nat (length language) <? 2) then
     [ {| Issue.id := js "doc-no-language";
          Issue.type := missing_language;
          Issue.severity := error;
          Issue.slideNumber := None;
          Issue.elementId := None;
          Issue.elementType := None;
          Issue.message := js "Document language is not defined";
          Issue.messageDE := js "Dokumentsprache ist nicht definiert";
          Issue.wcagCriteria := Some (js "3.1.1");
          Issue.pdfuaClause := Some (js "7.2");
          Issue.suggestion :=
            Some (js "Set the document language in the presentation settings");
          Issue.suggestionDE :=
            Some (js "Setzen Sie die Dokumentsprache in den Präsentationseinstellungen");
          Issue.autoFixable := true;
          Issue.context := None |} ]
   else [])
  ++
  (if negb (has_text (Metadata.author metadata)) then
     [ {| Issue.id := js "doc-no-author";
          Issue.type := missing_metadata;
          Issue.severity := info;
          Issue.slideNumber := None;
          Issue.elementId := None;
          Issue.elementType := None;
          Issue.message := js "Document author is not set";
          Issue.messageDE := js "Dokumentautor ist nicht gesetzt";
          Issue.wcagCriteria := None;
          Issue.pdfuaClause := None;
          Issue.suggestion :=
            Some (js "Consider adding author information for better metadata");
          Issue.suggestionDE :=
            Some (js "Erwägen Sie, Autorinformationen für bessere Metadaten hinzuzufügen");
          Issue.autoFixable := false;
          Issue.context := None |} ]
   else []).

(** The callback of [find] in [validateSlideTitle]. *)
Definition isTitled (e : SlideElement.t) : bool :=
  bool_decide (SlideElement.type e = title)
  && has_text (Content.text (SlideElement.content e)).

Definition validateSlideTitle (slide : Slide.t) : list Issue.t :=
  let n := Slide.number slide in
  match List.find isTitled (Slide.elements slide) with
  | Some _ => []
  | None =>
     [ {| Issue.id := slidePrefix n ++ js "-no-title";
          Issue.type := missing_title;
          Issue.severity := warning;
          Issue.slideNumber := Some n;
          Issue.elementId := None;
          Issue.elementType := None;
          Issue.message :=
            js "Slide " ++ Number_toString n ++ js " has no title";
          Issue.messageDE :=
            js "Folie " ++ Number_toString n ++ js " hat keinen Titel";
          Issue.wcagCriteria := Some (js "2.4.2");
          Issue.pdfuaClause := Some (js "7.4");
          Issue.suggestion :=
            Some (js "Add a title to enable navigation via headings");
          Issue.suggestionDE :=
            Some (js "Fügen Sie einen Titel hinzu, um Navigation über Überschriften zu ermöglichen");
          Issue.autoFixable := false;
          Issue.context := None |} ]
  end.

(** The test in the inner loop of [findOverlappingElements]; [u > v] is
    [v < u]. *)
Definition overlap (a b : Position.t) : bool :=
  let overlapX :=
    (Position.x a <? Position.x b + Position.width b)
    && (Position.x b <? Position.x a + Position.width a) in
  let overlapY :=
    (Position.y a <? Position.y b + Position.height b)
    && (Position.y b <? Position.y a + Position.height a) in
  overlapX && overlapY.

(** The pairs [(elements[i], elements[j])], [i < j], that overlap, in the
    order of the two nested loops. *)
Fixpoint findOverlappingElements (elements : list SlideElement.t)
  : list (SlideElement.t * SlideElement.t) :=
  match elements with
  | [] => []
  | a :: rest =>
      List.map (pair a)
        (List.filter
           (fun b => overlap (SlideElement.position a) (SlideElement.position b))
           rest)
      ++ findOverlappingElements rest
  end.

Definition overlapIssue (n : Z) (pr : SlideElement.t * SlideElement.t)
  : Issue.t :=
  let id1 := SlideElement.id (fst pr) in
  let id2 := SlideElement.id (snd pr) in
  {| Issue.id := slidePrefix n ++ js "-overlap-" ++ id1 ++ js "-" ++ id2;
     Issue.type := overlapping_elements;
     Issue.severity := info;
     Issue.slideNumber := Some n;
     Issue.elementId := Some id1;
     Issue.elementType := None;
     Issue.message :=
       js "Elements " ++ dq ++ id1 ++ dq ++ js " and " ++ dq ++ id2 ++ dq
         ++ js " overlap";
     Issue.messageDE :=
       js "Elemente " ++ dq ++ id1 ++ dq ++ js " und " ++ dq ++ id2 ++ dq
         ++ js " überlappen sich";
     Issue.wcagCriteria := Some (js "1.3.2");
     Issue.pdfuaClause := None;
     Issue.suggestion :=
       Some (js "Ensure overlapping elements have correct reading order");
     Issue.suggestionDE :=
       Some (js "Stellen Sie sicher, dass überlappende Elemente die richtige Lesereihenfolge haben");
     Issue.autoFixable := false;
     Issue.context := None |}.

(** The first issue of [validateReadingOrder]. *)
Definition orderUncertain (slide : Slide.t) : list Issue.t :=
  let n := Slide.number slide in
  if Qltb (Slide.readingOrderConfidence slide) c0_7 then
     [ {| Issue.id := slidePrefix n ++ js "-order-uncertain";
          Issue.type := reading_order_unclear;
          Issue.severity := warning;
          Issue.slideNumber := Some n;
          Issue.elementId := None;
          Issue.elementType := None;
          Issue.message :=
            js "Reading order on slide " ++ Number_toString n
              ++ js " may be incorrect";
          Issue.messageDE :=
            js "Lesereihenfolge auf Folie " ++ Number_toString n
              ++ js " ist möglicherweise unkorrekt";
          Issue.wcagCriteria := Some (js "1.3.2");
          Issue.pdfuaClause := Some (js "7.1");
          Issue.suggestion :=
            Some (js "Review and manually adjust reading order if needed");
          Issue.suggestionDE :=
            Some (js "Überprüfen und ggf. manuell anpassen");
          Issue.autoFixable := false;
          Issue.context :=
            Some (js "Confidence: "
                  ++ Number_toString
                       (roundPercent (Slide.readingOrderConfidence slide))
                  ++ js "%") |} ]
  else [].

Definition validateReadingOrder (slide : Slide.t) : list Issue.t :=
  orderUncertain slide
  ++ List.map (overlapIssue (Slide.number slide))
       (findOverlappingElements (Slide.elements slide)).

Definition getElementTypeName (t : ElementType) : jsstring :=
  match t with
  | image => js "Image"
  | chart => js "Chart"
  | smartart => js "SmartArt"
  | table => js "Table"
  | _ => js "Element"
  end.

Definition getElementTypeNameDE (t : ElementType) : jsstring :=
  match t with
  | image => js "Bild"
  | chart => js "Diagramm"
  | smartart => js "SmartArt"
  | table => js "Tabelle"
  | _ => js "Element"
  end.

Definition imageExtensions : list jsstring :=
  [js "jpg"; js "jpeg"; js "png"; js "gif"; js "bmp"; js "svg"; js "webp"].

Definition genericWords : list jsstring :=
  [js "bild"; js "image"; js "foto"; js "photo"; js "grafik"; js "graphic";
   js "diagramm"; js "chart"; js "logo"; js "icon"; js "screenshot";
   js "untitled"; js "placeholder"].

(** [/^w\d*$/.test(s)]. *)
Definition wordThenDigits (w s : jsstring) : bool :=
  isPrefixOf w s && List.forallb isDigit (drop (length w) s).

(** [isLowQualityAltText]; [split(/\s+/).length < 2] holds exactly when
    the string has no white-space character. *)
Definition isLowQualityAltText (altText : jsstring) : bool :=
  let lowered := trim (toLowerCase altText) in
  if List.existsb
       (fun ext => endsWith (List.map ascii_lower lowered) (js "." ++ ext))
       imageExtensions
  then true
  else if List.existsb (eqb lowered) genericWords
          || wordThenDigits (js "img") lowered
          || wordThenDigits (js "picture") lowered
  then true
  else if List.forallb (fun c => negb (isWhiteSpace c)) lowered then true
  else false.

Definition validateImageAltText (element : SlideElement.t) (slideNumber : Z)
  : list Issue.t :=
  let altTextStatus := Content.altTextStatus (SlideElement.content element) in
  let altText := Content.altText (SlideElement.content element) in
  let ty := SlideElement.type element in
  let id := SlideElement.id element in
  if SlideElement.isDecorative element then []
  else if bool_decide (altTextStatus = missing) || negb (has_text altText) then
     [ {| Issue.id := slidePrefix slideNumber ++ js "-" ++ id ++ js "-no-alt";
          Issue.type := missing_alt_text;
          Issue.severity := error;
          Issue.slideNumber := Some slideNumber;
          Issue.elementId := Some id;
          Issue.elementType := Some ty;
          Issue.message := getElementTypeName ty ++ js " is missing alt text";
          Issue.messageDE :=
            getElementTypeNameDE ty ++ js " hat keinen Alternativtext";
          Issue.wcagCriteria := Some (js "1.1.1");
          Issue.pdfuaClause := Some (js "7.3");
          Issue.suggestion :=
            Some (js "Add descriptive alt text or mark as decorative");
          Issue.suggestionDE :=
            Some (js "Fügen Sie beschreibenden Alt-Text hinzu oder markieren Sie als dekorativ");
          Issue.autoFixable := false;
          Issue.context := None |} ]
  else match altText with
  | Some txt =>
      if truthy txt && isLowQualityAltText txt then
     [ {| Issue.id := slidePrefix slideNumber ++ js "-" ++ id ++ js "-poor-alt";
          Issue.type := insufficient_alt_text;
          Issue.severity := warning;
          Issue.slideNumber := Some slideNumber;
          Issue.elementId := Some id;
          Issue.elementType := Some ty;
          Issue.message := js "Alt text may not be sufficiently descriptive";
          Issue.messageDE :=
            js "Alt-Text ist möglicherweise nicht ausreichend beschreibend";
          Issue.wcagCriteria := Some (js "1.1.1");
          Issue.pdfuaClause := Some (js "7.3");
          Issue.suggestion :=
            Some (js "Review alt text: avoid file names, generic descriptions, or overly short text");
          Issue.suggestionDE :=
            Some (js "Überprüfen Sie den Alt-Text: Vermeiden Sie Dateinamen, generische Beschreibungen oder zu kurzen Text");
          Issue.autoFixable := false;
          Issue.context := Some (js "Current: " ++ dq ++ txt ++ dq) |} ]
      else []
  | None => []
  end.

(** The number of cells whose content is empty after [trim()]. *)
Definition emptyCellCount (cells : list (list TableCell.t)) : Z :=
  Z.of_nat
    (length
       (List.filter (fun c => negb (truthy (trim (TableCell.content c))))
          (concat cells))).

Definition validateTableStructure (element : SlideElement.t) (slideNumber : Z)
  : list Issue.t :=
  let id := SlideElement.id element in
  match SlideElement.tableData element with
  | None => []
  | Some tableData =>
    (if negb (TableData.hasHeaderRow tableData)
        && negb (TableData.hasHeaderColumn tableData)
        && (1 <? TableData.rows tableData) then
     [ {| Issue.id := slidePrefix slideNumber ++ js "-" ++ id ++ js "-no-header";
          Issue.type := table_missing_headers;
          Issue.severity := warning;
          Issue.slideNumber := Some slideNumber;
          Issue.elementId := Some id;
          Issue.elementType := Some table;
          Issue.message := js "Table has no defined header row or column";
          Issue.messageDE :=
            js "Tabelle hat keine definierte Kopfzeile oder -spalte";
          Issue.wcagCriteria := Some (js "1.3.1");
          Issue.pdfuaClause := Some (js "7.5");
          Issue.suggestion :=
            Some (js "Mark the first row as header for screen reader navigation");
          Issue.suggestionDE :=
            Some (js "Markieren Sie die erste Zeile als Kopf für Screenreader-Navigation");
          Issue.autoFixable := true;
          Issue.context := None |} ]
     else [])
    ++
    (let n := emptyCellCount (TableData.cells tableData) in
     if 0 <? n then
     [ {| Issue.id :=
            slidePrefix slideNumber ++ js "-" ++ id ++ js "-empty-cells";
          Issue.type := table_empty_cells;
          Issue.severity := info;
          Issue.slideNumber := Some slideNumber;
          Issue.elementId := Some id;
          Issue.elementType := Some table;
          Issue.message :=
            js "Table has " ++ Number_toString n ++ js " empty cells";
          Issue.messageDE :=
            js "Tabelle hat " ++ Number_toString n ++ js " leere Zellen";
          Issue.wcagCriteria := Some (js "1.3.1");
          Issue.pdfuaClause := None;
          Issue.suggestion :=
            Some (js "Consider using " ++ dq ++ js "-" ++ dq ++ js " or "
                  ++ dq ++ js "N/A" ++ dq
                  ++ js " for intentionally empty cells");
          Issue.suggestionDE :=
            Some (js "Erwaegen Sie " ++ dq ++ js "-" ++ dq ++ js " oder "
                  ++ dq ++ js "k.A." ++ dq
                  ++ js " fuer absichtlich leere Zellen");
          Issue.autoFixable := false;
          Issue.context := None |} ]
     else [])
  end.

Definition unclearPatterns : list jsstring :=
  [js "hier"; js "klick"; js "click here"; js "more"; js "mehr"; js "link";
   js "read more"; js "weiterlesen"; js "details"].

Definition validateLink (element : SlideElement.t) (slideNumber : Z)
  : list Issue.t :=
  let id := SlideElement.id element in
  let text :=
    match Content.text (SlideElement.content element) with
    | Some t => trim t
    | None => []
    end in
  if List.existsb (fun pat => eqb_nocase pat text) unclearPatterns then
     [ {| Issue.id :=
            slidePrefix slideNumber ++ js "-" ++ id ++ js "-unclear-link";
          Issue.type := unclear_link_text;
          Issue.severity := warning;
          Issue.slideNumber := Some slideNumber;
          Issue.elementId := Some id;
          Issue.elementType := None;
          Issue.message :=
            js "Link text " ++ dq ++ text ++ dq ++ js " is not descriptive";
          Issue.messageDE :=
            js "Linktext " ++ dq ++ text ++ dq ++ js " ist nicht beschreibend";
          Issue.wcagCriteria := Some (js "2.4.4");
          Issue.pdfuaClause := Some (js "7.17");
          Issue.suggestion :=
            Some (js "Use descriptive link text that explains the destination");
          Issue.suggestionDE :=
            Some (js "Verwenden Sie beschreibenden Linktext, der das Ziel erklärt");
          Issue.autoFixable := false;
          Issue.context := None |} ]
  else [].

Definition validateElement (element : SlideElement.t) (slideNumber : Z)
  : list Issue.t :=
  let ty := SlideElement.type element in
  let id := SlideElement.id element in
  (if bool_decide (ty = image) || bool_decide (ty = chart)
      || bool_decide (ty = smartart)
   then validateImageAltText element slideNumber else [])
  ++
  (if bool_decide (ty = table)
   then validateTableStructure element slideNumber else [])
  ++
  (if truthy_opt (SlideElement.hyperlink element)
   then validateLink element slideNumber else [])
  ++
  (if (bool_decide (ty = body) || bool_decide (ty = textbox))
      && negb (has_text (Content.text (SlideElement.content element)))
      && negb (SlideElement.isDecorative element) then
     [ {| Issue.id := slidePrefix slideNumber ++ js "-" ++ id ++ js "-empty";
          Issue.type := empty_element;
          Issue.severity := info;
          Issue.slideNumber := Some slideNumber;
          Issue.elementId := Some id;
          Issue.elementType := Some ty;
          Issue.message :=
            js "Empty text element that is not marked as decorative";
          Issue.messageDE :=
            js "Leeres Textelement, das nicht als dekorativ markiert ist";
          Issue.wcagCriteria := None;
          Issue.pdfuaClause := None;
          Issue.suggestion :=
            Some (js "Remove empty element or mark as decorative");
          Issue.suggestionDE :=
            Some (js "Leeres Element entfernen oder als dekorativ markieren");
          Issue.autoFixable := true;
          Issue.context := None |} ]
   else []).

(** [Math.round(tb.position.y / 30) * 30]; [Math.round] rounds a half
    towards plus infinity. *)
Definition rowKey (tb : SlideElement.t) : Z :=
  (2 * Position.y (SlideElement.position tb) + 30) / 60 * 30.

(** [if (!rows.has(y)) rows.set(y, []); rows.get(y).push(tb)] on a [Map]
    kept in insertion order. *)
Fixpoint rowsPush (rows : list (Z * list SlideElement.t)) (y : Z)
  (tb : SlideElement.t) : list (Z * list SlideElement.t) :=
  match rows with
  | [] => [(y, [tb])]
  | (k, g) :: r =>
      if k =? y then (k, g ++ [tb]) :: r else (k, g) :: rowsPush r y tb
  end.

Definition groupRows (textboxes : list SlideElement.t)
  : list (Z * list SlideElement.t) :=
  fold_left (fun rows tb => rowsPush rows (rowKey tb) tb) textboxes [].

(** [allSameSize && hasMultipleRowsAndCols] on the list of row sizes;
    [rowSizes[0] || 0] is the head, or 0 for the empty list. *)
Definition isGrid (rowSizes : list nat) : bool :=
  let first := hd 0%nat rowSizes in
  let allSameSize :=
    (1 <? length rowSizes)%nat
    && List.forallb (fun s => (s =? first)%nat) rowSizes in
  let hasMultipleRowsAndCols :=
    (2 <=? length rowSizes)%nat && (2 <=? first)%nat in
  allSameSize && hasMultipleRowsAndCols.

Definition validatePseudoTables (slide : Slide.t) : list Issue.t :=
  let n := Slide.number slide in
  let textboxes :=
    List.filter (fun e => bool_decide (SlideElement.type e = textbox))
      (Slide.elements slide) in
  if (length textboxes <? 4)%nat then []
  else
    let rows := groupRows textboxes in
    let rowSizes := List.map (fun r => length (snd r)) rows in
    if isGrid rowSizes then
     [ {| Issue.id := slidePrefix n ++ js "-pseudo-table";
          Issue.type := pseudo_table;
          Issue.severity := warning;
          Issue.slideNumber := Some n;
          Issue.elementId := None;
          Issue.elementType := None;
          Issue.message := js "Text boxes arranged like a table detected";
          Issue.messageDE := js "Textfelder in Tabellenanordnung erkannt";
          Issue.wcagCriteria := Some (js "1.3.1");
          Issue.pdfuaClause := Some (js "7.5");
          Issue.suggestion :=
            Some (js "Convert to a real table for proper accessibility markup");
          Issue.suggestionDE :=
            Some (js "Konvertieren Sie in eine echte Tabelle für korrektes Accessibility-Markup");
          Issue.autoFixable := false;
          Issue.context :=
            Some (Number_toString (Z.of_nat (length rows)) ++ js " rows × "
                  ++ Number_toString (Z.of_nat (hd 0%nat rowSizes))
                  ++ js " columns of textboxes") |} ]
    else [].

Definition validateBackgroundElement (element : SlideElement.t)
  (slideNumber : Z) : list Issue.t :=
  let id := SlideElement.id element in
  if bool_decide (SlideElement.type element = image)
     && negb (SlideElement.isDecorative element) then
     [ {| Issue.id :=
            slidePrefix slideNumber ++ js "-bg-" ++ id ++ js "-not-decorative";
          Issue.type := background_not_decorative;
          Issue.severity := info;
          Issue.slideNumber := Some slideNumber;
          Issue.elementId := Some id;
          Issue.elementType := Some (SlideElement.type element);
          Issue.message := js "Background image should be marked as decorative";
          Issue.messageDE :=
            js "Hintergrundbild sollte als dekorativ markiert sein";
          Issue.wcagCriteria := None;
          Issue.pdfuaClause := Some (js "7.18");
          Issue.suggestion :=
            Some (js "Mark background images as decorative (artifact)");
          Issue.suggestionDE :=
            Some (js "Markieren Sie Hintergrundbilder als dekorativ (Artefakt)");
          Issue.autoFixable := true;
          Issue.context := None |} ]
  else [].

Definition validateSlide (slide : Slide.t) : list Issue.t :=
  let n := Slide.number slide in
  validateSlideTitle slide
  ++ validateReadingOrder slide
  ++ flat_map (fun element => validateElement element n) (Slide.elements slide)
  ++ validatePseudoTables slide
  ++ flat_map (fun bg => validateBackgroundElement bg n)
       (Slide.backgroundElements slide).

Definition collectPresentationIssues (p : Presentation.t) : list Issue.t :=
  Presentation.issues p
  ++ flat_map
       (fun slide =>
          Slide.issues slide
          ++ flat_map SlideElement.issues (Slide.elements slide))
       (Presentation.slides p).

(** [this.issues] when [generateReport] is called. *)
Definition collectedIssues (p : Presentation.t) : list Issue.t :=
  validateDocument p
  ++ flat_map validateSlide (Presentation.slides p)
  ++ collectPresentationIssues p.

(** The callback of [filter] in [deduplicateIssues], with the set [seen]
    threaded through the traversal. *)
Fixpoint dedupFrom (seen : gset jsstring) (issues : list Issue.t)
  : list Issue.t :=
  match issues with
  | [] => []
  | issue :: rest =>
      if bool_decide (Issue.id issue ∈ seen) then dedupFrom seen rest
      else issue :: dedupFrom ({[ Issue.id issue ]} ∪ seen) rest
  end.

Definition deduplicateIssues (issues : list Issue.t) : list Issue.t :=
  dedupFrom ∅ issues.

Definition calculateScore (errors warnings infos : Z) : Z :=
  let score := 100 in
  let score := score - errors * 15 in
  let score := score - warnings * 5 in
  let score := score - infos * 1 in
  Z.max 0 score.

Definition determineConformance (errors warnings : Z) : Conformance.t :=
  if (errors =? 0) && (warnings =? 0) then
    {| Conformance.wcagLevel := Wcag.AAA;
       Conformance.pdfuaLevel := Pdfua.PDF_UA_1;
       Conformance.bitvConformant := true |}
  else if errors =? 0 then
    {| Conformance.wcagLevel := Wcag.AA;
       Conformance.pdfuaLevel := Pdfua.PDF_UA_1;
       Conformance.bitvConformant := true |}
  else if errors <=? 3 then
    {| Conformance.wcagLevel := Wcag.A;
       Conformance.pdfuaLevel := Pdfua.partial;
       Conformance.bitvConformant := false |}
  else
    {| Conformance.wcagLevel := Wcag.none;
       Conformance.pdfuaLevel := Pdfua.none;
       Conformance.bitvConformant := false |}.

Definition hasSeverity (s : Severity) (i : Issue.t) : bool :=
  bool_decide (Issue.severity i = s).

(** [if (issue.slideNumber)]: defined and not zero. *)
Definition slideLine (label : jsstring) (i : Issue.t) : list jsstring :=
  match Issue.slideNumber i with
  | Some n => if n =? 0 then [] else [label ++ Number_toString n]
  | None => []
  end.

(** [generateSummary]; [now] is the time that its [new Date()] reads. *)
Definition generateSummary (p : Presentation.t) (now : Z)
  (errors warnings : Z) (issues : list Issue.t) : jsstring :=
  let lines :=
    [ js "=== Accessibility Report ===" ++ nl;
      js "Document: "
        ++ or_else (Metadata.title (Presentation.metadata p)) (js "Untitled");
      js "Date: " ++ Date.toISOString now ++ nl ]
    ++ (if (errors =? 0) && (warnings =? 0)
        then [ js "✅ No accessibility issues found." ++ nl ]
        else [ js "Found " ++ Number_toString errors ++ js " error(s) and "
               ++ Number_toString warnings ++ js " warning(s)." ++ nl ])
    ++ (if 0 <? errors then
          js "--- Errors (must fix) ---"
          :: flat_map
               (fun issue =>
                  [ js "• " ++ Issue.message issue ]
                  ++ slideLine (js "  Slide: ") issue
                  ++ match Issue.wcagCriteria issue with
                     | Some c => if truthy c then [ js "  WCAG: " ++ c ] else []
                     | None => []
                     end
                  ++ [ [] ])
               (List.filter (hasSeverity error) issues)
        else [])
    ++ (if 0 <? warnings then
          js "--- Warnings (should fix) ---"
          :: flat_map
               (fun issue =>
                  [ js "• " ++ Issue.message issue ]
                  ++ slideLine (js "  Slide: ") issue
                  ++ [ [] ])
               (List.filter (hasSeverity warning) issues)
        else []) in
  join nl lines.

(** [WCAG_CRITERIA]: criterion, title, German title, level. *)
Definition WCAG_CRITERIA : list (jsstring * (jsstring * jsstring * jsstring)) :=
  [ (js "1.1.1", (js "Non-text Content", js "Nicht-Text-Inhalt", js "A"));
    (js "1.3.1", (js "Info and Relationships",
                  js "Informationen und Beziehungen", js "A"));
    (js "1.3.2", (js "Meaningful Sequence",
                  js "Bedeutungstragende Reihenfolge", js "A"));
    (js "1.4.3", (js "Contrast (Minimum)", js "Kontrast (Minimum)", js "AA"));
    (js "2.4.2", (js "Page Titled", js "Seite mit Titel versehen", js "A"));
    (js "2.4.4", (js "Link Purpose (In Context)",
                  js "Linkzweck (im Kontext)", js "A"));
    (js "2.4.6", (js "Headings and Labels",
                  js "Überschriften und Beschriftungen", js "AA"));
    (js "3.1.1", (js "Language of Page", js "Sprache der Seite", js "A"));
    (js "3.1.2", (js "Language of Parts", js "Sprache von Teilen", js "AA"));
    (js "4.1.2", (js "Name, Role, Value", js "Name, Rolle, Wert", js "A")) ].

(** [criterion?.titleDE || criterion?.title], or the empty string. *)
Definition criterionTitleDE (c : jsstring) : jsstring :=
  match List.find (fun kv => eqb (fst kv) c) WCAG_CRITERIA with
  | Some (_, (t, tDE, _)) => or_else tDE t
  | None => []
  end.

Definition suggestionLineDE (i : Issue.t) : list jsstring :=
  match Issue.suggestionDE i with
  | Some s => if truthy s then [ js "  Empfehlung: " ++ s ] else []
  | None => []
  end.

(** [generateSummaryDE]; [now] is the time that its [new Date()] reads. *)
Definition generateSummaryDE (p : Presentation.t) (w : World.t) (now : Z)
  (errors warnings : Z) (issues : list Issue.t) : jsstring :=
  let lines :=
    [ js "=== Barrierefreiheits-Prüfbericht ===" ++ nl;
      js "Dokument: "
        ++ or_else (Metadata.title (Presentation.metadata p)) (js "Ohne Titel");
      js "Datum: " ++ Date.toLocaleDateString_de w now ++ nl ]
    ++ (if (errors =? 0) && (warnings =? 0)
        then [ js "✅ Keine Barrierefreiheitsprobleme gefunden." ++ nl ]
        else [ Number_toString errors ++ js " Fehler und "
               ++ Number_toString warnings ++ js " Warnungen gefunden." ++ nl ])
    ++ (if 0 <? errors then
          js "--- Fehler (müssen behoben werden) ---"
          :: flat_map
               (fun issue =>
                  [ js "• " ++ or_else (Issue.messageDE issue) (Issue.message issue) ]
                  ++ slideLine (js "  Folie: ") issue
                  ++ match Issue.wcagCriteria issue with
                     | Some c =>
                         if truthy c
                         then [ js "  WCAG: " ++ c ++ js " - " ++ criterionTitleDE c ]
                         else []
                     | None => []
                     end
                  ++ suggestionLineDE issue
                  ++ [ [] ])
               (List.filter (hasSeverity error) issues)
        else [])
    ++ (if 0 <? warnings then
          js "--- Warnungen (sollten behoben werden) ---"
          :: flat_map
               (fun issue =>
                  [ js "• " ++ or_else (Issue.messageDE issue) (Issue.message issue) ]
                  ++ slideLine (js "  Folie: ") issue
                  ++ suggestionLineDE issue
                  ++ [ [] ])
               (List.filter (hasSeverity warning) issues)
        else []) in
  join nl lines.

Definition hasType (issues : list Issue.t) (t : IssueType) : bool :=
  List.existsb (fun i => bool_decide (Issue.type i = t)) issues.

Definition generateRecommendations (issues : list Issue.t) : list jsstring :=
  (if hasType issues missing_alt_text then
     [ js "Add alternative text to all meaningful images. In PowerPoint: Right-click image > Edit Alt Text." ]
   else [])
  ++ (if hasType issues missing_title || hasType issues missing_document_title then
     [ js "Ensure all slides have titles and the document has a title. This aids navigation with assistive technology." ]
   else [])
  ++ (if hasType issues table_missing_headers then
     [ js "Mark table headers properly. In PowerPoint: Table Design > Header Row checkbox." ]
   else [])
  ++ (if hasType issues reading_order_unclear then
     [ js "Review reading order using the Selection Pane (Home > Arrange > Selection Pane)." ]
   else [])
  ++ (if hasType issues pseudo_table then
     [ js "Convert text boxes arranged as tables into real tables for proper structure and accessibility." ]
   else [])
  ++ (if hasType issues missing_language then
     [ js "Set the document language in File > Options > Language." ]
   else []).

Definition countSeverity (s : Severity) (issues : list Issue.t) : Z :=
  Z.of_nat (length (List.filter (hasSeverity s) issues)).

(** [generateReport], given [this.issues]. The clock is read three times:
    by [generateSummary], by [timestamp: new Date()] and by
    [generateSummaryDE], in this order. *)
Definition generateReport (p : Presentation.t) (issues : list Issue.t)
  (w0 : World.t) : Report.t * World.t :=
  let uniqueIssues := deduplicateIssues issues in
  let errorCount := countSeverity error uniqueIssues in
  let warningCount := countSeverity warning uniqueIssues in
  let infoCount := countSeverity info uniqueIssues in
  let overallScore := calculateScore errorCount warningCount infoCount in
  let conformance := determineConformance errorCount warningCount in
  let '(t1, w1) := newDate w0 in
  let summary := generateSummary p t1 errorCount warningCount uniqueIssues in
  let '(t2, w2) := newDate w1 in
  let '(t3, w3) := newDate w2 in
  ({| Report.timestamp := t2;
      Report.documentTitle :=
        or_else (Metadata.title (Presentation.metadata p)) (js "Unbenannt");
      Report.issues := uniqueIssues;
      Report.summary :=
        {| Summary.total := Z.of_nat (length uniqueIssues);
           Summary.errors := errorCount;
           Summary.warnings := warningCount;
           Summary.info := infoCount;
           Summary.autoFixable :=
             Z.of_nat (length (List.filter Issue.autoFixable uniqueIssues)) |};
      Report.conformance := conformance;
      Report.overallScore := overallScore;
      Report.wcagLevel := Conformance.wcagLevel conformance;
      Report.pdfuaConformant := errorCount =? 0;
      Report.recommendations := generateRecommendations uniqueIssues;
      Report.stats := Presentation.stats p;
      Report.reportText := summary;
      Report.reportTextDE :=
        generateSummaryDE p w3 t3 errorCount warningCount uniqueIssues |},
   w3).

(** [validate()] of a validator constructed with [presentation] and
    [profile]; the profile is stored and never read. *)
Definition validate (presentation : Presentation.t)
  (profile : option ConversionProfile.t) (w : World.t)
  : Report.t * World.t :=
  generateReport presentation (collectedIssues presentation) w.

End Validator.

(** [validatePresentation(presentation, profile)]. *)
Definition validatePresentation (presentation : Presentation.t)
  (profile : option ConversionProfile.t) (w : World.t) : Report.t :=
  fst (Validator.validate presentation profile w).


(* ===================================================================== *)
(** ** The generator ([class PdfUaGenerator])                              *)
(* ===================================================================== *)

Module Generator.

(** [Partial<GeneratorOptions>], the argument of the constructor. *)
Module Options.
Record t := mk {
  profile : option ConversionProfile.t;
  documentTitle : option jsstring;
  language : option jsstring;
  includeBookmarks : option bool;
  embedFonts : option bool;
}.
End Options.

(** [this.options], as the constructor fills it:
    [language: options.language || "de"], [includeBookmarks ?? true]. *)
Module Config.
Record t := mk {
  documentTitle : option jsstring;
  language : jsstring;
  includeBookmarks : bool;
  embedFonts : bool;
}.
End Config.

Definition constructor (options : Options.t) : Config.t :=
  {| Config.documentTitle := Options.documentTitle options;
     Config.language := opt_or_else (Options.language options) (js "de");
     Config.includeBookmarks :=
       default true (Options.includeBookmarks options);
     Config.embedFonts := default true (Options.embedFonts options) |}.

(** A value of the [attributes] record of a structure element: the page
    (by index) under [Pg], or a cell scope under [Scope]. *)
Inductive Attribute :=
  | Pg (pageIndex : nat)
  | Scope (scope : CellScope).

(** [interface PDFStructureElement]. *)
Inductive PDFStructureElement :=
  StructElem (role : SemanticRole) (kids : list PDFStructureElement)
    (attributes : option Attribute)
    (actualText altText lang : option jsstring).

Definition role (s : PDFStructureElement) : SemanticRole :=
  let 'StructElem r _ _ _ _ _ := s in r.
Definition kids (s : PDFStructureElement) : list PDFStructureElement :=
  let 'StructElem _ k _ _ _ _ := s in k.

(** The information dictionary and catalog entries that the generator
    sets on the [PDFDocument]. *)
Module Doc.
Record t := mk {
  Title : option jsstring;
  Language : option jsstring;
  Author : option jsstring;
  Subject : option jsstring;
  Keywords : option (list jsstring);
  Creator : option jsstring;
  Producer : option jsstring;
  CreationDate : option Z;
  ModificationDate : option Z;
  pageCount : nat;
  Marked : bool;
  DisplayDocTitle : bool;
}.
End Doc.

(** [PDFDocument.create()]. *)
Definition emptyDoc : Doc.t :=
  Doc.mk None None None None None None None None None 0 false false.

Definition textOf (element : SlideElement.t) : jsstring :=
  opt_or_else (Content.text (SlideElement.content element)) [].

(** [setMetadata]. *)
Definition setMetadata (cfg : Config.t) (presentation : Presentation.t)
  (doc : Doc.t) (w0 : World.t) : Doc.t * World.t :=
  let md := Presentation.metadata presentation in
  let title :=
    opt_or_else (Config.documentTitle cfg)
      (or_else (Metadata.title md) (js "Unbenannte Präsentation")) in
  let language :=
    or_else (Config.language cfg) (or_else (Metadata.language md) (js "de")) in
  let '(t1, w1) := newDate w0 in
  let '(t2, w2) := newDate w1 in
  ({| Doc.Title := Some title;
      Doc.Language := Some language;
      Doc.Author :=
        if truthy_opt (Metadata.author md) then Metadata.author md
        else Doc.Author doc;
      Doc.Subject :=
        if truthy_opt (Metadata.subject md) then Metadata.subject md
        else Doc.Subject doc;
      Doc.Keywords :=
        match Metadata.keywords md with
        | Some k => Some k
        | None => Doc.Keywords doc
        end;
      Doc.Creator := Some (js "Barrierefreiheit-Plattform PDF/UA Generator");
      Doc.Producer :=
        Some (js "Barrierefreiheit-Plattform (https://barrierefreiheit.example.de)");
      Doc.CreationDate := Some t1;
      Doc.ModificationDate := Some t2;
      Doc.pageCount := Doc.pageCount doc;
      Doc.Marked := Doc.Marked doc;
      Doc.DisplayDocTitle := Doc.DisplayDocTitle doc |}, w2).

(** The map built from [slide.elements.map(e => [e.id, e])]: a later
    entry replaces an earlier one with the same key. *)
Definition elementMap (elements : list SlideElement.t)
  : gmap jsstring SlideElement.t :=
  fold_left (fun m e => <[ SlideElement.id e := e ]> m) elements ∅.

(** [getOrderedElements]. *)
Definition getOrderedElements (slide : Slide.t) : list SlideElement.t :=
  let m := elementMap (Slide.elements slide) in
  omap (fun id => m !! id) (Slide.readingOrder slide)
  ++ List.filter
       (fun element =>
          negb (bool_decide (SlideElement.id element ∈ Slide.readingOrder slide)))
       (Slide.elements slide).

(** The [structure] component of what the render functions return; the
    text drawn on the page and the running [y] position do not enter it. *)
Definition paragraphLike (r : SemanticRole) (cfg : Config.t)
  (element : SlideElement.t) : PDFStructureElement :=
  StructElem r [] None (Some (textOf element)) None (Some (Config.language cfg)).

Definition renderTitle := paragraphLike Role.H1.
Definition renderSubtitle := paragraphLike Role.H2.
Definition renderParagraph := paragraphLike Role.P.

Definition renderListItem (i : nat) (item : ListItem.t) : PDFStructureElement :=
  let bullet :=
    match ListItem.listType item with
    | ordered => Number_toString (Z.of_nat i + 1) ++ js "."
    | bullet => js "-"
    end in
  StructElem Role.LI
    [ StructElem Role.Lbl [] None (Some bullet) None None;
      StructElem Role.LBody [] None (Some (ListItem.text item)) None None ]
    None None None None.

Definition renderList (cfg : Config.t) (element : SlideElement.t)
  : PDFStructureElement :=
  let items :=
    match SlideElement.listData element with
    | Some d => ListData.items d
    | None => []
    end in
  StructElem Role.L (imap renderListItem items) None None None
    (Some (Config.language cfg)).

Definition renderCell (isHeaderRow : bool) (cell : TableCell.t)
  : PDFStructureElement :=
  StructElem
    (if TableCell.isHeader cell || isHeaderRow then Role.TH else Role.TD)
    []
    (Scope <$> TableCell.scope cell)
    (Some (TableCell.content cell)) None None.

Definition renderTable (cfg : Config.t) (element : SlideElement.t)
  : PDFStructureElement :=
  match SlideElement.tableData element with
  | None => StructElem Role.Table [] None None None None
  | Some tableData =>
      StructElem Role.Table
        (imap
           (fun rowIndex row =>
              let isHeaderRow :=
                (rowIndex =? 0)%nat && TableData.hasHeaderRow tableData in
              StructElem Role.TR (List.map (renderCell isHeaderRow) row)
                None None None None)
           (TableData.cells tableData))
        None None None (Some (Config.language cfg))
  end.

Definition renderImage (cfg : Config.t) (element : SlideElement.t)
  : PDFStructureElement :=
  StructElem Role.Figure [] None None
    (Some (opt_or_else (Content.altText (SlideElement.content element))
             (js "[Bild ohne Alternativtext]")))
    (Some (Config.language cfg)).

Definition renderChart (cfg : Config.t) (element : SlideElement.t)
  : PDFStructureElement :=
  let c := SlideElement.content element in
  StructElem Role.Figure [] None None
    (Some (opt_or_else (Content.altText c)
             (opt_or_else (Content.longDescription c) (js "Diagramm"))))
    (Some (Config.language cfg)).

Definition renderSmartArt (cfg : Config.t) (element : SlideElement.t)
  : PDFStructureElement :=
  let altText := Content.altText (SlideElement.content element) in
  StructElem (if truthy_opt altText then Role.Figure else Role.L) [] None None
    altText (Some (Config.language cfg)).

(** [renderElement]: it never returns [null]. *)
Definition renderElement (cfg : Config.t) (element : SlideElement.t)
  : PDFStructureElement :=
  match SlideElement.type element with
  | title => renderTitle cfg element
  | subtitle => renderSubtitle cfg element
  | body | paragraph | textbox => renderParagraph cfg element
  | list_ => renderList cfg element
  | table => renderTable cfg element
  | image => renderImage cfg element
  | chart => renderChart cfg element
  | smartart => renderSmartArt cfg element
  | _ => renderParagraph cfg element
  end.

(** What one turn of the loop of [renderSlide] does with an element:
    [renderArtifact] draws on the page only (a grey rectangle for an image,
    nothing for any other type); [renderElement] yields a structure
    element, which is pushed onto the kids of the page. *)
Inductive Rendered :=
  | AsArtifact (drawsRectangle : bool)
  | AsStructure (structure : PDFStructureElement).

Definition renderArtifact (element : SlideElement.t) : Rendered :=
  AsArtifact (bool_decide (SlideElement.type element = image)).

Definition renderOne (cfg : Config.t) (element : SlideElement.t) : Rendered :=
  if SlideElement.isDecorative element then renderArtifact element
  else AsStructure (renderElement cfg element).

Definition structureOf (r : Rendered) : option PDFStructureElement :=
  match r with
  | AsArtifact _ => None
  | AsStructure s => Some s
  end.

(** An entry of [this.bookmarks]; its [y] is the same constant for every
    entry and is left out. *)
Module Bookmark.
Record t := mk { title : jsstring; pageIndex : Z }.
End Bookmark.

(** The generator's mutable fields [doc], [structureTree] and [bookmarks];
    [rendered] records, page by page, what the loop of [renderSlide] did with
    each element. *)
Module State.
Record t := mk {
  doc : Doc.t;
  structureTree : list PDFStructureElement;
  bookmarks : list Bookmark.t;
  rendered : list (list Rendered);
}.
End State.

Definition addPage (doc : Doc.t) : Doc.t :=
  Doc.mk (Doc.Title doc) (Doc.Language doc) (Doc.Author doc)
    (Doc.Subject doc) (Doc.Keywords doc) (Doc.Creator doc)
    (Doc.Producer doc) (Doc.CreationDate doc) (Doc.ModificationDate doc)
    (S (Doc.pageCount doc)) (Doc.Marked doc) (Doc.DisplayDocTitle doc).

(** The page structure element that [renderSlide] pushes. *)
Definition pageStructure (cfg : Config.t) (pageIndex : nat) (slide : Slide.t)
  : PDFStructureElement :=
  StructElem Role.Part
    (omap (fun e => structureOf (renderOne cfg e)) (getOrderedElements slide))
    (Some (Pg pageIndex)) None None None.

(** [renderSlide]. *)
Definition renderSlide (cfg : Config.t) (st : State.t) (slide : Slide.t)
  : State.t :=
  let doc := addPage (State.doc st) in
  let orderedElements := getOrderedElements slide in
  let pageIndex := Doc.pageCount (State.doc st) in
  {| State.doc := doc;
     State.structureTree :=
       State.structureTree st ++ [ pageStructure cfg pageIndex slide ];
     State.bookmarks :=
       State.bookmarks st ++
       match List.find
               (fun e => bool_decide (SlideElement.type e = title))
               orderedElements with
       | Some titleElement =>
           match Content.text (SlideElement.content titleElement) with
           | Some t =>
               if truthy t
               then [ Bookmark.mk t (Z.of_nat (Doc.pageCount doc) - 1) ]
               else []
           | None => []
           end
       | None => []
       end;
     State.rendered :=
       State.rendered st ++ [ List.map (renderOne cfg) orderedElements ] |}.

(** [addStructureTree]: the catalog entries [MarkInfo] and
    [ViewerPreferences]. *)
Definition addStructureTree (doc : Doc.t) : Doc.t :=
  Doc.mk (Doc.Title doc) (Doc.Language doc) (Doc.Author doc)
    (Doc.Subject doc) (Doc.Keywords doc) (Doc.Creator doc)
    (Doc.Producer doc) (Doc.CreationDate doc) (Doc.ModificationDate doc)
    (Doc.pageCount doc) true true.

(** [setPdfUaIdentifier]. *)
Definition setPdfUaIdentifier (doc : Doc.t) : Doc.t :=
  let existingSubject := opt_or_else (Doc.Subject doc) [] in
  Doc.mk (Doc.Title doc) (Doc.Language doc) (Doc.Author doc)
    (Some (existingSubject
           ++ (if truthy existingSubject then js " | " else [])
           ++ js "PDF/UA-1 (ISO 14289-1)"))
    (Doc.Keywords doc) (Doc.Creator doc)
    (Doc.Producer doc) (Doc.CreationDate doc) (Doc.ModificationDate doc)
    (Doc.pageCount doc) (Doc.Marked doc) (Doc.DisplayDocTitle doc).

(** [generate], up to the call of [doc.save()]: the document that is
    serialised and the generator's structure tree. [addBookmarks] changes
    nothing. *)
Definition generate (options : Options.t) (presentation : Presentation.t)
  (w : World.t) : State.t * World.t :=
  let cfg := constructor options in
  let '(doc, w') := setMetadata cfg presentation emptyDoc w in
  let st :=
    fold_left (renderSlide cfg) (Presentation.slides presentation)
      (State.mk doc [] [] []) in
  (State.mk (setPdfUaIdentifier (addStructureTree (State.doc st)))
     (State.structureTree st) (State.bookmarks st) (State.rendered st),
   w').

(** [UNICODE_REPLACEMENTS], in the order of its entries, which is the order
    of [Object.entries]. A key outside the Basic Multilingual Plane is a
    surrogate pair. *)
Definition UNICODE_REPLACEMENTS : list (jsstring * jsstring) :=
  [ (utf16_units 0x1F4CA, js "[Diagramm]");
    (utf16_units 0x1F4C8, js "[Aufwaertstrend]");
    (utf16_units 0x1F4C9, js "[Abwaertstrend]");
    (utf16_units 0x1F4C1, js "[Ordner]");
    (utf16_units 0x1F4C4, js "[Dokument]");
    (utf16_units 0x1F4F7, js "[Foto]");
    (utf16_units 0x1F5BC, js "[Bild]");
    ([0x2713%N], js "x");
    ([0x2714%N], js "x");
    ([0x2717%N], js "-");
    ([0x2718%N], js "-");
    ([0x2192%N], js "->");
    ([0x2190%N], js "<-");
    ([0x2191%N], js "^");
    ([0x2193%N], js "v");
    ([0x2022%N], js "-");
    ([0x2013%N], js "-");
    ([0x2014%N], js "-");
    ([0x2026%N], js "...");
    ([0x201E%N], dq);
    ([0x201C%N], dq);
    ([0x201D%N], dq);
    ([0x2018%N], js "'");
    ([0x2019%N], js "'");
    ([0xAB%N], js "<<");
    ([0xBB%N], js ">>") ].

(** [sanitizeForWinAnsi]. The pattern [[^\x00-\xFF]] matches one code unit
    above 0xFF at a time, and the callback replaces each by the empty
    string. *)
Definition sanitizeForWinAnsi (text : jsstring) : jsstring :=
  if negb (truthy text) then []
  else
    let result :=
      fold_left (fun result entry => splitJoin (fst entry) (snd entry) result)
        UNICODE_REPLACEMENTS text in
    List.filter (fun c => (c <=? 255)%N) result.

(** One turn of the loop of [wrapText], on the state
    [(lines, currentLine)]. [tooWide testLine] stands for
    [font.widthOfTextAtSize(testLine, fontSize) > maxWidth]. *)
Definition wrapWord (tooWide : jsstring -> bool)
  (st : list jsstring * jsstring) (word : jsstring)
  : list jsstring * jsstring :=
  let currentLine := snd st in
  let testLine :=
    if truthy currentLine then currentLine ++ js " " ++ word else word in
  if tooWide testLine && truthy currentLine
  then (fst st ++ [ currentLine ], word)
  else (fst st, testLine).

(** [wrapText]. *)
Definition wrapText (tooWide : jsstring -> bool) (text : jsstring)
  : list jsstring :=
  let sanitizedText := sanitizeForWinAnsi text in
  let words := splitWhitespace sanitizedText in
  let st := fold_left (wrapWord tooWide) words ([], []) in
  let lines :=
    if truthy (snd st) then fst st ++ [ snd st ] else fst st in
  match lines with
  | [] => [ [] ]
  | _ :: _ => lines
  end.


End Generator.

(* ===================================================================== *)
(** ** The parser ([class PptxParser]): alt text and tables                *)
(* ===================================================================== *)

(** The XML nodes are the objects that [xml2js] builds; each record keeps
    the children and attributes that the parser reads. *)
Module Parser.

(** An [a:ext] node: [decorative] is its [adec:decorative] child, if any,
    and, inside, the [val] attribute of that child, if any. *)
Module Ext.
Record t := mk { decorative : option (option jsstring) }.
End Ext.

(** A [p:cNvPr] node: the attributes [id], [name], [descr] and [title]
    (absent attributes are [undefined]) and the [a:ext] children of its
    first [a:extLst] child, if there is one. *)
Module CNvPr.
Record t := mk {
  id : option jsstring;
  name : option jsstring;
  descr : option jsstring;
  title : option jsstring;
  extLst : option (list Ext.t);
}.
End CNvPr.

(** [extractDecorativeFlag]: decided by the first extension that has an
    [adec:decorative] child. *)
Fixpoint decorativeOfExts (exts : list Ext.t) : bool :=
  match exts with
  | [] => false
  | ext :: rest =>
      match Ext.decorative ext with
      | Some val =>
          match val with
          | Some v => eqb v (js "1") || eqb v (js "true")
          | None => false
          end
      | None => decorativeOfExts rest
      end
  end.

Definition extractDecorativeFlag (extLst : option (list Ext.t)) : bool :=
  match extLst with
  | None => false
  | Some exts => decorativeOfExts exts
  end.

Module AltText.
Record t := mk {
  altText : option jsstring;
  isDecorative : bool;
  longDescription : option jsstring;
}.
End AltText.

(** [extractAltText]. *)
Definition extractAltText (cNvPr : option CNvPr.t) : AltText.t :=
  match cNvPr with
  | None => AltText.mk None false None
  | Some node =>
      let descr := CNvPr.descr node in
      let title := CNvPr.title node in
      let decorative := extractDecorativeFlag (CNvPr.extLst node) in
      {| AltText.altText := opt_or descr title;
         AltText.isDecorative :=
           decorative || bool_decide (descr = Some [])
           || bool_decide (descr = Some (js " "));
         AltText.longDescription :=
           if truthy_opt title && truthy_opt descr then descr else None |}
  end.

(** [determineAltTextStatus]. *)
Definition determineAltTextStatus (altText : option jsstring)
  (isDecorative : bool) (elementType : ElementType) : AltTextStatus :=
  if isDecorative then decorative
  else match altText with
  | None => missing
  | Some t =>
      if negb (truthy t) then missing
      else if eqb (trim t) [] then missing
      else present
  end.

(** [s.includes(sub)]. *)
Fixpoint includes (s sub : jsstring) : bool :=
  isPrefixOf sub s
  || match s with
     | [] => false
     | _ :: r => includes r sub
     end.

(** [mapPlaceholderToType], for a placeholder type that is not the name
    of a property that every object inherits. *)
Definition mapPlaceholderToType (phType name : jsstring) : ElementType :=
  if eqb phType (js "title") || eqb phType (js "ctrTitle") then title
  else if eqb phType (js "subTitle") then subtitle
  else if eqb phType (js "body") then body
  else if eqb phType (js "dt") then date
  else if eqb phType (js "ftr") then footer
  else if eqb phType (js "sldNum") then slideNumber
  else
    let lowerName := toLowerCase name in
    if includes lowerName (js "title") then title
    else if includes lowerName (js "subtitle") then subtitle
    else if includes lowerName (js "content") || includes lowerName (js "body")
    then body
    else textbox.

Definition mapTypeToRole (t : ElementType) : SemanticRole :=
  match t with
  | title => Role.H1
  | subtitle => Role.H2
  | body | paragraph | textbox => Role.P
  | list_ => Role.L
  | listItem => Role.LI
  | table => Role.Table
  | image | shape | chart | smartart => Role.Figure
  | group => Role.Sect
  | footer | slideNumber | date => Role.Artifact
  | unknown => Role.Span
  end.

(** A [p:sp] node. [phType], [position], [text] and [hyperlink] stand for
    the results of [getPlaceholderType], [extractPosition],
    [extractTextContent] and [extractHyperlink] on its children. *)
Module Shape.
Record t := mk {
  nvSpPr : option (option CNvPr.t);
  phType : jsstring;
  position : Position.t;
  text : jsstring;
  hyperlink : option jsstring;
}.
End Shape.

(** A [p:pic] node. *)
Module Picture.
Record t := mk {
  nvPicPr : option (option CNvPr.t);
  position : Position.t;
}.
End Picture.

(** [attrs.id || `prefix-${Date.now()}`]. *)
Definition idOrStamp (cNvPr : option CNvPr.t) (prefix : jsstring)
  (w : World.t) : jsstring :=
  match cNvPr with
  | Some node =>
      opt_or_else (CNvPr.id node)
        (prefix ++ Number_toString (World.now w (World.ticks w)))
  | None => prefix ++ Number_toString (World.now w (World.ticks w))
  end.

Definition nameOf (cNvPr : option CNvPr.t) : jsstring :=
  match cNvPr with
  | Some node => opt_or_else (CNvPr.name node) []
  | None => []
  end.

(** [parseShape]; [null] is [None]. *)
Definition parseShape (shape : Shape.t) (slideNumber : Z) (w : World.t)
  : option SlideElement.t :=
  match Shape.nvSpPr shape with
  | None => None
  | Some cNvPr =>
      let id := idOrStamp cNvPr (js "shape-") w in
      let name := nameOf cNvPr in
      let elementType := mapPlaceholderToType (Shape.phType shape) name in
      let text := Shape.text shape in
      let alt := extractAltText cNvPr in
      let altText := AltText.altText alt in
      let isDecorative := AltText.isDecorative alt in
      Some
        {| SlideElement.id := id;
           SlideElement.type := elementType;
           SlideElement.semanticRole := mapTypeToRole elementType;
           SlideElement.position := Shape.position shape;
           SlideElement.content :=
             {| Content.text := Some text;
                Content.altText := altText;
                Content.altTextStatus :=
                  determineAltTextStatus altText isDecorative elementType;
                Content.longDescription := None |};
           SlideElement.isDecorative := isDecorative;
           SlideElement.isGrouped := false;
           SlideElement.groupId := None;
           SlideElement.hyperlink := Shape.hyperlink shape;
           SlideElement.tableData := None;
           SlideElement.listData := None;
           SlideElement.issues :=
             if bool_decide (elementType = title) && negb (truthy (trim text))
             then
               [ {| Issue.id := js "issue-" ++ id ++ js "-empty-title";
                    Issue.type := missing_title;
                    Issue.severity := error;
                    Issue.slideNumber := Some slideNumber;
                    Issue.elementId := Some id;
                    Issue.elementType := Some elementType;
                    Issue.message := js "Slide title is empty";
                    Issue.messageDE := js "Folientitel ist leer";
                    Issue.wcagCriteria := Some (js "2.4.2");
                    Issue.pdfuaClause := Some (js "7.1");
                    Issue.suggestion :=
                      Some (js "Add a meaningful title to the slide");
                    Issue.suggestionDE :=
                      Some (js "Fügen Sie einen aussagekräftigen Titel hinzu");
                    Issue.autoFixable := false;
                    Issue.context := None |} ]
             else [] |}
  end.

(** [parsePicture]. *)
Definition parsePicture (pic : Picture.t) (slideNumber : Z) (w : World.t)
  : option SlideElement.t :=
  match Picture.nvPicPr pic with
  | None => None
  | Some cNvPr =>
      let id := idOrStamp cNvPr (js "pic-") w in
      let name := nameOf cNvPr in
      let alt := extractAltText cNvPr in
      let altText := AltText.altText alt in
      let isDecorative := AltText.isDecorative alt in
      let altTextStatus := determineAltTextStatus altText isDecorative image in
      Some
        {| SlideElement.id := id;
           SlideElement.type := image;
           SlideElement.semanticRole :=
             if isDecorative then Role.Artifact else Role.Figure;
           SlideElement.position := Picture.position pic;
           SlideElement.content :=
             {| Content.text := None;
                Content.altText := altText;
                Content.altTextStatus := altTextStatus;
                Content.longDescription := AltText.longDescription alt |};
           SlideElement.isDecorative := isDecorative;
           SlideElement.isGrouped := false;
           SlideElement.groupId := None;
           SlideElement.hyperlink := None;
           SlideElement.tableData := None;
           SlideElement.listData := None;
           SlideElement.issues :=
             if bool_decide (altTextStatus = missing) && negb isDecorative
             then
               [ {| Issue.id := js "issue-" ++ id ++ js "-missing-alt";
                    Issue.type := missing_alt_text;
                    Issue.severity := error;
                    Issue.slideNumber := Some slideNumber;
                    Issue.elementId := Some id;
                    Issue.elementType := Some image;
                    Issue.message :=
                      js "Image " ++ dq ++ name ++ dq
                        ++ js " is missing alt text";
                    Issue.messageDE :=
                      js "Bild " ++ dq ++ name ++ dq
                        ++ js " hat keinen Alternativtext";
                    Issue.wcagCriteria := Some (js "1.1.1");
                    Issue.pdfuaClause := Some (js "7.3");
                    Issue.suggestion :=
                      Some (js "Add descriptive alt text or mark as decorative");
                    Issue.suggestionDE :=
                      Some (js "Fügen Sie beschreibenden Alt-Text hinzu oder markieren Sie als dekorativ");
                    Issue.autoFixable := false;
                    Issue.context := Some name |} ]
             else [] |}
  end.

(** One turn of the inner loop of [parseTable], on the state
    [(tableData.hasHeaderRow, rowCells)]; [text] is what
    [extractTextContent] returns for the cell. *)
Definition parseCell (rowIndex : nat) (st : bool * list TableCell.t)
  (text : jsstring) : bool * list TableCell.t :=
  let isHeader := (rowIndex =? 0)%nat in
  (if isHeader then true else fst st,
   snd st ++ [ {| TableCell.content := text;
                  TableCell.isHeader := isHeader;
                  TableCell.scope := if isHeader then Some col else None |} ]).

(** The outer loop of [parseTable], from row [rowIndex] on. A row is the
    list of the texts of its [a:tc] cells. *)
Fixpoint parseRows (rowIndex : nat) (rows : list (list jsstring))
  (tableData : TableData.t) : TableData.t :=
  match rows with
  | [] => tableData
  | cells :: rest =>
      let columns :=
        if (rowIndex =? 0)%nat then Z.of_nat (length cells)
        else TableData.columns tableData in
      let '(hasHeaderRow, rowCells) :=
        fold_left (parseCell rowIndex) cells
          (TableData.hasHeaderRow tableData, []) in
      parseRows (S rowIndex) rest
        {| TableData.rows := TableData.rows tableData;
           TableData.columns := columns;
           TableData.cells := TableData.cells tableData ++ [ rowCells ];
           TableData.hasHeaderRow := hasHeaderRow;
           TableData.hasHeaderColumn := TableData.hasHeaderColumn tableData |}
  end.

(** [parseTable]; [rows] are the [a:tr] children of the table and
    [position] is [extractPosition(xfrm)]. *)
Definition parseTable (rows : list (list jsstring)) (id : jsstring)
  (position : Position.t) (slideNumber : Z) : SlideElement.t :=
  let tableData :=
    parseRows 0 rows
      {| TableData.rows := Z.of_nat (length rows);
         TableData.columns := 0;
         TableData.cells := [];
         TableData.hasHeaderRow := false;
         TableData.hasHeaderColumn := false |} in
  {| SlideElement.id := id;
     SlideElement.type := table;
     SlideElement.semanticRole := Role.Table;
     SlideElement.position := position;
     SlideElement.content :=
       {| Content.text := None;
          Content.altText := None;
          Content.altTextStatus := present;
          Content.longDescription := None |};
     SlideElement.isDecorative := false;
     SlideElement.isGrouped := false;
     SlideElement.groupId := None;
     SlideElement.hyperlink := None;
     SlideElement.tableData := Some tableData;
     SlideElement.listData := None;
     SlideElement.issues :=
       if negb (TableData.hasHeaderRow tableData)
          && (1 <? TableData.rows tableData)
       then
         [ {| Issue.id := js "issue-" ++ id ++ js "-no-header";
              Issue.type := table_missing_headers;
              Issue.severity := warning;
              Issue.slideNumber := Some slideNumber;
              Issue.elementId := Some id;
              Issue.elementType := Some table;
              Issue.message := js "Table has no header row defined";
              Issue.messageDE := js "Tabelle hat keine Kopfzeile definiert";
              Issue.wcagCriteria := Some (js "1.3.1");
              Issue.pdfuaClause := Some (js "7.5");
              Issue.suggestion := Some (js "Mark the first row as table header");
              Issue.suggestionDE :=
                Some (js "Markieren Sie die erste Zeile als Tabellenkopf");
              Issue.autoFixable := true;
              Issue.context := None |} ]
       else [] |}.

(** [parseChart]; [id] and [position] are what [parseGraphicFrame] and
    [extractPosition] hand over, [cNvPr] is the frame's [p:cNvPr] node. *)
Definition parseChart (id : jsstring) (position : Position.t)
  (cNvPr : option CNvPr.t) (slideNumber : Z) : SlideElement.t :=
  let alt := extractAltText cNvPr in
  let altText := AltText.altText alt in
  let isDecorative := AltText.isDecorative alt in
  {| SlideElement.id := id;
     SlideElement.type := chart;
     SlideElement.semanticRole := Role.Figure;
     SlideElement.position := position;
     SlideElement.content :=
       {| Content.text := None;
          Content.altText := altText;
          Content.altTextStatus :=
            determineAltTextStatus altText isDecorative chart;
          Content.longDescription := AltText.longDescription alt |};
     SlideElement.isDecorative := isDecorative;
     SlideElement.isGrouped := false;
     SlideElement.groupId := None;
     SlideElement.hyperlink := None;
     SlideElement.tableData := None;
     SlideElement.listData := None;
     SlideElement.issues :=
       if negb (truthy_opt altText) && negb isDecorative
       then
         [ {| Issue.id := js "issue-" ++ id ++ js "-chart-alt";
              Issue.type := missing_alt_text;
              Issue.severity := error;
              Issue.slideNumber := Some slideNumber;
              Issue.elementId := Some id;
              Issue.elementType := Some chart;
              Issue.message := js "Chart is missing alt text";
              Issue.messageDE := js "Diagramm hat keinen Alternativtext";
              Issue.wcagCriteria := Some (js "1.1.1");
              Issue.pdfuaClause := Some (js "7.3");
              Issue.suggestion :=
                Some (js "Add alt text describing the chart data and key insights");
              Issue.suggestionDE :=
                Some (js "Fügen Sie Alt-Text hinzu, der die Daten und wichtige Erkenntnisse beschreibt");
              Issue.autoFixable := false;
              Issue.context := None |} ]
       else [] |}.





(** The test in the inner loop of [checkForOverlaps]; [u > v] is
    [v < u]. *)
Definition overlapping (a b : Position.t) : bool :=
  let overlapX :=
    (Position.x a <? Position.x b + Position.width b)
    && (Position.x b <? Position.x a + Position.width a) in
  let overlapY :=
    (Position.y a <? Position.y b + Position.height b)
    && (Position.y b <? Position.y a + Position.height a) in
  overlapX && overlapY.

(** [checkForOverlaps]: the loops return [true] at the first pair
    [(elements[i], elements[j])], [i < j], that overlaps. *)
Fixpoint checkForOverlaps (elements : list SlideElement.t) : bool :=
  match elements with
  | [] => false
  | a :: rest =>
      List.existsb
        (fun b =>
           overlapping (SlideElement.position a) (SlideElement.position b))
        rest
      || checkForOverlaps rest
  end.

(** [detectPseudoTable]. The loop that files the text boxes under their
    rounded [y] is, word for word, the loop of the validator's
    [validatePseudoTables]. *)
Definition detectPseudoTable (textboxes : list SlideElement.t) : bool :=
  if (length textboxes <? 4)%nat then false
  else
    let rows := Validator.groupRows textboxes in
    let rowSizes := List.map (fun r => length (snd r)) rows in
    let allSameSize :=
      List.forallb (fun s => (s =? hd 0%nat rowSizes)%nat) rowSizes in
    let atLeastTwoRowsAndCols :=
      (2 <=? length rows)%nat && (2 <=? hd 0%nat rowSizes)%nat in
    allSameSize && atLeastTwoRowsAndCols.

(** The first check of the parser's [validateSlide]. *)
Definition missingSlideTitle (elements : list SlideElement.t)
  (slideNumber : Z) : list Issue.t :=
  let hasTitle :=
    List.existsb
      (fun e =>
         bool_decide (SlideElement.type e = title)
         && has_text (Content.text (SlideElement.content e)))
      elements in
  if negb hasTitle then
     [ {| Issue.id :=
            js "issue-slide-" ++ Number_toString slideNumber ++ js "-no-title";
          Issue.type := missing_title;
          Issue.severity := warning;
          Issue.slideNumber := Some slideNumber;
          Issue.elementId := None;
          Issue.elementType := None;
          Issue.message := js "Slide has no title";
          Issue.messageDE := js "Folie hat keinen Titel";
          Issue.wcagCriteria := Some (js "2.4.2");
          Issue.pdfuaClause := Some (js "7.1");
          Issue.suggestion :=
            Some (js "Add a title to every slide for navigation");
          Issue.suggestionDE :=
            Some (js "Fügen Sie jeder Folie einen Titel zur Navigation hinzu");
          Issue.autoFixable := false;
          Issue.context := None |} ]
  else [].

(** The second check of the parser's [validateSlide]. *)
Definition pseudoTableFound (elements : list SlideElement.t)
  (slideNumber : Z) : list Issue.t :=
  let textboxes :=
    List.filter (fun e => bool_decide (SlideElement.type e = textbox))
      elements in
  if (4 <=? length textboxes)%nat && detectPseudoTable textboxes then
     [ {| Issue.id :=
            js "issue-slide-" ++ Number_toString slideNumber
              ++ js "-pseudo-table";
          Issue.type := pseudo_table;
          Issue.severity := warning;
          Issue.slideNumber := Some slideNumber;
          Issue.elementId := None;
          Issue.elementType := None;
          Issue.message := js "Textboxes arranged like a table detected";
          Issue.messageDE := js "Textfelder in Tabellenform erkannt";
          Issue.wcagCriteria := None;
          Issue.pdfuaClause := None;
          Issue.suggestion :=
            Some (js "Convert to a proper table for accessibility");
          Issue.suggestionDE :=
            Some (js "Konvertieren Sie in eine echte Tabelle für Barrierefreiheit");
          Issue.autoFixable := false;
          Issue.context := None |} ]
  else [].

(** The parser's [validateSlide]: the issues that it pushes onto the
    [issues] array of the slide, which is empty when it is called; the
    last loop copies the issues of every element. *)
Definition validateSlide (elements : list SlideElement.t) (slideNumber : Z)
  : list Issue.t :=
  missingSlideTitle elements slideNumber
  ++ pseudoTableFound elements slideNumber
  ++ flat_map SlideElement.issues elements.

(** One turn of the loops of [parseSlide] over the shapes and the
    pictures, on the state [(elements, backgroundElements)]; [element] is
    what [parseShape] or [parsePicture] returned. *)
Definition place (st : list SlideElement.t * list SlideElement.t)
  (element : option SlideElement.t)
  : list SlideElement.t * list SlideElement.t :=
  match element with
  | None => st
  | Some e =>
      if SlideElement.isDecorative e then (fst st, snd st ++ [ e ])
      else (fst st ++ [ e ], snd st)
  end.

(** The four loops of [parseSlide]. [shapes], [pics] and [frames] are the
    results of [parseShape], [parsePicture] and [parseGraphicFrame] on the
    children of the shape tree and [groups] those of [parseGroup], each in
    the order of the nodes. *)
Definition placeAll (shapes pics frames : list (option SlideElement.t))
  (groups : list (list SlideElement.t))
  : list SlideElement.t * list SlideElement.t :=
  let st := fold_left place shapes ([], []) in
  let st := fold_left place pics st in
  (fst st ++ omap id frames ++ concat groups, snd st).

(** [parseSlide], from the parsed children on. [order] stands for the
    result of [calculateReadingOrder(elements)]: the reading order and its
    confidence. *)
Definition parseSlide (shapes pics frames : list (option SlideElement.t))
  (groups : list (list SlideElement.t))
  (order : list SlideElement.t -> list jsstring * Q) (slideNumber : Z)
  : Slide.t :=
  let st := placeAll shapes pics frames groups in
  let elements := fst st in
  {| Slide.number := slideNumber;
     Slide.id := js "slide-" ++ Number_toString slideNumber;
     Slide.elements := elements;
     Slide.readingOrder := fst (order elements);
     Slide.readingOrderConfidence := snd (order elements);
     Slide.backgroundElements := snd st;
     Slide.issues := validateSlide elements slideNumber |}.

(** One turn of the inner loop of [calculateStats]. *)
Definition countElement (stats : Stats.t) (element : SlideElement.t)
  : Stats.t :=
  let ty := SlideElement.type element in
  let pictured := bool_decide (ty = image) || bool_decide (ty = chart) in
  let isDecorative := SlideElement.isDecorative element in
  let described :=
    bool_decide
      (Content.altTextStatus (SlideElement.content element) = present) in
  let inc (b : bool) (n : Z) := if b then n + 1 else n in
  {| Stats.totalElements := Stats.totalElements stats + 1;
     Stats.imagesWithAltText :=
       inc (pictured && negb isDecorative && described)
         (Stats.imagesWithAltText stats);
     Stats.imagesWithoutAltText :=
       inc (pictured && negb isDecorative && negb described)
         (Stats.imagesWithoutAltText stats);
     Stats.decorativeImages :=
       inc (pictured && isDecorative) (Stats.decorativeImages stats);
     Stats.tables := inc (bool_decide (ty = table)) (Stats.tables stats);
     Stats.lists := inc (bool_decide (ty = list_)) (Stats.lists stats);
     Stats.links :=
       inc (truthy_opt (SlideElement.hyperlink element)) (Stats.links stats) |}.

(** [calculateStats]. *)
Definition calculateStats (slides : list Slide.t) : Stats.t :=
  fold_left
    (fun stats slide => fold_left countElement (Slide.elements slide) stats)
    slides (Stats.mk 0 0 0 0 0 0 0).

(** [collectGlobalIssues]; the slides are not read. *)
Definition collectGlobalIssues (metadata : Metadata.t) (slides : list Slide.t)
  : list Issue.t :=
  (if negb (truthy (trim (Metadata.title metadata))) then
     [ {| Issue.id := js "issue-global-no-title";
          Issue.type := missing_document_title;
          Issue.severity := error;
          Issue.slideNumber := None;
          Issue.elementId := None;
          Issue.elementType := None;
          Issue.message := js "Document has no title";
          Issue.messageDE := js "Dokument hat keinen Titel";
          Issue.wcagCriteria := Some (js "2.4.2");
          Issue.pdfuaClause := Some (js "7.1");
          Issue.suggestion :=
            Some (js "Add a document title in File > Info > Properties");
          Issue.suggestionDE :=
            Some (js "Fügen Sie einen Dokumenttitel unter Datei > Info > Eigenschaften hinzu");
          Issue.autoFixable := true;
          Issue.context := None |} ]
   else [])
  ++
  (let language := Metadata.language metadata in
   if negb (truthy language) || eqb language (js "und") then
     [ {| Issue.id := js "issue-global-no-language";
          Issue.type := missing_language;
          Issue.severity := error;
          Issue.slideNumber := None;
          Issue.elementId := None;
          Issue.elementType := None;
          Issue.message := js "Document language is not set";
          Issue.messageDE := js "Dokumentsprache ist nicht gesetzt";
          Issue.wcagCriteria := Some (js "3.1.1");
          Issue.pdfuaClause := Some (js "7.2");
          Issue.suggestion :=
            Some (js "Set the document language in File > Options > Language");
          Issue.suggestionDE :=
            Some (js "Setzen Sie die Dokumentsprache unter Datei > Optionen > Sprache");
          Issue.autoFixable := true;
          Issue.context := None |} ]
   else []).

(** [parse], from the results of [parseMetadata] and [parseSlides] on. *)
Definition parse (metadata : Metadata.t) (slides : list Slide.t)
  : Presentation.t :=
  {| Presentation.metadata := metadata;
     Presentation.slides := slides;
     Presentation.issues := collectGlobalIssues metadata slides;
     Presentation.stats := calculateStats slides |}.


End Parser.

(* ===================================================================== *)
(** ** The conversion route ([api/convert/pptx-to-pdf-ua/route.ts])        *)
(* ===================================================================== *)

Module Route.

Definition ALLOWED_EXTENSIONS : list jsstring := [ js ".pptx" ].

Definition MAX_FILE_SIZE : Z := 100 * 1024 * 1024.

(** [getFileExtension]: the match of [/\.[^.]+$/], which is the suffix
    that begins at a full stop followed by one or more characters none of
    which is a full stop, or the empty string. *)
Fixpoint getFileExtension (filename : jsstring) : jsstring :=
  match filename with
  | [] => []
  | c :: r =>
      if (c =? 46)%N && truthy r
         && List.forallb (fun d => negb (d =? 46)%N) r
      then filename
      else getFileExtension r
  end.

(** [validateFile]: [None] is [{ valid: true }] and [Some error] is
    [{ valid: false, error }]. *)
Definition validateFile (name : jsstring) (size : Z) : option jsstring :=
  if MAX_FILE_SIZE <? size then
    Some (js "Die Datei ist zu groß. Maximale Größe: "
          ++ Number_toString (MAX_FILE_SIZE / (1024 * 1024)) ++ js " MB")
  else
    let extension := toLowerCase (getFileExtension name) in
    if negb (List.existsb (eqb extension) ALLOWED_EXTENSIONS) then
      Some (js "Ungültiges Dateiformat. Nur "
            ++ join (js ", ") ALLOWED_EXTENSIONS
            ++ js " wird unterstützt.")
    else None.

(** [name.replace(/\.pptx$/i, ".pdf")]. *)
Fixpoint originalName (name : jsstring) : jsstring :=
  match name with
  | [] => []
  | c :: r =>
      if eqb_nocase (js ".pptx") name then js ".pdf"
      else c :: originalName r
  end.

(** The form fields [title] and [language]; a field that the request does
    not carry is [null]. *)
Module Form.
Record t := mk {
  title : option jsstring;
  language : option jsstring;
}.
End Form.

(** [const language = formData.get("language") || "de"]. *)
Definition language (form : Form.t) : jsstring :=
  opt_or_else (Form.language form) (js "de").

(** The two assignments to [presentation.metadata] that follow the call
    of the parser. *)
Definition applyForm (form : Form.t) (presentation : Presentation.t)
  : Presentation.t :=
  let md := Presentation.metadata presentation in
  {| Presentation.metadata :=
       {| Metadata.title :=
            match Form.title form with
            | Some customTitle =>
                if truthy customTitle then customTitle else Metadata.title md
            | None => Metadata.title md
            end;
          Metadata.author := Metadata.author md;
          Metadata.subject := Metadata.subject md;
          Metadata.keywords := Metadata.keywords md;
          Metadata.language :=
            if truthy (language form) then language form
            else Metadata.language md |};
     Presentation.slides := Presentation.slides presentation;
     Presentation.issues := Presentation.issues presentation;
     Presentation.stats := Presentation.stats presentation |}.

(** The argument of [new PdfUaGenerator(...)]. *)
Definition generatorOptions (profile : ConversionProfile.t)
  (presentation : Presentation.t) : Generator.Options.t :=
  {| Generator.Options.profile := Some profile;
     Generator.Options.documentTitle :=
       Some (Metadata.title (Presentation.metadata presentation));
     Generator.Options.language :=
       Some (Metadata.language (Presentation.metadata presentation));
     Generator.Options.includeBookmarks :=
       Some (ConversionProfile.includeBookmarks profile);
     Generator.Options.embedFonts :=
       Some (ConversionProfile.embedFonts profile) |}.

(** The [warnings] of the response of a conversion. *)
Definition responseWarnings (report : Report.t) : option (list jsstring) :=
  if 0 <? Summary.warnings (Report.summary report) then
    Some
      (List.map (fun i => or_else (Issue.messageDE i) (Issue.message i))
         (take 5
            (List.filter (Validator.hasSeverity warning)
               (Report.issues report))))
  else None.

(** The phases of [POST] between the parser and the response, for a
    request that asks for the conversion and switches the AI phase off:
    [parsed] is what [parser.parse] returned. *)
Definition convert (form : Form.t) (profile : ConversionProfile.t)
  (parsed : Presentation.t) (w : World.t) : Report.t * Generator.State.t :=
  let presentation := applyForm form parsed in
  let '(report, w1) := Validator.validate presentation (Some profile) w in
  let '(st, _) :=
    Generator.generate (generatorOptions profile presentation)
      presentation w1 in
  (report, st).

End Route.

(* ===================================================================== *)
(** ** Sample models                                                       *)
(* ===================================================================== *)

Module Sample.

(** An element without alt text, hyperlink, table or list data. *)
Definition element (id : jsstring) (ty : ElementType) (x y width height : Z)
  (text : option jsstring) : SlideElement.t :=
  {| SlideElement.id := id;
     SlideElement.type := ty;
     SlideElement.semanticRole := Parser.mapTypeToRole ty;
     SlideElement.position := Position.mk x y width height 0;
     SlideElement.content := Content.mk text None
                               (match ty with image => missing | _ => present end)
                               None;
     SlideElement.isDecorative := false;
     SlideElement.isGrouped := false;
     SlideElement.groupId := None;
     SlideElement.hyperlink := None;
     SlideElement.tableData := None;
     SlideElement.listData := None;
     SlideElement.issues := [] |}.

Definition heading (text : jsstring) : SlideElement.t :=
  element (js "2") title 40 20 880 60 (Some text).

Definition slide (n : Z) (elements : list SlideElement.t) : Slide.t :=
  {| Slide.number := n;
     Slide.id := js "slide-" ++ Number_toString n;
     Slide.elements := elements;
     Slide.readingOrder := List.map SlideElement.id elements;
     Slide.readingOrderConfidence := 1;
     Slide.backgroundElements := [];
     Slide.issues := [] |}.

Definition metadata (title language : jsstring) : Metadata.t :=
  {| Metadata.title := title;
     Metadata.author := Some (js "Referat Z1");
     Metadata.subject := None;
     Metadata.keywords := None;
     Metadata.language := language |}.

Definition presentation (title language : jsstring) (slides : list Slide.t)
  : Presentation.t :=
  {| Presentation.metadata := metadata title language;
     Presentation.slides := slides;
     Presentation.issues := [];
     Presentation.stats := Stats.mk 0 0 0 0 0 0 0 |}.

(** A clock that starts at [t0] and advances by [step] milliseconds with
    every reading; local time is one hour ahead of UTC. *)
Definition world (t0 step : Z) : World.t :=
  {| World.now := fun k => t0 + step * Z.of_nat k;
     World.ticks := 0;
     World.utcOffset := fun _ => 60 |}.

(** No finding at all. *)
Definition clean : Presentation.t :=
  presentation (js "Jahresbericht") (js "de") [ slide 1 [ heading (js "Ziele") ] ].

(** One warning: the only slide has no title. *)
Definition untitledSlide : Presentation.t :=
  presentation (js "Jahresbericht") (js "de")
    [ slide 1 [ element (js "3") body 40 100 880 300 (Some (js "Text")) ] ].

(** One error: the document has no title. *)
Definition untitled : Presentation.t :=
  presentation [] (js "de") [ slide 1 [ heading (js "Ziele") ] ].

(** Four errors: no document title, no language, two images without alt
    text. *)
Definition fourErrors : Presentation.t :=
  presentation [] [] 
    [ slide 1 [ heading (js "Ziele");
                element (js "4") image 40 100 200 100 None;
                element (js "5") image 300 100 200 100 None ] ].

(** An issue as a model may carry it. *)
Definition carried (id : jsstring) (s : Severity) : Issue.t :=
  {| Issue.id := id;
     Issue.type := missing_alt_text;
     Issue.severity := s;
     Issue.slideNumber := Some 1;
     Issue.elementId := None;
     Issue.elementType := None;
     Issue.message := js "Finding " ++ id;
     Issue.messageDE := js "Befund " ++ id;
     Issue.wcagCriteria := None;
     Issue.pdfuaClause := None;
     Issue.suggestion := None;
     Issue.suggestionDE := None;
     Issue.autoFixable := false;
     Issue.context := None |}.

(** Seven errors with the ids e1 ... e7. *)
Definition sevenErrors : list Issue.t :=
  List.map (fun k => carried (js "e" ++ Number_toString k) error)
    [1; 2; 3; 4; 5; 6; 7].

(** Six errors, one warning and two notes. *)
Definition nearZero : list Issue.t :=
  List.map (fun k => carried (js "e" ++ Number_toString k) error)
    [1; 2; 3; 4; 5; 6]
  ++ [ carried (js "w1") warning; carried (js "i1") info; carried (js "i2") info ].

(** Three elements of which the reading order names the third and the
    first. *)
Definition partlyOrdered : Slide.t :=
  {| Slide.number := 1;
     Slide.id := js "slide-1";
     Slide.elements :=
       [ element (js "a") body 40 100 400 80 (Some (js "Erstens"));
         element (js "b") body 40 200 400 80 (Some (js "Zweitens"));
         element (js "c") title 40 20 400 60 (Some (js "Ziele")) ];
     Slide.readingOrder := [ js "c"; js "a" ];
     Slide.readingOrderConfidence := 1;
     Slide.backgroundElements := [];
     Slide.issues := [] |}.

(** One element that the reading order names twice. *)
Definition namedTwice : Slide.t :=
  {| Slide.number := 1;
     Slide.id := js "slide-1";
     Slide.elements := [ element (js "a") body 40 100 400 80 (Some (js "Erstens")) ];
     Slide.readingOrder := [ js "a"; js "a" ];
     Slide.readingOrderConfidence := 1;
     Slide.backgroundElements := [];
     Slide.issues := [] |}.

(** Two elements with the same id. *)
Definition sharedId : Slide.t :=
  {| Slide.number := 1;
     Slide.id := js "slide-1";
     Slide.elements :=
       [ element (js "7") body 40 100 400 80 (Some (js "Erstens"));
         element (js "7") body 40 200 400 80 (Some (js "Zweitens")) ];
     Slide.readingOrder := [ js "7" ];
     Slide.readingOrderConfidence := 1;
     Slide.backgroundElements := [];
     Slide.issues := [] |}.

(** A decorative picture with a description. *)
Definition ornament : SlideElement.t :=
  {| SlideElement.id := js "9";
     SlideElement.type := image;
     SlideElement.semanticRole := Role.Artifact;
     SlideElement.position := Position.mk 700 20 120 60 0;
     SlideElement.content :=
       Content.mk None (Some (js "Wappen des Landes")) decorative None;
     SlideElement.isDecorative := true;
     SlideElement.isGrouped := false;
     SlideElement.groupId := None;
     SlideElement.hyperlink := None;
     SlideElement.tableData := None;
     SlideElement.listData := None;
     SlideElement.issues := [] |}.

(** A title and a decorative picture. *)
Definition decorated : Slide.t := slide 1 [ heading (js "Ziele"); ornament ].

(** The options of a generator constructed without arguments. *)
Definition noOptions : Generator.Options.t :=
  Generator.Options.mk None None None None None.

(** A [p:cNvPr] node with the given description and no other attribute
    than its id. *)
Definition described (descr : option jsstring) : Parser.CNvPr.t :=
  {| Parser.CNvPr.id := Some (js "4");
     Parser.CNvPr.name := Some (js "Grafik 3");
     Parser.CNvPr.descr := descr;
     Parser.CNvPr.title := None;
     Parser.CNvPr.extLst := None |}.

Definition picture (descr : option jsstring) : Parser.Picture.t :=
  {| Parser.Picture.nvPicPr := Some (Some (described descr));
     Parser.Picture.position := Position.mk 40 100 200 100 0 |}.

Definition shape (descr : option jsstring) : Parser.Shape.t :=
  {| Parser.Shape.nvSpPr := Some (Some (described descr));
     Parser.Shape.phType := [];
     Parser.Shape.position := Position.mk 40 100 200 100 0;
     Parser.Shape.text := js "Text";
     Parser.Shape.hyperlink := None |}.

(** The cell texts of a table with a header row and one data row. *)
Definition yearTable : list (list jsstring) :=
  [ [ js "Jahr"; js "Wert" ]; [ js "2024"; js "17" ] ].

(** The cell texts of a table whose first row has no cell. *)
Definition headlessTable : list (list jsstring) :=
  [ []; [ js "2024"; js "17" ] ].

(** A text box of the grid of the scenario. *)
Definition box (id text : jsstring) (x y : Z) : SlideElement.t :=
  element id textbox x y 200 60 (Some text).

(** The scenario: three titled slides; the second has a picture without
    title and description, the third a grid of two rows of three text
    boxes. *)
Definition scenario : Presentation.t :=
  presentation (js "Jahresbericht") (js "de")
    [ slide 1 [ heading (js "Überblick");
                element (js "3") body 40 100 880 300 (Some (js "Inhalt")) ];
      slide 2 [ heading (js "Standorte");
                element (js "4") image 40 100 400 300 None ];
      slide 3 [ heading (js "Kennzahlen");
                box (js "3") (js "Jahr") 40 120;
                box (js "4") (js "Umsatz") 280 120;
                box (js "5") (js "Gewinn") 520 120;
                box (js "6") (js "2024") 40 220;
                box (js "7") (js "17") 280 220;
                box (js "8") (js "3") 520 220 ] ].

(** The second slide of the scenario as the parser produces its picture:
    the element carries the parser's own finding. *)
Definition parsedPictureSlide : option Slide.t :=
  (fun pic => slide 2 [ heading (js "Standorte"); pic ])
    <$> Parser.parsePicture (picture None) 2 (world 0 1).

(** Two text boxes that overlap; the first has no text. *)
Definition overlapping : list SlideElement.t :=
  [ box (js "a") [] 40 120; box (js "b") (js "Rechts") 140 150 ].

(** One titled slide with the given boxes. *)
Definition overlapSlide (boxes : list SlideElement.t) : Presentation.t :=
  presentation (js "Jahresbericht") (js "de")
    [ {| Slide.number := 1;
         Slide.id := js "slide-1";
         Slide.elements := heading (js "Ziele") :: boxes;
         Slide.readingOrder := [ js "2"; js "a"; js "b" ];
         Slide.readingOrderConfidence := 1;
         Slide.backgroundElements := [];
         Slide.issues := [] |} ].

(** A model that carries the given issues and raises no finding of its
    own. *)
Definition carrying (issues : list Issue.t) : Presentation.t :=
  {| Presentation.metadata := metadata (js "Jahresbericht") (js "de");
     Presentation.slides := [];
     Presentation.issues := issues;
     Presentation.stats := Stats.mk 0 0 0 0 0 0 0 |}.

(** One note and nothing else: the document names no author. *)
Definition anonymous : Presentation.t :=
  {| Presentation.metadata :=
       {| Metadata.title := js "Jahresbericht";
          Metadata.author := None;
          Metadata.subject := None;
          Metadata.keywords := None;
          Metadata.language := js "de" |};
     Presentation.slides := [ slide 1 [ heading (js "Ziele") ] ];
     Presentation.issues := [];
     Presentation.stats := Stats.mk 0 0 0 0 0 0 0 |}.

(** A titled slide with a grid of two rows of three text boxes. *)
Definition gridSlide : Slide.t :=
  slide 3 [ heading (js "Kennzahlen");
            box (js "3") (js "Jahr") 40 120;
            box (js "4") (js "Umsatz") 280 120;
            box (js "5") (js "Gewinn") 520 120;
            box (js "6") (js "2024") 40 220;
            box (js "7") (js "17") 280 220;
            box (js "8") (js "3") 520 220 ].

(** A slide as [parseSlide] builds it from one body shape: there is no
    title. *)
Definition parsedBare : Slide.t :=
  Parser.parseSlide
    [ Some (element (js "3") body 40 100 880 300 (Some (js "Text"))) ]
    [] [] []
    (fun elements => (List.map SlideElement.id elements, 1%Q)) 1.

(** A [p:cNvPr] node of a chart whose description is two spaces. *)
Definition blankChart : Parser.CNvPr.t :=
  {| Parser.CNvPr.id := Some (js "12");
     Parser.CNvPr.name := Some (js "Diagramm 1");
     Parser.CNvPr.descr := Some (js "  ");
     Parser.CNvPr.title := None;
     Parser.CNvPr.extLst := None |}.


(** Three slides of which the second has no title. *)
Definition threeSlides : Presentation.t :=
  {| Presentation.metadata :=
       {| Metadata.title := js "Jahresbericht";
          Metadata.author := Some (js "Referat Z1");
          Metadata.subject := Some (js "Haushalt");
          Metadata.keywords := None;
          Metadata.language := js "de" |};
     Presentation.slides :=
       [ slide 1 [ heading (js "Überblick") ];
         slide 2 [ element (js "3") body 40 100 880 300 (Some (js "Inhalt")) ];
         slide 3 [ heading (js "Kennzahlen") ] ];
     Presentation.issues := [];
     Presentation.stats := Stats.mk 0 0 0 0 0 0 0 |}.

(** A slide as [parseSlide] builds it from a title shape and two pictures,
    of which the second is decorative. *)
Definition parsedTwoPictures : Slide.t :=
  Parser.parseSlide
    [ Some (heading (js "Standorte")) ]
    [ Some (element (js "4") image 40 100 400 300 None); Some ornament ]
    [] []
    (fun elements => (List.map SlideElement.id elements, 1%Q)) 2.

(** The metadata of a file without title, as [parseMetadata] returns
    them. *)
Definition untitledFile : Metadata.t :=
  {| Metadata.title := [];
     Metadata.author := Some (js "Referat Z1");
     Metadata.subject := None;
     Metadata.keywords := None;
     Metadata.language := js "en" |}.

(** A request that carries a title and no language. *)
Definition titledForm : Route.Form.t :=
  {| Route.Form.title := Some (js "Jahresbericht");
     Route.Form.language := None |}.

(** A conversion profile; none of its fields but the two export options
    that the route hands over is read. *)
Definition quick : ConversionProfile.t :=
  {| ConversionProfile.name := js "Schnell";
     ConversionProfile.id := js "quick";
     ConversionProfile.tagMapping :=
       [ (title, Role.H1); (subtitle, Role.H2); (body, Role.P) ];
     ConversionProfile.generateMissingAltText := false;
     ConversionProfile.markUncaptionedAsDecorative := false;
     ConversionProfile.fixEmptyTitles := false;
     ConversionProfile.setDocumentLanguage := true;
     ConversionProfile.fixReadingOrder := false;
     ConversionProfile.convertPseudoTables := false;
     ConversionProfile.pdfVersion := js "1.7";
     ConversionProfile.pdfUaConformance := js "PDF/UA-1";
     ConversionProfile.embedFonts := true;
     ConversionProfile.includeBookmarks := false;
     ConversionProfile.includeLinks := true;
     ConversionProfile.taggedPdf := true;
     ConversionProfile.linearized := false |}.

End Sample.

(* ===================================================================== *)
(** ** Notions used in the statements                                      *)
(* ===================================================================== *)

(** The score that [generateReport] derives from a collected issue list. *)
Definition scoreOf (p : Presentation.t) (issues : list Issue.t) (w : World.t)
  : Z :=
  Report.overallScore (fst (Validator.generateReport p issues w)).

(** The row map of [validatePseudoTables], in insertion order. *)
Abbreviation Rows := (list (Z * list SlideElement.t)).

(** The number of text boxes filed under the key [k] of the row map. *)
Definition rowSize (k : Z) (rows : list (Z * list SlideElement.t)) : nat :=
  match List.find (fun r => fst r =? k) rows with
  | Some r => length (snd r)
  | None => 0%nat
  end.

(** The number of elements of [l] whose row key is [k]. *)
Definition keyCount (k : Z) (l : list SlideElement.t) : nat :=
  length (List.filter (fun e => k =? Validator.rowKey e) l).

(** An issue of another check than the overlap check. *)
Definition notOverlap (i : Issue.t) : bool :=
  negb (bool_decide (Issue.type i = overlapping_elements)).

(** Two slides that differ at most in the order of their elements. *)
Definition reorderedSlide (s s' : Slide.t) : Prop :=
  Slide.number s = Slide.number s'
  /\ Slide.id s = Slide.id s'
  /\ Permutation (Slide.elements s) (Slide.elements s')
  /\ Slide.readingOrder s = Slide.readingOrder s'
  /\ Slide.readingOrderConfidence s = Slide.readingOrderConfidence s'
  /\ Slide.backgroundElements s = Slide.backgroundElements s'
  /\ Slide.issues s = Slide.issues s'.

(** Two models that differ at most in the order of the elements within
    their slides. *)
Definition reordered (p p' : Presentation.t) : Prop :=
  Presentation.metadata p = Presentation.metadata p'
  /\ Forall2 reorderedSlide (Presentation.slides p) (Presentation.slides p')
  /\ Presentation.issues p = Presentation.issues p'
  /\ Presentation.stats p = Presentation.stats p'.

(** The cell that [parseTable] builds for the text of a cell of row
    [rowIndex]. *)
Definition cellOf (rowIndex : nat) (text : jsstring) : TableCell.t :=
  {| TableCell.content := text;
     TableCell.isHeader := (rowIndex =? 0)%nat;
     TableCell.scope := if (rowIndex =? 0)%nat then Some col else None |}.

(** The structure element expected for a cell of row [rowIndex]: a header
    cell with column scope in the first row, a data cell elsewhere. *)
Definition cellNode (rowIndex : nat) (text : jsstring)
  : Generator.PDFStructureElement :=
  Generator.StructElem
    (if (rowIndex =? 0)%nat then Role.TH else Role.TD) []
    (if (rowIndex =? 0)%nat then Some (Generator.Scope col) else None)
    (Some text) None None.

(** The alternative text of a structure element. *)
Definition altTextOf (s : Generator.PDFStructureElement) : option jsstring :=
  let 'Generator.StructElem _ _ _ _ a _ := s in a.

(** The bookmark that [renderSlide] stores for a slide rendered on the page
    with index [pageIndex]: the text of the first title element in
    rendering order, if there is such an element and its text is not
    empty. *)
Definition slideBookmark (pageIndex : nat) (slide : Slide.t)
  : list Generator.Bookmark.t :=
  match List.find (fun e => bool_decide (SlideElement.type e = title))
          (Generator.getOrderedElements slide) with
  | Some titleElement =>
      match Content.text (SlideElement.content titleElement) with
      | Some t =>
          if truthy t then [ Generator.Bookmark.mk t (Z.of_nat pageIndex) ]
          else []
      | None => []
      end
  | None => []
  end.

(** A code unit that the character table neither replaces nor removes. *)
Definition kept (c : N) : bool :=
  (c <=? 255)%N && negb (c =? 171)%N && negb (c =? 187)%N.

(** What the loop of [wrapText] keeps true of its state. *)
Definition wrapInv (tooWide : jsstring -> bool)
  (st : list jsstring * jsstring) : Prop :=
  (forall line, In line (fst st) ->
     line <> []
     /\ (tooWide line = true ->
         List.forallb (fun c => negb (isWhiteSpace c)) line = true))
  /\ (tooWide (snd st) = true ->
      List.forallb (fun c => negb (isWhiteSpace c)) (snd st) = true).

(** The characters of the lines and the current line that are not white
    space. *)
Definition payload (st : list jsstring * jsstring) : jsstring :=
  List.filter (fun c => negb (isWhiteSpace c)) (concat (fst st) ++ snd st).

(** The number of elements of [l] that satisfy [f], as the counters of
    [calculateStats] count them. *)
Definition countIf (f : SlideElement.t -> bool) (l : list SlideElement.t) : Z :=
  Z.of_nat (length (List.filter f l)).

(** An element that [calculateStats] counts among the images. *)
Definition pictured (e : SlideElement.t) : bool :=
  bool_decide (SlideElement.type e = image)
  || bool_decide (SlideElement.type e = chart).

(** Two slides with the same elements and the same reading order. *)
Definition sameContent (s s' : Slide.t) : Prop :=
  Slide.elements s = Slide.elements s'
  /\ Slide.readingOrder s = Slide.readingOrder s'.

(** Case analysis on a check that pushes one issue when its condition
    holds. *)
Ltac one_issue H :=
  match type of H with
  | In _ (if ?c then _ else _) =>
      destruct c; [destruct H as [<-|[]] | destruct H]
  end.

(** The issues that the checks of the validator raise for a model, before
    the issues that the model carries are collected. *)
Definition raisedIssues (p : Presentation.t) : list Issue.t :=
  Validator.validateDocument p
  ++ flat_map Validator.validateSlide (Presentation.slides p).

(** Type, severity and [autoFixable] of the issues of the checks of the
    validator. *)
Definition checkTable : list (IssueType * Severity * bool) :=
  [ (missing_document_title, error, true);
    (missing_language, error, true);
    (missing_metadata, info, false);
    (missing_title, warning, false);
    (reading_order_unclear, warning, false);
    (overlapping_elements, info, false);
    (missing_alt_text, error, false);
    (insufficient_alt_text, warning, false);
    (table_missing_headers, warning, true);
    (table_empty_cells, info, false);
    (unclear_link_text, warning, false);
    (empty_element, info, true);
    (pseudo_table, warning, false);
    (background_not_decorative, info, true) ].

(** The issue types for which the validator has no check. *)
Definition uncheckedTypes : list IssueType :=
  [ empty_alt_text; decorative_not_marked; heading_hierarchy;
    table_complex_structure; link_text_empty; link_text_generic;
    link_text_url_only; insufficient_contrast; color_only_information;
    small_text; font_not_embedded; unicode_mapping_issue;
    grouped_content_order; flattened_content ].


(** Membership in a list of constants. *)
Ltac in_table := repeat first [ left; reflexivity | right ].

(* ===================================================================== *)
(** ** Evaluation of the string and date functions                        *)
(* ===================================================================== *)

Example js_ascii : js "de" = [100%N; 101%N].
Proof. reflexivity. Qed.

Example js_bmp : js "•" = [8226%N].
Proof. reflexivity. Qed.

Example trim_spaces : trim (js "  a b	") = js "a b".
Proof. reflexivity. Qed.

Example toString_neg : Number_toString (-120) = js "-120".
Proof. reflexivity. Qed.

Example toString_zero : Number_toString 0 = js "0".
Proof. reflexivity. Qed.

Example iso_epoch : Date.toISOString 0 = js "1970-01-01T00:00:00.000Z".
Proof. reflexivity. Qed.

Example iso_2026 :
  Date.toISOString 1793491200123 = js "2026-11-01T00:00:00.123Z".
Proof. vm_compute. reflexivity. Qed.

Example iso_leap :
  Date.toISOString 1709251199999 = js "2024-02-29T23:59:59.999Z".
Proof. vm_compute. reflexivity. Qed.

Example lowq_file : Validator.isLowQualityAltText (js "image.jpg") = true.
Proof. vm_compute. reflexivity. Qed.

Example lowq_bild : Validator.isLowQualityAltText (js "Bild") = true.
Proof. vm_compute. reflexivity. Qed.

Example lowq_sentence :
  Validator.isLowQualityAltText (js "A red car parked near trees") = false.
Proof. vm_compute. reflexivity. Qed.
(* ===================================================================== *)
(** ** Deduplication, counts, score and conformance                        *)
(* ===================================================================== *)

Section Dedup.

Import Validator.

Lemma not_in_seen_cons (seen : gset jsstring) (a b : jsstring) :
  b ∉ {[ a ]} ∪ seen <-> a <> b /\ b ∉ seen.
Proof.
  rewrite elem_of_union, elem_of_singleton. split.
  - intros Hn. split; [intros ->; apply Hn; left; reflexivity | tauto].
  - intros [Hne Hs] [->|Hin]; [apply Hne; reflexivity | exact (Hs Hin)].
Qed.

Lemma dedupFrom_ids seen l id :
  In id (List.map Issue.id (dedupFrom seen l))
  <-> In id (List.map Issue.id l) /\ id ∉ seen.
Proof.
  revert seen. induction l as [|i l IH]; intros seen; simpl.
  - tauto.
  - case_bool_decide as Hs; simpl; rewrite IH.
    + split.
      * intros [H1 H2]. auto.
      * intros [[<-|H1] H2]; [contradiction | auto].
    + rewrite not_in_seen_cons. split.
      * intros [<-|[H1 [H2 H3]]]; auto.
      * intros [[<-|H1] H2]; [auto |].
        destruct (decide (Issue.id i = id)) as [->|Hne]; auto.
Qed.

Lemma dedupFrom_sub seen l i : In i (dedupFrom seen l) -> In i l.
Proof.
  revert seen. induction l as [|j l IH]; intros seen; simpl; [tauto |].
  case_bool_decide; simpl; intros Hin.
  - right. eauto.
  - destruct Hin as [->|Hin]; [auto | right; eauto].
Qed.

(** Every id that was collected survives deduplication. *)
Lemma deduplicateIssues_ids l id :
  In id (List.map Issue.id (deduplicateIssues l)) <-> In id (List.map Issue.id l).
Proof.
  unfold deduplicateIssues. rewrite dedupFrom_ids.
  split; [tauto | intros Hin; split; [exact Hin | apply not_elem_of_empty]].
Qed.

(** An issue with a fresh id is kept, at the end of the list. *)
Lemma dedupFrom_snoc seen l x :
  Issue.id x ∉ seen -> ~ In (Issue.id x) (List.map Issue.id l) ->
  dedupFrom seen (l ++ [x]) = dedupFrom seen l ++ [x].
Proof.
  revert seen. induction l as [|i l IH]; intros seen Hs Hl; simpl.
  - rewrite bool_decide_eq_false_2 by assumption. reflexivity.
  - simpl in Hl. case_bool_decide.
    + apply IH; tauto.
    + simpl. f_equal. apply IH; [apply not_in_seen_cons |]; tauto.
Qed.

Lemma countSeverity_snoc s l x :
  countSeverity s (l ++ [x])
  = countSeverity s l + (if hasSeverity s x then 1 else 0).
Proof.
  unfold countSeverity. rewrite List.filter_app, length_app. simpl.
  destruct (hasSeverity s x); simpl; lia.
Qed.

Lemma countSeverity_nonneg s l : 0 <= countSeverity s l.
Proof. unfold countSeverity. lia. Qed.

End Dedup.

Section Scoring.

Import Validator.

Lemma scoreOf_eq p issues w :
  scoreOf p issues w
  = let u := deduplicateIssues issues in
    calculateScore (countSeverity error u) (countSeverity warning u)
      (countSeverity info u).
Proof. reflexivity. Qed.

Lemma calculateScore_formula e wn i :
  calculateScore e wn i = Z.max 0 (100 - 15 * e - 5 * wn - 1 * i).
Proof. unfold calculateScore. f_equal. lia. Qed.

(** The outcome of the membership test is all that [dedupFrom] uses of the
    set. *)
Lemma dedupFrom_ext (s1 s2 : gset jsstring) l :
  (forall i, In i l -> (Issue.id i ∈ s1 <-> Issue.id i ∈ s2)) ->
  dedupFrom s1 l = dedupFrom s2 l.
Proof.
  revert s1 s2. induction l as [|i l IH]; intros s1 s2 Hext; simpl; [reflexivity |].
  assert (Hi : Issue.id i ∈ s1 <-> Issue.id i ∈ s2) by (apply Hext; left; reflexivity).
  destruct (decide (Issue.id i ∈ s1)) as [H1|H1].
  - rewrite !bool_decide_eq_true_2 by tauto.
    apply IH. intros j Hj. apply Hext. right. exact Hj.
  - rewrite !bool_decide_eq_false_2 by tauto.
    f_equal. apply IH. intros j Hj.
    rewrite !elem_of_union, !elem_of_singleton.
    specialize (Hext j (or_intror Hj)). tauto.
Qed.

Lemma dedupFrom_app seen l1 l2 :
  exists seen',
    dedupFrom seen (l1 ++ l2) = dedupFrom seen l1 ++ dedupFrom seen' l2
    /\ forall id, id ∈ seen' <-> id ∈ seen \/ In id (List.map Issue.id l1).
Proof.
  revert seen. induction l1 as [|i l1 IH]; intros seen; simpl.
  - exists seen. split; [reflexivity | tauto].
  - case_bool_decide as Hs.
    + destruct (IH seen) as (s' & Heq & Hs'). exists s'. split; [exact Heq |].
      intros id. rewrite Hs'. split; [tauto |].
      intros [H1|[<-|H1]]; auto.
    + destruct (IH ({[Issue.id i]} ∪ seen)) as (s' & Heq & Hs').
      exists s'. split; [simpl; f_equal; exact Heq |].
      intros id. rewrite Hs', elem_of_union, elem_of_singleton.
      split; [intros [[->|H1]|H1]; auto | intros [H1|[<-|H1]]; auto].
Qed.

(** Inserting an issue with a fresh id anywhere into the collected list
    inserts it into the deduplicated list and changes nothing else. *)
Lemma deduplicateIssues_insert l1 l2 x :
  ~ In (Issue.id x) (List.map Issue.id (l1 ++ l2)) ->
  exists d1 d2,
    deduplicateIssues (l1 ++ l2) = d1 ++ d2
    /\ deduplicateIssues (l1 ++ x :: l2) = d1 ++ x :: d2.
Proof.
  intros Hfresh. rewrite List.map_app, in_app_iff in Hfresh.
  unfold deduplicateIssues.
  destruct (dedupFrom_app ∅ l1 l2) as (s & E & Hs).
  destruct (dedupFrom_app ∅ l1 (x :: l2)) as (s' & E' & Hs').
  exists (dedupFrom ∅ l1), (dedupFrom s l2).
  split; [exact E |]. rewrite E'. f_equal. simpl.
  rewrite bool_decide_eq_false_2.
  - f_equal. apply dedupFrom_ext. intros j Hj.
    rewrite elem_of_union, elem_of_singleton, Hs, Hs'.
    split; [| tauto].
    intros [Heq|H1]; [| exact H1].
    exfalso. apply Hfresh. right. rewrite <- Heq. apply in_map. exact Hj.
  - rewrite Hs'. intros [H1|H1]; [exact (not_elem_of_empty _ H1) | tauto].
Qed.

Lemma countSeverity_app s l1 l2 :
  countSeverity s (l1 ++ l2) = countSeverity s l1 + countSeverity s l2.
Proof. unfold countSeverity. rewrite List.filter_app, length_app. lia. Qed.

Lemma countSeverity_cons s x l :
  countSeverity s (x :: l)
  = (if hasSeverity s x then 1 else 0) + countSeverity s l.
Proof. unfold countSeverity. simpl. destruct (hasSeverity s x); simpl; lia. Qed.

Lemma countSeverity_insert s d1 d2 x :
  countSeverity s (d1 ++ x :: d2)
  = countSeverity s (d1 ++ d2) + (if hasSeverity s x then 1 else 0).
Proof. rewrite !countSeverity_app, countSeverity_cons. lia. Qed.

Lemma scoreOf_insert p l1 l2 x w :
  ~ In (Issue.id x) (List.map Issue.id (l1 ++ l2)) ->
  scoreOf p (l1 ++ x :: l2) w
  = Z.max 0 (scoreOf p (l1 ++ l2) w
             - match Issue.severity x with
               | error => 15 | warning => 5 | info => 1
               end).
Proof.
  intros Hfresh.
  destruct (deduplicateIssues_insert l1 l2 x Hfresh) as (d1 & d2 & E & E').
  rewrite !scoreOf_eq. cbv zeta. rewrite E, E', !countSeverity_insert.
  rewrite !calculateScore_formula. unfold hasSeverity.
  destruct (Issue.severity x); simpl; lia.
Qed.

End Scoring.

(** C2, as the code has it: the score of a report is
    [max(0, 100 - 15 e - 5 w - i)] for the numbers of errors, warnings and
    notes among its deduplicated issues. Inserting one more error with a
    fresh id anywhere into the collected issues turns the score [s] into
    [max(0, s - 15)], which is [s - 15] when [s] is at least 15; inserting
    one more warning turns it into [max(0, s - 5)], which is [s - 5] when
    [s] is at least 5. *)
Theorem C2_score_formula_and_steps
  (p : Presentation.t) (profile : option ConversionProfile.t) (w : World.t) :
  let r := validatePresentation p profile w in
  let e := Validator.countSeverity error (Report.issues r) in
  let wn := Validator.countSeverity warning (Report.issues r) in
  let i := Validator.countSeverity info (Report.issues r) in
  Report.overallScore r = Z.max 0 (100 - 15 * e - 5 * wn - 1 * i)
  /\ forall (l1 l2 : list Issue.t) (x : Issue.t),
       ~ In (Issue.id x) (List.map Issue.id (l1 ++ l2)) ->
       let s := scoreOf p (l1 ++ l2) w in
       let s' := scoreOf p (l1 ++ x :: l2) w in
       (Issue.severity x = error -> s' = Z.max 0 (s - 15))
       /\ (Issue.severity x = error -> 15 <= s -> s' = s - 15)
       /\ (Issue.severity x = warning -> s' = Z.max 0 (s - 5))
       /\ (Issue.severity x = warning -> 5 <= s -> s' = s - 5).
Proof.
  intros r e wn i. split.
  - change (Report.overallScore r) with (Validator.calculateScore e wn i).
    apply calculateScore_formula.
  - intros l1 l2 x Hfresh s s'. subst s s'.
    rewrite (scoreOf_insert p l1 l2 x w Hfresh).
    repeat split; intros Hsev; rewrite Hsev; [reflexivity | lia | reflexivity | lia].
Qed.

(** C2 on a sample: a model that carries two errors scores 70; a third error
    with a new id brings it to 55, a warning instead brings it to 65. *)
Lemma C2_score_formula_and_steps_witness :
  let p := Sample.carrying [] in
  let w := Sample.world 0 1 in
  let two := [ Sample.carried (js "e1") error; Sample.carried (js "e2") error ] in
  scoreOf p two w = 70
  /\ scoreOf p (two ++ [ Sample.carried (js "e3") error ]) w = 70 - 15
  /\ scoreOf p (Sample.carried (js "w1") warning :: two) w = 70 - 5.
Proof.
  intros p w two.
  assert (H70 : scoreOf p two w = 70) by (vm_compute; reflexivity).
  split; [exact H70 |].
  pose proof (C2_score_formula_and_steps p None w) as (_ & Hstep).
  split.
  - destruct (Hstep two [] (Sample.carried (js "e3") error)) as (_ & H15 & _).
    + vm_compute. intuition discriminate.
    + rewrite app_nil_r in H15. rewrite <- H70. apply H15.
      * reflexivity.
      * rewrite H70. lia.
  - destruct (Hstep [] two (Sample.carried (js "w1") warning)) as (_ & _ & _ & H5).
    + vm_compute. intuition discriminate.
    + rewrite <- H70. apply H5.
      * reflexivity.
      * simpl app. rewrite H70. lia.
Defined.

(** C2 as stated fails at the floor: with seven errors the score is 0 and an
    eighth error does not decrease it; with a score of 3 one more warning
    decreases it by 3, not by 5. *)
Lemma C2_score_monotonicity_counterexample :
  let score issues :=
    Report.overallScore
      (validatePresentation (Sample.carrying issues) None (Sample.world 0 1)) in
  let e8 := Sample.carried (js "e8") error in
  let w2 := Sample.carried (js "w2") warning in
  score Sample.sevenErrors = 0
  /\ score (Sample.sevenErrors ++ [ e8 ]) = 0
  /\ ~ (score (Sample.sevenErrors ++ [ e8 ]) < score Sample.sevenErrors)
  /\ score Sample.nearZero = 3
  /\ score (Sample.nearZero ++ [ w2 ]) = 0
  /\ score Sample.nearZero - score (Sample.nearZero ++ [ w2 ]) <> 5.
Proof.
  vm_compute. repeat split; try reflexivity; intros H; discriminate H.
Qed.

(** C1: the conformance verdict of a report follows the thresholds on the
    numbers [e] of errors and [wn] of warnings among its deduplicated issues:
    no error and no warning gives AAA, PDF/UA-1 and BITV-conformant; no error
    and at least one warning gives AA, PDF/UA-1 and BITV-conformant; one to
    three errors give A, partial and not conformant; more than three errors
    give none. With exactly one error and no warning the level is neither AAA
    nor AA. The report's [wcagLevel] repeats the verdict and
    [pdfuaConformant] holds exactly when there is no error. *)
Theorem C1_conformance_thresholds
  (p : Presentation.t) (profile : option ConversionProfile.t) (w : World.t) :
  let r := validatePresentation p profile w in
  let e := Validator.countSeverity error (Report.issues r) in
  let wn := Validator.countSeverity warning (Report.issues r) in
  Report.issues r = Validator.deduplicateIssues (Validator.collectedIssues p)
  /\ (e = 0 -> wn = 0 ->
      Report.conformance r = Conformance.mk Wcag.AAA Pdfua.PDF_UA_1 true)
  /\ (e = 0 -> 1 <= wn ->
      Report.conformance r = Conformance.mk Wcag.AA Pdfua.PDF_UA_1 true)
  /\ (1 <= e <= 3 ->
      Report.conformance r = Conformance.mk Wcag.A Pdfua.partial false)
  /\ (3 < e ->
      Report.conformance r = Conformance.mk Wcag.none Pdfua.none false)
  /\ (e = 1 -> wn = 0 ->
      Conformance.wcagLevel (Report.conformance r) <> Wcag.AAA
      /\ Conformance.wcagLevel (Report.conformance r) <> Wcag.AA)
  /\ Report.wcagLevel r = Conformance.wcagLevel (Report.conformance r)
  /\ Report.pdfuaConformant r = bool_decide (e = 0).
Proof.
  intros r e wn.
  assert (Hc : Report.conformance r = Validator.determineConformance e wn)
    by reflexivity.
  assert (He : 0 <= e) by apply countSeverity_nonneg.
  assert (Hw : 0 <= wn) by apply countSeverity_nonneg.
  rewrite Hc. unfold Validator.determineConformance.
  split; [reflexivity |].
  split; [intros -> ->; reflexivity |].
  split.
  { intros -> Hge. simpl.
    destruct (wn =? 0) eqn:E; [apply Z.eqb_eq in E; lia | reflexivity]. }
  split.
  { intros [H1 H3].
    destruct (e =? 0) eqn:E; [apply Z.eqb_eq in E; lia |]. simpl.
    destruct (e <=? 3) eqn:E3; [reflexivity | apply Z.leb_gt in E3; lia]. }
  split.
  { intros H3.
    destruct (e =? 0) eqn:E; [apply Z.eqb_eq in E; lia |]. simpl.
    destruct (e <=? 3) eqn:E3; [apply Z.leb_le in E3; lia | reflexivity]. }
  split.
  { intros -> ->. simpl. split; discriminate. }
  split; [reflexivity |].
  change (Report.pdfuaConformant r) with (e =? 0).
  destruct (Z.eqb_spec e 0) as [E|E].
  - rewrite bool_decide_eq_true_2; auto.
  - rewrite bool_decide_eq_false_2; auto.
Qed.

(** The four verdicts of C1 on sample models: no finding, one warning, one
    error, four errors. *)
Lemma C1_conformance_thresholds_witness :
  let verdict p :=
    Report.conformance (validatePresentation p None (Sample.world 0 1)) in
  verdict Sample.clean = Conformance.mk Wcag.AAA Pdfua.PDF_UA_1 true
  /\ verdict Sample.untitledSlide = Conformance.mk Wcag.AA Pdfua.PDF_UA_1 true
  /\ verdict Sample.untitled = Conformance.mk Wcag.A Pdfua.partial false
  /\ verdict Sample.fourErrors = Conformance.mk Wcag.none Pdfua.none false
  /\ Conformance.wcagLevel (verdict Sample.untitled) <> Wcag.AAA
  /\ Conformance.wcagLevel (verdict Sample.untitled) <> Wcag.AA.
Proof.
  intros verdict. unfold verdict.
  pose proof (C1_conformance_thresholds Sample.clean None (Sample.world 0 1))
    as (_ & H0 & _).
  pose proof (C1_conformance_thresholds Sample.untitledSlide None (Sample.world 0 1))
    as (_ & _ & H1 & _).
  pose proof (C1_conformance_thresholds Sample.untitled None (Sample.world 0 1))
    as (_ & _ & _ & H2 & _ & H5 & _).
  pose proof (C1_conformance_thresholds Sample.fourErrors None (Sample.world 0 1))
    as (_ & _ & _ & _ & H4 & _).
  split; [apply H0; vm_compute; reflexivity |].
  split; [apply H1; vm_compute; [reflexivity | discriminate] |].
  split; [apply H2; vm_compute; split; discriminate |].
  split; [apply H4; vm_compute; reflexivity |].
  apply H5; vm_compute; reflexivity.
Defined.

(* ===================================================================== *)
(** ** The clock in the report                                             *)
(* ===================================================================== *)

Section Clock.

Import Validator.

(** A joined text whose third line carries a date [x]. *)
Lemma join_date sep (a b c1 x c2 d : jsstring) rest :
  join sep ([a; b; c1 ++ x ++ c2] ++ [d] ++ rest)
  = (a ++ sep ++ b ++ sep ++ c1) ++ x ++ (c2 ++ sep ++ join sep (d :: rest)).
Proof.
  change (join sep ([a; b; c1 ++ x ++ c2] ++ [d] ++ rest))
    with (a ++ sep ++ b ++ sep ++ (c1 ++ x ++ c2) ++ sep ++ join sep (d :: rest)).
  rewrite <- !app_assoc. reflexivity.
Qed.

(** The English summary is a fixed text around the ISO form of the time that
    was read. *)
Lemma generateSummary_date p e wn issues :
  exists pre post, forall now,
    generateSummary p now e wn issues = pre ++ Date.toISOString now ++ post.
Proof.
  unfold generateSummary.
  destruct ((e =? 0) && (wn =? 0));
    eexists; eexists; intros now; apply join_date.
Qed.

(** The German summary is a fixed text around the local date of the time
    that was read. *)
Lemma generateSummaryDE_date p e wn issues :
  exists pre post, forall w now,
    generateSummaryDE p w now e wn issues
    = pre ++ Date.toLocaleDateString_de w now ++ post.
Proof.
  unfold generateSummaryDE.
  destruct ((e =? 0) && (wn =? 0));
    eexists; eexists; intros w now; apply join_date.
Qed.

Lemma toLocaleDateString_de_offset w w' now :
  World.utcOffset w now = World.utcOffset w' now ->
  Date.toLocaleDateString_de w now = Date.toLocaleDateString_de w' now.
Proof. unfold Date.toLocaleDateString_de. intros ->. reflexivity. Qed.

Lemma generateSummaryDE_offset p w w' now e wn issues :
  World.utcOffset w now = World.utcOffset w' now ->
  generateSummaryDE p w now e wn issues = generateSummaryDE p w' now e wn issues.
Proof.
  intros Hoff. unfold generateSummaryDE.
  rewrite (toLocaleDateString_de_offset w w' now Hoff). reflexivity.
Qed.

Lemma jsstring_neq (a b : jsstring) : JS.eqb a b = false -> a <> b.
Proof.
  unfold JS.eqb. intros H ->.
  rewrite bool_decide_eq_true_2 in H; [discriminate | reflexivity].
Qed.

End Clock.

(** C3, as the code has it: the clock is the only thing besides the model
    that a report depends on. For one model, whatever the profiles and the
    clocks of two runs, the reports have the same issues (so the same ids in
    the same order), the same score, counts, verdict, recommendations, title
    and statistics; each text summary is a fixed text around the date that
    the run read from the clock; and two runs that read the same times, with
    the same local offset, yield equal reports. *)
Theorem C3_validate_deterministic_up_to_clock
  (p : Presentation.t) (profile profile' : option ConversionProfile.t)
  (w w' : World.t) :
  let r := validatePresentation p profile w in
  let r' := validatePresentation p profile' w' in
  (Report.issues r = Report.issues r'
   /\ List.map Issue.id (Report.issues r) = List.map Issue.id (Report.issues r')
   /\ Report.overallScore r = Report.overallScore r'
   /\ Report.summary r = Report.summary r'
   /\ Report.conformance r = Report.conformance r'
   /\ Report.wcagLevel r = Report.wcagLevel r'
   /\ Report.pdfuaConformant r = Report.pdfuaConformant r'
   /\ Report.recommendations r = Report.recommendations r'
   /\ Report.documentTitle r = Report.documentTitle r'
   /\ Report.stats r = Report.stats r')
  /\ (exists pre post preDE postDE,
        forall v : World.t,
          let t k := World.now v (World.ticks v + k)%nat in
          let rv := validatePresentation p profile v in
          Report.reportText rv = pre ++ Date.toISOString (t 0%nat) ++ post
          /\ Report.timestamp rv = t 1%nat
          /\ Report.reportTextDE rv
             = preDE ++ Date.toLocaleDateString_de v (t 2%nat) ++ postDE)
  /\ ((forall k, World.now w (World.ticks w + k)%nat
                 = World.now w' (World.ticks w' + k)%nat) ->
      (forall t, World.utcOffset w t = World.utcOffset w' t) ->
      r = r').
Proof.
  intros r r'. split; [repeat split |]. split.
  - set (u := Validator.deduplicateIssues (Validator.collectedIssues p)).
    destruct (generateSummary_date p (Validator.countSeverity error u)
                (Validator.countSeverity warning u) u) as (pre & post & Hs).
    destruct (generateSummaryDE_date p (Validator.countSeverity error u)
                (Validator.countSeverity warning u) u) as (preDE & postDE & HsDE).
    exists pre, post, preDE, postDE. intros v t rv. subst t rv. cbv beta.
    rewrite Nat.add_0_r.
    replace (World.ticks v + 1)%nat with (S (World.ticks v)) by lia.
    replace (World.ticks v + 2)%nat with (S (S (World.ticks v))) by lia.
    split; [apply Hs |]. split; [reflexivity |].
    unfold validatePresentation, Validator.validate, Validator.generateReport.
    cbn [newDate fst snd Report.reportTextDE World.now World.ticks World.utcOffset].
    fold u. rewrite HsDE. reflexivity.
  - intros Hclock Hoff. subst r r'.
    unfold validatePresentation, Validator.validate, Validator.generateReport.
    cbn [newDate fst snd World.now World.ticks World.utcOffset].
    pose proof (Hclock 0%nat) as H0. pose proof (Hclock 1%nat) as H1.
    pose proof (Hclock 2%nat) as H2.
    rewrite Nat.add_0_r in H0.
    replace (World.ticks w + 1)%nat with (S (World.ticks w)) in H1 by lia.
    replace (World.ticks w' + 1)%nat with (S (World.ticks w')) in H1 by lia.
    replace (World.ticks w + 2)%nat with (S (S (World.ticks w))) in H2 by lia.
    replace (World.ticks w' + 2)%nat with (S (S (World.ticks w'))) in H2 by lia.
    rewrite Nat.add_0_r in H0.
    rewrite H0, H1, H2.
    rewrite (generateSummaryDE_offset p _ (World.mk (World.now w') (S (S (S (World.ticks w')))) (World.utcOffset w')))
      by apply Hoff.
    reflexivity.
Qed.

(** C3 on a sample: two runs on clocks that read the same times, started at
    different tick counts, yield the same report. *)
Lemma C3_validate_deterministic_up_to_clock_witness :
  validatePresentation Sample.untitled None (Sample.world 5000 0)
  = validatePresentation Sample.untitled None
      (World.mk (fun _ => 5000) 7 (fun _ => 60)).
Proof.
  pose proof (C3_validate_deterministic_up_to_clock Sample.untitled None None
                (Sample.world 5000 0) (World.mk (fun _ => 5000) 7 (fun _ => 60)))
    as (_ & _ & Hsame).
  apply Hsame.
  - intros k. vm_compute. reflexivity.
  - intros t. reflexivity.
Defined.

(** C3 as stated fails: the second of two runs on one model starts where the
    first left the clock, and its report differs from the first in the
    timestamp and in the date line of the English summary, although the
    issues and the score agree. *)
Lemma C3_determinism_counterexample :
  let w := Sample.world 1793491200000 250 in
  let run1 := Validator.validate Sample.untitled None w in
  let run2 := Validator.validate Sample.untitled None (snd run1) in
  Report.issues (fst run1) = Report.issues (fst run2)
  /\ Report.overallScore (fst run1) = Report.overallScore (fst run2)
  /\ Report.timestamp (fst run1) <> Report.timestamp (fst run2)
  /\ Report.reportText (fst run1) <> Report.reportText (fst run2)
  /\ fst run1 <> fst run2.
Proof.
  intros w run1 run2.
  assert (Ht : Report.timestamp (fst run1) <> Report.timestamp (fst run2))
    by (vm_compute; discriminate).
  split; [vm_compute; reflexivity |]. split; [vm_compute; reflexivity |].
  split; [exact Ht |].
  split.
  - apply jsstring_neq. vm_compute. reflexivity.
  - intros Heq. apply Ht. rewrite Heq. reflexivity.
Qed.

(* ===================================================================== *)
(** ** Issue ids and the order of the elements                             *)
(* ===================================================================== *)

Section Rows.

Import Validator.

Lemma filter_perm {X} (f : X -> bool) (l l' : list X) :
  Permutation l l' -> Permutation (List.filter f l) (List.filter f l').
Proof.
  induction 1 as [|x l l' _ IH|x y l|l l' l'' _ IH1 _ IH2]; simpl.
  - constructor.
  - destruct (f x); [constructor |]; exact IH.
  - destruct (f x), (f y); try reflexivity. constructor.
  - etransitivity; eassumption.
Qed.

Lemma keyCount_perm k l l' : Permutation l l' -> keyCount k l = keyCount k l'.
Proof. intros Hp. unfold keyCount. apply Permutation_length, filter_perm, Hp. Qed.

Lemma rowsPush_size (rows : Rows) (y : Z) (tb : SlideElement.t) (k : Z) :
  rowSize k (rowsPush rows y tb)
  = (rowSize k rows + (if (k =? y)%Z then 1 else 0))%nat.
Proof.
  unfold rowSize.
  induction rows as [|[k0 g] rows IH]; cbn [rowsPush List.find fst snd].
  - rewrite (Z.eqb_sym y k). destruct (k =? y); reflexivity.
  - destruct (Z.eqb_spec k0 y) as [->|Hne]; cbn [List.find fst snd].
    + rewrite (Z.eqb_sym y k). destruct (k =? y); cbn [snd]; [| lia].
      rewrite length_app. simpl. lia.
    + destruct (Z.eqb_spec k0 k) as [->|Hne'].
      * destruct (Z.eqb_spec k y); [congruence | lia].
      * exact IH.
Qed.

Lemma rowsPush_keys (rows : Rows) (y : Z) (tb : SlideElement.t) (k : Z) :
  In k (List.map fst (rowsPush rows y tb)) <-> In k (List.map fst rows) \/ k = y.
Proof.
  induction rows as [|[k0 g] rows IH]; simpl.
  - intuition.
  - destruct (Z.eqb_spec k0 y) as [->|Hne]; simpl; [| rewrite IH]; intuition.
Qed.

Lemma rowsPush_NoDup (rows : Rows) (y : Z) (tb : SlideElement.t) :
  List.NoDup (List.map fst rows) ->
  List.NoDup (List.map fst (rowsPush rows y tb)).
Proof.
  induction rows as [|[k0 g] rows IH]; simpl; intros Hnd.
  - constructor; [intros [] | constructor].
  - inversion Hnd as [|? ? Hni Hnd']; subst.
    destruct (Z.eqb_spec k0 y) as [->|Hne]; simpl.
    + constructor; assumption.
    + constructor; [| auto].
      rewrite rowsPush_keys. intros [Hin|Heq]; [auto | congruence].
Qed.

Lemma groupRows_acc (l : list SlideElement.t) (rows0 : Rows) :
  let rows := fold_left (fun rows tb => rowsPush rows (rowKey tb) tb) l rows0 in
  (List.NoDup (List.map fst rows0) -> List.NoDup (List.map fst rows))
  /\ (forall k, rowSize k rows = (rowSize k rows0 + keyCount k l)%nat)
  /\ (forall k, In k (List.map fst rows)
                <-> In k (List.map fst rows0) \/ In k (List.map rowKey l)).
Proof.
  revert rows0. induction l as [|tb l IH]; intros rows0; simpl.
  - split; [auto |]. split; [intros k; unfold keyCount; simpl; lia | intuition].
  - destruct (IH (rowsPush rows0 (rowKey tb) tb)) as (H1 & H2 & H3).
    split; [| split].
    + intros Hnd. apply H1, rowsPush_NoDup, Hnd.
    + intros k. rewrite H2, rowsPush_size. unfold keyCount. simpl.
      destruct (k =? rowKey tb); simpl; lia.
    + intros k. rewrite H3, rowsPush_keys. intuition.
Qed.

Lemma rowSize_own (rows : Rows) :
  List.NoDup (List.map fst rows) ->
  List.map (fun r => length (snd r)) rows
  = List.map (fun k => rowSize k rows) (List.map fst rows).
Proof.
  intros Hnd. rewrite List.map_map. apply map_ext_in. intros [k g] Hin. simpl.
  unfold rowSize. induction rows as [|[k0 g0] rows IH]; [contradiction |].
  simpl in *. inversion Hnd as [|? ? Hni Hnd']; subst.
  destruct Hin as [Heq|Hin].
  - injection Heq as -> ->. rewrite Z.eqb_refl. reflexivity.
  - destruct (Z.eqb_spec k0 k) as [->|Hne]; [| auto].
    exfalso. apply Hni. apply (in_map fst) in Hin. exact Hin.
Qed.

(** The row sizes of a regrouping of the same text boxes in another order
    are the same sizes in another order. *)
Lemma groupRows_perm (l l' : list SlideElement.t) :
  Permutation l l' ->
  Permutation (List.map (fun r => length (snd r)) (groupRows l))
    (List.map (fun r => length (snd r)) (groupRows l')).
Proof.
  intros Hp. unfold groupRows.
  destruct (groupRows_acc l []) as (N1 & S1 & K1).
  destruct (groupRows_acc l' []) as (N2 & S2 & K2).
  cbv zeta in *.
  set (rows := fold_left _ l []) in *. set (rows' := fold_left _ l' []) in *.
  specialize (N1 (List.NoDup_nil _)). specialize (N2 (List.NoDup_nil _)).
  rewrite (rowSize_own rows N1), (rowSize_own rows' N2).
  rewrite (map_ext (fun k => rowSize k rows) (fun k => keyCount k l))
    by (intros k; rewrite S1; reflexivity).
  rewrite (map_ext (fun k => rowSize k rows') (fun k => keyCount k l))
    by (intros k; rewrite S2; symmetry; apply keyCount_perm, Hp).
  apply Permutation_map, NoDup_Permutation; [exact N1 | exact N2 |].
  intros k. rewrite K1, K2. simpl.
  split; intros [[]|Hin]; right;
    [apply (Permutation_in k (Permutation_map rowKey Hp) Hin)
    | apply (Permutation_in k (Permutation_map rowKey (Permutation_sym Hp)) Hin)].
Qed.

Lemma isGrid_forall (sizes : list nat) :
  isGrid sizes = true ->
  (2 <= length sizes)%nat /\ (2 <= hd 0%nat sizes)%nat
  /\ forall s, In s sizes -> s = hd 0%nat sizes.
Proof.
  unfold isGrid. rewrite !andb_true_iff, forallb_forall.
  intros [[_ Hall] [Hlen Hhd]].
  apply Nat.leb_le in Hlen, Hhd. split; [exact Hlen |]. split; [exact Hhd |].
  intros s Hs. apply Nat.eqb_eq, Hall, Hs.
Qed.

Lemma isGrid_perm_true (sizes sizes' : list nat) :
  Permutation sizes sizes' -> isGrid sizes = true ->
  isGrid sizes' = true /\ hd 0%nat sizes' = hd 0%nat sizes.
Proof.
  intros Hp Hg. apply isGrid_forall in Hg as (Hlen & Hhd & Hall).
  assert (Hlen' : (2 <= length sizes')%nat)
    by (rewrite <- (Permutation_length Hp); exact Hlen).
  assert (Hh : hd 0%nat sizes' = hd 0%nat sizes).
  { destruct sizes' as [|s' r']; [simpl in Hlen'; lia |]. simpl.
    apply Hall. apply (Permutation_in s' (Permutation_sym Hp)). left. reflexivity. }
  split; [| exact Hh].
  unfold isGrid. rewrite Hh, !andb_true_iff, forallb_forall.
  repeat split.
  - apply Nat.ltb_lt. lia.
  - intros s Hs. apply Nat.eqb_eq, Hall.
    apply (Permutation_in s (Permutation_sym Hp) Hs).
  - apply Nat.leb_le, Hlen'.
  - apply Nat.leb_le, Hhd.
Qed.

Lemma isGrid_perm (sizes sizes' : list nat) :
  Permutation sizes sizes' -> isGrid sizes = isGrid sizes'.
Proof.
  intros Hp.
  destruct (isGrid sizes) eqn:E.
  - symmetry. apply (isGrid_perm_true sizes sizes' Hp E).
  - destruct (isGrid sizes') eqn:E'; [| reflexivity].
    destruct (isGrid_perm_true sizes' sizes (Permutation_sym Hp) E') as [Ht _].
    congruence.
Qed.

End Rows.

Section Reordering.

Import Validator.

Lemma find_none_perm {X} (f : X -> bool) (l l' : list X) :
  Permutation l l' -> List.find f l = None -> List.find f l' = None.
Proof.
  intros Hp Hn. destruct (List.find f l') as [x|] eqn:E; [| reflexivity].
  apply find_some in E as [Hin Hf].
  apply (Permutation_in x (Permutation_sym Hp)) in Hin.
  rewrite (find_none f l Hn x Hin) in Hf. discriminate.
Qed.

Lemma validateSlideTitle_perm s s' :
  reorderedSlide s s' -> validateSlideTitle s = validateSlideTitle s'.
Proof.
  intros (Hn & _ & Hp & _). unfold validateSlideTitle. rewrite <- Hn.
  destruct (List.find isTitled (Slide.elements s)) as [x|] eqn:E.
  - destruct (List.find isTitled (Slide.elements s')) as [x'|] eqn:E';
      [reflexivity |].
    rewrite (find_none_perm isTitled _ _ (Permutation_sym Hp) E') in E.
    discriminate.
  - rewrite (find_none_perm isTitled _ _ Hp E). reflexivity.
Qed.

Lemma validatePseudoTables_perm s s' :
  reorderedSlide s s' -> validatePseudoTables s = validatePseudoTables s'.
Proof.
  intros (Hn & _ & Hp & _). unfold validatePseudoTables. rewrite <- Hn.
  set (isBox := fun e => bool_decide (SlideElement.type e = textbox)).
  pose proof (filter_perm isBox _ _ Hp) as Hb.
  rewrite <- (Permutation_length Hb).
  destruct (length (List.filter isBox (Slide.elements s)) <? 4)%nat;
    [reflexivity |].
  pose proof (groupRows_perm _ _ Hb) as Hs.
  rewrite <- (isGrid_perm _ _ Hs).
  destruct (isGrid _) eqn:Eg; [| reflexivity].
  destruct (isGrid_perm_true _ _ Hs Eg) as [_ Hh]. rewrite Hh.
  pose proof (Permutation_length Hs) as Hl. rewrite !length_map in Hl.
  rewrite Hl. reflexivity.
Qed.

Lemma overlap_issues_filtered n prs :
  List.filter notOverlap (List.map (overlapIssue n) prs) = [].
Proof. induction prs as [|pr prs IH]; simpl; [reflexivity | exact IH]. Qed.

Lemma validateSlide_perm s s' :
  reorderedSlide s s' ->
  Permutation (List.filter notOverlap (validateSlide s))
    (List.filter notOverlap (validateSlide s')).
Proof.
  intros Hr. pose proof Hr as (Hn & _ & Hp & _ & Hc & Hbg & _).
  unfold validateSlide, validateReadingOrder.
  rewrite !List.filter_app, !overlap_issues_filtered.
  rewrite (validateSlideTitle_perm s s' Hr), (validatePseudoTables_perm s s' Hr).
  unfold orderUncertain. rewrite <- Hn, <- Hc, <- Hbg.
  repeat apply Permutation_app; try reflexivity.
  apply filter_perm, Permutation_flat_map, Hp.
Qed.

Lemma flat_map_Forall2_perm {X Y} (R : X -> X -> Prop) (f : X -> list Y)
  (g : list Y -> list Y) (l l' : list X) :
  Forall2 R l l' ->
  (forall x y, R x y -> Permutation (g (f x)) (g (f y))) ->
  (forall a b, g (a ++ b) = g a ++ g b) ->
  Permutation (g (flat_map f l)) (g (flat_map f l')).
Proof.
  intros HF HR Hg. induction HF as [|x y l l' Hxy _ IH]; simpl; [reflexivity |].
  rewrite !Hg. apply Permutation_app; [apply HR, Hxy | exact IH].
Qed.

(** The issues of the checks other than the overlap check are the same, up
    to their order, when the elements within the slides are reordered. *)
Lemma collectedIssues_perm p p' :
  reordered p p' ->
  Permutation (List.filter notOverlap (collectedIssues p))
    (List.filter notOverlap (collectedIssues p')).
Proof.
  intros (Hm & Hs & Hi & _).
  unfold collectedIssues, collectPresentationIssues, validateDocument.
  rewrite !List.filter_app, <- Hm, <- Hi.
  repeat apply Permutation_app; try reflexivity.
  - apply (flat_map_Forall2_perm reorderedSlide); [exact Hs | |].
    + apply validateSlide_perm.
    + intros a b. apply List.filter_app.
  - apply (flat_map_Forall2_perm reorderedSlide); [exact Hs | |].
    + intros s s' (_ & _ & Hp & _ & _ & _ & His). rewrite <- His.
      rewrite !List.filter_app. apply Permutation_app; [reflexivity |].
      apply filter_perm, Permutation_flat_map, Hp.
    + intros a b. apply List.filter_app.
Qed.

Lemma overlap_sym a b : overlap a b = overlap b a.
Proof.
  unfold overlap.
  destruct (Position.x a <? Position.x b + Position.width b),
    (Position.x b <? Position.x a + Position.width a),
    (Position.y a <? Position.y b + Position.height b),
    (Position.y b <? Position.y a + Position.height a); reflexivity.
Qed.

Lemma in_findOverlapping_cons x l a b :
  In (a, b) (findOverlappingElements (x :: l))
  <-> (a = x /\ In b l
       /\ overlap (SlideElement.position x) (SlideElement.position b) = true)
      \/ In (a, b) (findOverlappingElements l).
Proof.
  simpl. rewrite in_app_iff, in_map_iff. split.
  - intros [(b' & Heq & Hin)|Hin]; [left | right; exact Hin].
    injection Heq as <- <-. apply filter_In in Hin. tauto.
  - intros [(-> & Hin & Ho)|Hin]; [left | right; exact Hin].
    exists b. split; [reflexivity | apply filter_In; tauto].
Qed.

(** Reordering the elements keeps every overlapping pair, possibly with its
    two members exchanged. *)
Lemma findOverlappingElements_perm l l' :
  Permutation l l' ->
  forall a b,
    In (a, b) (findOverlappingElements l) ->
    In (a, b) (findOverlappingElements l')
    \/ In (b, a) (findOverlappingElements l').
Proof.
  induction 1 as [|x l l' Hp IH|x y l|l l' l'' _ IH1 _ IH2]; intros a b Hin.
  - contradiction.
  - apply in_findOverlapping_cons in Hin as [(-> & Hb & Ho)|Hin].
    + left. apply in_findOverlapping_cons. left. split; [reflexivity |].
      split; [apply (Permutation_in b Hp Hb) | exact Ho].
    + destruct (IH a b Hin) as [H1|H1]; [left | right];
        apply in_findOverlapping_cons; right; exact H1.
  - apply in_findOverlapping_cons in Hin as [(-> & [<-|Hb] & Ho)|Hin].
    + right. apply in_findOverlapping_cons. left. split; [reflexivity |].
      split; [left; reflexivity |]. rewrite overlap_sym. exact Ho.
    + left. apply in_findOverlapping_cons. right.
      apply in_findOverlapping_cons. left. tauto.
    + apply in_findOverlapping_cons in Hin as [(-> & Hb & Ho)|Hin].
      * left. apply in_findOverlapping_cons. left. split; [reflexivity |].
        split; [right; exact Hb | exact Ho].
      * left. do 2 (apply in_findOverlapping_cons; right). exact Hin.
  - destruct (IH1 a b Hin) as [H1|H1].
    + apply IH2, H1.
    + destruct (IH2 b a H1); tauto.
Qed.

End Reordering.

Lemma in_ids_test (x : jsstring) (l : list jsstring) :
  In x l <-> List.existsb (JS.eqb x) l = true.
Proof.
  rewrite existsb_exists. unfold JS.eqb. split.
  - intros Hin. exists x. split; [exact Hin | apply bool_decide_eq_true_2; reflexivity].
  - intros (y & Hin & Heq). apply bool_decide_eq_true in Heq. subst y. exact Hin.
Qed.

(** When two models collect the same issues of the other checks, up to their
    order, each of these ids of one report is an id of the other. *)
Lemma report_ids_kept (p p' : Presentation.t)
  (profile : option ConversionProfile.t) (w w' : World.t) :
  Permutation (List.filter notOverlap (Validator.collectedIssues p))
    (List.filter notOverlap (Validator.collectedIssues p')) ->
  forall i,
    In i (Report.issues (validatePresentation p profile w)) ->
    Issue.type i <> overlapping_elements ->
    In (Issue.id i)
      (List.map Issue.id (Report.issues (validatePresentation p' profile w'))).
Proof.
  intros Hperm i Hin Hty.
  change (Report.issues (validatePresentation p profile w))
    with (Validator.deduplicateIssues (Validator.collectedIssues p)) in Hin.
  change (Report.issues (validatePresentation p' profile w'))
    with (Validator.deduplicateIssues (Validator.collectedIssues p')).
  apply deduplicateIssues_ids.
  apply dedupFrom_sub in Hin.
  assert (Hf : In i (List.filter notOverlap (Validator.collectedIssues p))).
  { apply filter_In. split; [exact Hin |]. unfold notOverlap.
    rewrite bool_decide_eq_false_2 by exact Hty. reflexivity. }
  apply (Permutation_in i Hperm) in Hf.
  apply filter_In in Hf as [Hin' _]. apply in_map. exact Hin'.
Qed.

(** C4, as the code has it: when the elements within the slides of a model
    are reordered and nothing else changes, every id of an issue of a check
    other than the overlap check in one report is an id of the other report.
    The id of an overlap issue names the two elements in the order in which
    the elements list has them: reordering keeps every overlapping pair,
    possibly with its two members exchanged. *)
Theorem C4_issue_ids_stable_except_overlap
  (p p' : Presentation.t) (profile : option ConversionProfile.t)
  (w w' : World.t) :
  reordered p p' ->
  (forall i,
     In i (Report.issues (validatePresentation p profile w)) ->
     Issue.type i <> overlapping_elements ->
     In (Issue.id i)
       (List.map Issue.id (Report.issues (validatePresentation p' profile w'))))
  /\ (forall i,
        In i (Report.issues (validatePresentation p' profile w')) ->
        Issue.type i <> overlapping_elements ->
        In (Issue.id i)
          (List.map Issue.id (Report.issues (validatePresentation p profile w))))
  /\ (forall s s' a b,
        reorderedSlide s s' ->
        In (a, b) (Validator.findOverlappingElements (Slide.elements s)) ->
        In (a, b) (Validator.findOverlappingElements (Slide.elements s'))
        \/ In (b, a) (Validator.findOverlappingElements (Slide.elements s'))).
Proof.
  intros Hre.
  split; [exact (report_ids_kept p p' profile w w' (collectedIssues_perm p p' Hre)) |].
  split.
  - apply (report_ids_kept p' p profile w' w).
    symmetry. exact (collectedIssues_perm p p' Hre).
  - intros s s' a b (_ & _ & Hp & _). apply findOverlappingElements_perm, Hp.
Qed.

Lemma overlapSlide_reordered :
  reordered (Sample.overlapSlide Sample.overlapping)
    (Sample.overlapSlide (rev Sample.overlapping)).
Proof.
  repeat split. constructor; [| constructor].
  repeat split. simpl. apply perm_skip, perm_swap.
Qed.

(** C4 on a sample: two overlapping text boxes, the first of them empty, in
    either order; the id of the finding about the empty box is in both
    reports. *)
Lemma C4_issue_ids_stable_except_overlap_witness :
  In (js "slide-1-a-empty")
    (List.map Issue.id
       (Report.issues
          (validatePresentation (Sample.overlapSlide (rev Sample.overlapping))
             None (Sample.world 0 1)))).
Proof.
  pose proof (C4_issue_ids_stable_except_overlap
                (Sample.overlapSlide Sample.overlapping)
                (Sample.overlapSlide (rev Sample.overlapping))
                None (Sample.world 0 1) (Sample.world 0 1)
                overlapSlide_reordered) as (Hids & _ & _).
  destruct (List.find
              (fun i => JS.eqb (Issue.id i) (js "slide-1-a-empty") && notOverlap i)
              (Report.issues
                 (validatePresentation (Sample.overlapSlide Sample.overlapping)
                    None (Sample.world 0 1)))) as [i|] eqn:E.
  - apply find_some in E as [Hin Hi]. apply andb_true_iff in Hi as [Hid Hno].
    unfold JS.eqb in Hid. apply bool_decide_eq_true in Hid. rewrite <- Hid.
    apply Hids; [exact Hin |].
    unfold notOverlap in Hno. apply negb_true_iff, bool_decide_eq_false in Hno.
    exact Hno.
  - vm_compute in E. discriminate E.
Defined.

(** C4 as stated fails: the two text boxes overlap, and exchanging them
    changes the id of the overlap issue from "slide-1-overlap-a-b" to
    "slide-1-overlap-b-a". *)
Lemma C4_issue_id_position_counterexample :
  let ids boxes :=
    List.map Issue.id
      (Report.issues
         (validatePresentation (Sample.overlapSlide boxes) None
            (Sample.world 0 1))) in
  reordered (Sample.overlapSlide Sample.overlapping)
    (Sample.overlapSlide (rev Sample.overlapping))
  /\ In (js "slide-1-overlap-a-b") (ids Sample.overlapping)
  /\ ~ In (js "slide-1-overlap-a-b") (ids (rev Sample.overlapping))
  /\ In (js "slide-1-overlap-b-a") (ids (rev Sample.overlapping)).
Proof.
  intros ids. split; [exact overlapSlide_reordered |].
  rewrite !in_ids_test. split; [vm_compute; reflexivity |].
  split; [| vm_compute; reflexivity].
  intros H. vm_compute in H. discriminate H.
Qed.

(* ===================================================================== *)
(** ** The scenario                                                        *)
(* ===================================================================== *)

(** C5, as the code has it: on the three-slide scenario the report contains
    exactly two issues, one [missing_alt_text] error on slide 2 and one
    [pseudo_table] warning on slide 3, and the score is 100 - 15 - 5 = 80.
    Every report with exactly one error, one warning and no note has the
    score 80. *)
Theorem C5_scenario_report
  (profile : option ConversionProfile.t) (w : World.t) :
  let r := validatePresentation Sample.scenario profile w in
  List.map (fun i => (Issue.type i, Issue.severity i, Issue.slideNumber i))
    (Report.issues r)
  = [ (missing_alt_text, error, Some 2); (pseudo_table, warning, Some 3) ]
  /\ List.map Issue.id (Report.issues r)
     = [ js "slide-2-4-no-alt"; js "slide-3-pseudo-table" ]
  /\ Report.overallScore r = 80
  /\ forall p : Presentation.t,
       let r' := validatePresentation p profile w in
       Validator.countSeverity error (Report.issues r') = 1 ->
       Validator.countSeverity warning (Report.issues r') = 1 ->
       Validator.countSeverity info (Report.issues r') = 0 ->
       Report.overallScore r' = 80.
Proof.
  intros r.
  split; [vm_compute; reflexivity |].
  split; [vm_compute; reflexivity |].
  split; [vm_compute; reflexivity |].
  intros p r' He Hw Hi.
  change (Report.overallScore r')
    with (Validator.calculateScore
            (Validator.countSeverity error (Report.issues r'))
            (Validator.countSeverity warning (Report.issues r'))
            (Validator.countSeverity info (Report.issues r'))).
  rewrite He, Hw, Hi. reflexivity.
Qed.

(** C5 on the scenario itself: its report has one error, one warning and no
    note, hence the score 80. *)
Lemma C5_scenario_report_witness :
  Report.overallScore
    (validatePresentation Sample.scenario None (Sample.world 0 1)) = 80.
Proof.
  pose proof (C5_scenario_report None (Sample.world 0 1)) as (_ & _ & _ & Hgen).
  apply (Hgen Sample.scenario); vm_compute; reflexivity.
Defined.

(** C5 as stated fails: the report of the scenario has the two issues that
    the claim names and no other, and its score is 80, not 85. *)
Lemma C5_scenario_counterexample :
  let r := validatePresentation Sample.scenario None (Sample.world 0 1) in
  List.map (fun i => (Issue.type i, Issue.severity i, Issue.slideNumber i))
    (Report.issues r)
  = [ (missing_alt_text, error, Some 2); (pseudo_table, warning, Some 3) ]
  /\ Report.overallScore r = 80
  /\ Report.overallScore r <> 85.
Proof.
  vm_compute. repeat split; try reflexivity. intros H; discriminate H.
Qed.

(** When the picture of the second slide comes from the parser, it carries
    the parser's own [missing_alt_text] issue, whose id differs from the id
    of the validator's issue for the same picture: the report then has two
    such errors. *)
Example parsed_picture_reported_twice :
  (fun s =>
     List.map (fun i => (Issue.id i, Issue.type i))
       (Report.issues
          (validatePresentation
             (Sample.presentation (js "Jahresbericht") (js "de") [ s ])
             None (Sample.world 0 1))))
    <$> Sample.parsedPictureSlide
  = Some [ (js "slide-2-4-no-alt", missing_alt_text);
           (js "issue-4-missing-alt", missing_alt_text) ].
Proof. vm_compute. reflexivity. Qed.

(* ===================================================================== *)
(** ** Reading order in the generator                                      *)
(* ===================================================================== *)

Section ReadingOrder.

Import Generator.

Lemma elementMap_acc_miss (els : list SlideElement.t)
  (m : gmap jsstring SlideElement.t) (i : jsstring) :
  ~ In i (List.map SlideElement.id els) ->
  fold_left (fun m e => <[ SlideElement.id e := e ]> m) els m !! i = m !! i.
Proof.
  revert m. induction els as [|a els IH]; intros m Hni; simpl in *; [reflexivity |].
  rewrite IH by tauto. apply lookup_insert_ne. tauto.
Qed.

Lemma elementMap_acc_hit (els : list SlideElement.t)
  (m : gmap jsstring SlideElement.t) (e : SlideElement.t) :
  NoDup (List.map SlideElement.id els) -> In e els ->
  fold_left (fun m e => <[ SlideElement.id e := e ]> m) els m
    !! SlideElement.id e = Some e.
Proof.
  revert m. induction els as [|a els IH]; intros m Hnd Hin; simpl in *; [contradiction |].
  apply NoDup_cons in Hnd as [Hna Hnd].
  destruct Hin as [->|Hin].
  - rewrite elementMap_acc_miss by (rewrite <- list_elem_of_In; exact Hna).
    apply lookup_insert_eq.
  - apply IH; assumption.
Qed.

Lemma elementMap_acc_sound (els : list SlideElement.t)
  (m : gmap jsstring SlideElement.t) (i : jsstring) (e : SlideElement.t) :
  fold_left (fun m e => <[ SlideElement.id e := e ]> m) els m !! i = Some e ->
  (In e els /\ SlideElement.id e = i) \/ m !! i = Some e.
Proof.
  revert m. induction els as [|a els IH]; intros m Hl; simpl in *; [auto |].
  apply IH in Hl as [[Hin Hid]|Hl]; [auto |].
  destruct (decide (SlideElement.id a = i)) as [Heq|Hne].
  - subst i. rewrite lookup_insert_eq in Hl. injection Hl as ->. auto.
  - rewrite lookup_insert_ne in Hl by assumption. auto.
Qed.

Lemma elementMap_sound (els : list SlideElement.t) (i : jsstring)
  (e : SlideElement.t) :
  elementMap els !! i = Some e -> In e els /\ SlideElement.id e = i.
Proof.
  intros Hl. apply elementMap_acc_sound in Hl as [H|H]; [exact H |].
  rewrite lookup_empty in H. discriminate.
Qed.

Lemma elementMap_hit (els : list SlideElement.t) (e : SlideElement.t) :
  NoDup (List.map SlideElement.id els) -> In e els ->
  elementMap els !! SlideElement.id e = Some e.
Proof. apply elementMap_acc_hit. Qed.

Lemma listed_ids (els : list SlideElement.t) (ro : list jsstring) :
  NoDup (List.map SlideElement.id els) ->
  (forall i, In i ro -> exists e, In e els /\ SlideElement.id e = i) ->
  List.map SlideElement.id (omap (fun id => elementMap els !! id) ro) = ro.
Proof.
  intros Hnd. induction ro as [|i ro IH]; intros Hall; simpl; [reflexivity |].
  destruct (Hall i (or_introl eq_refl)) as (e & Hin & <-).
  rewrite (elementMap_hit els e Hnd Hin). simpl. f_equal.
  apply IH. intros j Hj. apply Hall. right. exact Hj.
Qed.

Lemma in_listed (els : list SlideElement.t) (ro : list jsstring)
  (e : SlideElement.t) :
  NoDup (List.map SlideElement.id els) ->
  In e (omap (fun id => elementMap els !! id) ro)
  <-> In e els /\ In (SlideElement.id e) ro.
Proof.
  intros Hnd. rewrite <- list_elem_of_In, list_elem_of_omap. split.
  - intros (i & Hi & Hl). apply elementMap_sound in Hl as [Hin <-].
    split; [exact Hin | apply list_elem_of_In; exact Hi].
  - intros [Hin Hro]. exists (SlideElement.id e).
    split; [apply list_elem_of_In; exact Hro | apply elementMap_hit; assumption].
Qed.

Lemma NoDup_of_ids (els : list SlideElement.t) :
  NoDup (List.map SlideElement.id els) -> NoDup els.
Proof. apply (NoDup_fmap_1 SlideElement.id). Qed.

Lemma filter_split_perm {X} (f : X -> bool) (l : list X) :
  Permutation l (List.filter f l ++ List.filter (fun x => negb (f x)) l).
Proof.
  induction l as [|a l IH]; simpl; [constructor |].
  destruct (f a); simpl.
  - constructor. exact IH.
  - etransitivity; [constructor; exact IH |]. apply Permutation_middle.
Qed.

(** A test that every id of [ro] is the id of an element of [els]. *)
Lemma ids_present (els : list SlideElement.t) (ro : list jsstring) :
  List.forallb
    (fun i => List.existsb (fun e => JS.eqb (SlideElement.id e) i) els) ro = true ->
  forall i, In i ro -> exists e, In e els /\ SlideElement.id e = i.
Proof.
  rewrite forallb_forall. intros Hall i Hi.
  apply Hall, existsb_exists in Hi as (e & Hin & Heq).
  exists e. split; [exact Hin |].
  unfold JS.eqb in Heq. apply bool_decide_eq_true in Heq. exact Heq.
Qed.

End ReadingOrder.

(** C7, as the code has it: on a slide whose element ids are pairwise
    distinct and whose reading order lists no id twice and only ids of
    elements of the slide, the generator's ordering is a permutation of the
    elements: first the elements named by the reading order, in that order,
    then the elements that it does not name, in the order of the elements
    list; none occurs twice. *)
Theorem C7_ordered_elements_permutation (slide : Slide.t) :
  NoDup (List.map SlideElement.id (Slide.elements slide)) ->
  NoDup (Slide.readingOrder slide) ->
  (forall i, In i (Slide.readingOrder slide) ->
     exists e, In e (Slide.elements slide) /\ SlideElement.id e = i) ->
  let ordered := Generator.getOrderedElements slide in
  Permutation ordered (Slide.elements slide)
  /\ List.map SlideElement.id ordered
     = Slide.readingOrder slide
       ++ List.filter
            (fun i => negb (bool_decide (i ∈ Slide.readingOrder slide)))
            (List.map SlideElement.id (Slide.elements slide))
  /\ NoDup ordered.
Proof.
  intros Hids Hro Hall ordered. subst ordered.
  unfold Generator.getOrderedElements.
  set (els := Slide.elements slide) in *.
  set (ro := Slide.readingOrder slide) in *.
  set (inRo := fun e : SlideElement.t => bool_decide (SlideElement.id e ∈ ro)).
  assert (Hperm :
    Permutation
      (omap (fun id => Generator.elementMap els !! id) ro
       ++ List.filter (fun e => negb (inRo e)) els) els).
  { rewrite (filter_split_perm inRo els) at 2.
    apply Permutation_app_tail.
    apply NoDup_Permutation.
    - apply NoDup_ListNoDup, NoDup_of_ids.
      rewrite (listed_ids els ro Hids Hall). exact Hro.
    - apply List.NoDup_filter, NoDup_ListNoDup, NoDup_of_ids, Hids.
    - intros e. rewrite (in_listed els ro e Hids), filter_In.
      unfold inRo. rewrite bool_decide_eq_true, list_elem_of_In. tauto. }
  split; [exact Hperm |]. split.
  - rewrite List.map_app, (listed_ids els ro Hids Hall). f_equal.
    clear. induction els as [|a els IH]; simpl; [reflexivity |].
    destruct (bool_decide (SlideElement.id a ∈ ro)); simpl; rewrite IH; reflexivity.
  - apply NoDup_ListNoDup. eapply Permutation_NoDup.
    + symmetry. exact Hperm.
    + apply NoDup_ListNoDup, NoDup_of_ids, Hids.
Qed.

(** C7 on a sample: the reading order names the third and the first of
    three elements; the second follows. *)
Lemma C7_ordered_elements_permutation_witness :
  Permutation (Generator.getOrderedElements Sample.partlyOrdered)
    (Slide.elements Sample.partlyOrdered)
  /\ List.map SlideElement.id (Generator.getOrderedElements Sample.partlyOrdered)
     = [ js "c"; js "a"; js "b" ].
Proof.
  destruct (C7_ordered_elements_permutation Sample.partlyOrdered)
    as (Hperm & Hids & _).
  - apply (bool_decide_unpack _). vm_compute. reflexivity.
  - apply (bool_decide_unpack _). vm_compute. reflexivity.
  - apply ids_present. vm_compute. reflexivity.
  - split; [exact Hperm |]. rewrite Hids. vm_compute. reflexivity.
Defined.

(** C7 as stated fails. Every id of the reading order of [namedTwice]
    belongs to an element of the slide, yet the one element is rendered
    twice; and of two elements that share an id, which the reading order
    names, the first is dropped. *)
Lemma C7_reading_order_counterexample :
  (forall i, In i (Slide.readingOrder Sample.namedTwice) ->
     exists e, In e (Slide.elements Sample.namedTwice) /\ SlideElement.id e = i)
  /\ length (Generator.getOrderedElements Sample.namedTwice) = 2%nat
  /\ ~ Permutation (Generator.getOrderedElements Sample.namedTwice)
         (Slide.elements Sample.namedTwice)
  /\ (forall i, In i (Slide.readingOrder Sample.sharedId) ->
        exists e, In e (Slide.elements Sample.sharedId) /\ SlideElement.id e = i)
  /\ List.map (fun e => Content.text (SlideElement.content e))
       (Generator.getOrderedElements Sample.sharedId)
     = [ Some (js "Zweitens") ]
  /\ ~ Permutation (Generator.getOrderedElements Sample.sharedId)
         (Slide.elements Sample.sharedId).
Proof.
  assert (L1 : length (Generator.getOrderedElements Sample.namedTwice) = 2%nat)
    by (vm_compute; reflexivity).
  assert (L2 : length (Generator.getOrderedElements Sample.sharedId) = 1%nat)
    by (vm_compute; reflexivity).
  split.
  { apply ids_present. vm_compute. reflexivity. }
  split; [exact L1 |]. split.
  { intros Hp. apply Permutation_length in Hp. rewrite L1 in Hp. discriminate Hp. }
  split.
  { apply ids_present. vm_compute. reflexivity. }
  split; [vm_compute; reflexivity |].
  intros Hp. apply Permutation_length in Hp. rewrite L2 in Hp. discriminate Hp.
Qed.

(* ===================================================================== *)
(** ** Structure tree and metadata of the generated document               *)
(* ===================================================================== *)

Section StructureTree.

Import Generator.

Lemma renderSlide_fold cfg slides st :
  let st' := fold_left (renderSlide cfg) slides st in
  State.structureTree st'
  = State.structureTree st
    ++ imap (fun k slide =>
               pageStructure cfg (Doc.pageCount (State.doc st) + k) slide)
         slides
  /\ State.rendered st'
     = State.rendered st
       ++ List.map (fun slide =>
                      List.map (renderOne cfg) (getOrderedElements slide))
            slides
  /\ Doc.Title (State.doc st') = Doc.Title (State.doc st)
  /\ Doc.Language (State.doc st') = Doc.Language (State.doc st).
Proof.
  revert st. induction slides as [|s slides IH]; intros st; simpl.
  - rewrite !app_nil_r. auto.
  - destruct (IH (renderSlide cfg st s)) as (H1 & H2 & H3 & H4).
    split; [| split; [| split]].
    + rewrite H1. simpl. rewrite <- app_assoc. simpl. rewrite Nat.add_0_r.
      do 2 f_equal. apply imap_ext. intros k x _. simpl. f_equal. lia.
    + rewrite H2. simpl. rewrite <- app_assoc. reflexivity.
    + rewrite H3. reflexivity.
    + rewrite H4. reflexivity.
Qed.

Lemma pageStructure_kids cfg k slide :
  kids (pageStructure cfg k slide)
  = List.map (renderElement cfg)
      (List.filter (fun e => negb (SlideElement.isDecorative e))
         (getOrderedElements slide)).
Proof.
  unfold pageStructure. simpl.
  induction (getOrderedElements slide) as [|e l IH]; simpl; [reflexivity |].
  unfold renderOne at 1.
  destruct (SlideElement.isDecorative e); simpl; [exact IH | f_equal; exact IH].
Qed.

End StructureTree.

(** C6: the structure tree that the generator builds has one [Part] per
    slide, and the kids of a part are exactly the structure elements of the
    elements of the slide that are not decorative, in rendering order. A
    decorative element goes through [renderArtifact], which draws on the page
    (a rectangle for an image) and creates no structure element; every kid
    of a part is the rendering of an element that is not decorative. *)
Theorem C6_decorative_excluded
  (options : Generator.Options.t) (p : Presentation.t) (w : World.t) :
  let cfg := Generator.constructor options in
  let st := fst (Generator.generate options p w) in
  Generator.State.structureTree st
  = imap (fun k slide => Generator.pageStructure cfg k slide)
      (Presentation.slides p)
  /\ (forall k slide,
        Generator.role (Generator.pageStructure cfg k slide) = Role.Part
        /\ Generator.kids (Generator.pageStructure cfg k slide)
           = List.map (Generator.renderElement cfg)
               (List.filter (fun e => negb (SlideElement.isDecorative e))
                  (Generator.getOrderedElements slide)))
  /\ (forall element,
        SlideElement.isDecorative element = true ->
        Generator.renderOne cfg element
        = Generator.AsArtifact
            (bool_decide (SlideElement.type element = image))
        /\ Generator.structureOf (Generator.renderOne cfg element) = None)
  /\ (forall k slide node,
        In node (Generator.kids (Generator.pageStructure cfg k slide)) ->
        exists element,
          In element (Generator.getOrderedElements slide)
          /\ SlideElement.isDecorative element = false
          /\ node = Generator.renderElement cfg element).
Proof.
  intros cfg st. split; [| split; [| split]].
  - subst st. unfold Generator.generate. fold cfg.
    destruct (Generator.setMetadata cfg p Generator.emptyDoc w) as [doc w'] eqn:E.
    simpl.
    destruct (renderSlide_fold cfg (Presentation.slides p)
                (Generator.State.mk doc [] [] [])) as (H1 & _).
    rewrite H1. simpl.
    replace (Generator.Doc.pageCount doc) with 0%nat; [reflexivity |].
    unfold Generator.setMetadata in E. simpl in E. injection E as <- _.
    reflexivity.
  - intros k slide. split; [reflexivity | apply pageStructure_kids].
  - intros element Hdec. unfold Generator.renderOne. rewrite Hdec.
    split; reflexivity.
  - intros k slide node Hin. rewrite pageStructure_kids in Hin.
    apply in_map_iff in Hin as (element & <- & Hin).
    apply filter_In in Hin as [Hin Hdec].
    exists element. split; [exact Hin |]. split; [| reflexivity].
    destruct (SlideElement.isDecorative element); [discriminate | reflexivity].
Qed.

(** C6 on a sample: of a title and a decorative picture, only the title has
    a node; the picture is drawn as an artifact. *)
Lemma C6_decorative_excluded_witness :
  let cfg := Generator.constructor Sample.noOptions in
  Generator.renderOne cfg Sample.ornament = Generator.AsArtifact true
  /\ Generator.structureOf (Generator.renderOne cfg Sample.ornament) = None
  /\ Generator.kids (Generator.pageStructure cfg 0 Sample.decorated)
     = [ Generator.renderElement cfg (Sample.heading (js "Ziele")) ].
Proof.
  intros cfg.
  pose proof (C6_decorative_excluded Sample.noOptions
                (Sample.presentation (js "Jahresbericht") (js "de")
                   [ Sample.decorated ])
                (Sample.world 0 1)) as (_ & Hkids & Hdec & _).
  destruct (Hdec Sample.ornament) as [H1 H2]; [reflexivity |].
  split; [exact H1 |]. split; [exact H2 |].
  destruct (Hkids 0%nat Sample.decorated) as [_ Hk].
  fold cfg in Hk. rewrite Hk. vm_compute. reflexivity.
Defined.

Section Metadata.

Import Generator.

Lemma generate_doc options p w :
  let cfg := constructor options in
  let doc := State.doc (fst (generate options p w)) in
  let md := Presentation.metadata p in
  Doc.Title doc
  = Some (opt_or_else (Config.documentTitle cfg)
            (or_else (Metadata.title md) (js "Unbenannte Präsentation")))
  /\ Doc.Language doc
     = Some (or_else (Config.language cfg)
               (or_else (Metadata.language md) (js "de"))).
Proof.
  intros cfg doc md. subst doc. unfold generate. fold cfg.
  destruct (setMetadata cfg p emptyDoc w) as [d w'] eqn:E. simpl.
  destruct (renderSlide_fold cfg (Presentation.slides p) (State.mk d [] [] []))
    as (_ & _ & Ht & Hl).
  simpl in Ht, Hl. rewrite Ht, Hl.
  unfold setMetadata in E. simpl in E. injection E as <- _. simpl. auto.
Qed.

Lemma or_else_truthy a b : truthy (or_else a b) = truthy a || truthy b.
Proof. unfold or_else. destruct a; simpl; reflexivity. Qed.

Lemma truthy_neq s : truthy s = true <-> s <> [].
Proof. destruct s; simpl; split; congruence. Qed.

Lemma config_language_truthy options :
  truthy (Config.language (constructor options)) = true.
Proof.
  unfold constructor. simpl. unfold opt_or_else.
  destruct (Options.language options) as [l|]; [| reflexivity].
  rewrite or_else_truthy. destruct (truthy l); reflexivity.
Qed.

End Metadata.

(** C8, as the code has it: the title of the generated document is the
    [documentTitle] option of the generator when that is configured, else
    the title of the model when that is not empty, else a placeholder; the
    language of the document is the [language] option of the generator when
    that is configured; a language tag is always present; neither value is
    passed through the character table. The title of the report is the title
    of the model when that is not empty, else a placeholder. *)
Theorem C8_metadata_copied
  (options : Generator.Options.t) (p : Presentation.t)
  (profile : option ConversionProfile.t) (w w' : World.t) :
  let doc := Generator.State.doc (fst (Generator.generate options p w)) in
  let md := Presentation.metadata p in
  let r := validatePresentation p profile w' in
  Generator.Doc.Title doc
  = Some (opt_or_else (Generator.Options.documentTitle options)
            (or_else (Metadata.title md) (js "Unbenannte Präsentation")))
  /\ (Generator.Options.documentTitle options = None ->
      Metadata.title md <> [] ->
      Generator.Doc.Title doc = Some (Metadata.title md))
  /\ (forall l, Generator.Options.language options = Some l -> l <> [] ->
      Generator.Doc.Language doc = Some l)
  /\ (exists l, Generator.Doc.Language doc = Some l /\ l <> [])
  /\ Report.documentTitle r = or_else (Metadata.title md) (js "Unbenannt")
  /\ (Metadata.title md <> [] -> Report.documentTitle r = Metadata.title md).
Proof.
  intros doc md r.
  destruct (generate_doc options p w) as [Ht Hl]. fold doc md in Ht, Hl.
  split; [exact Ht |]. split; [| split; [| split; [| split]]].
  - intros Hnone Hne. rewrite Ht. simpl. rewrite Hnone. simpl.
    unfold or_else. apply truthy_neq in Hne. rewrite Hne. reflexivity.
  - intros l Hsome Hne. rewrite Hl. simpl. rewrite Hsome. simpl.
    apply truthy_neq in Hne. unfold or_else. rewrite Hne. simpl.
    rewrite Hne. reflexivity.
  - eexists. split; [exact Hl |]. apply truthy_neq.
    rewrite or_else_truthy, config_language_truthy. reflexivity.
  - reflexivity.
  - intros Hne. change (Report.documentTitle r)
      with (or_else (Metadata.title md) (js "Unbenannt")).
    unfold or_else. apply truthy_neq in Hne. rewrite Hne. reflexivity.
Qed.

(** C8 on a sample: a generator constructed with the language "en" and no
    title option, on a model titled "Jahresbericht". *)
Lemma C8_metadata_copied_witness :
  let options :=
    Generator.Options.mk None None (Some (js "en")) None None in
  let doc :=
    Generator.State.doc
      (fst (Generator.generate options Sample.clean (Sample.world 0 1))) in
  Generator.Doc.Title doc = Some (js "Jahresbericht")
  /\ Generator.Doc.Language doc = Some (js "en")
  /\ Report.documentTitle
       (validatePresentation Sample.clean None (Sample.world 0 1))
     = js "Jahresbericht".
Proof.
  intros options doc.
  pose proof (C8_metadata_copied options Sample.clean None
                (Sample.world 0 1) (Sample.world 0 1))
    as (_ & Ht & Hl & _ & _ & Hr).
  split; [apply Ht; [reflexivity | vm_compute; discriminate] |].
  split; [apply Hl; [reflexivity | vm_compute; discriminate] |].
  apply Hr. vm_compute. discriminate.
Defined.

(** C8 as stated fails: a generator configured with a title and a language
    writes these, not the title and the language of the model, into the
    document. *)
Lemma C8_metadata_counterexample :
  let options :=
    Generator.Options.mk None (Some (js "Entwurf")) (Some (js "fr")) None None in
  let p := Sample.presentation (js "Jahresbericht") (js "en") [] in
  let doc :=
    Generator.State.doc (fst (Generator.generate options p (Sample.world 0 1))) in
  Metadata.title (Presentation.metadata p) = js "Jahresbericht"
  /\ Metadata.language (Presentation.metadata p) = js "en"
  /\ Generator.Doc.Title doc = Some (js "Entwurf")
  /\ Generator.Doc.Language doc = Some (js "fr")
  /\ Generator.Doc.Title doc <> Some (Metadata.title (Presentation.metadata p))
  /\ Generator.Doc.Language doc
     <> Some (Metadata.language (Presentation.metadata p)).
Proof.
  vm_compute. repeat split; try reflexivity; intros H; discriminate H.
Qed.

(* ===================================================================== *)
(** ** Alt text and tables in the parser                                   *)
(* ===================================================================== *)

Section AltText.

Import Parser.

Lemma blank_description (node : CNvPr.t) (d : jsstring) (ty : ElementType) :
  CNvPr.descr node = Some d ->
  let alt := extractAltText (Some node) in
  let status :=
    determineAltTextStatus (AltText.altText alt) (AltText.isDecorative alt) ty in
  let marked := extractDecorativeFlag (CNvPr.extLst node) in
  (d = [] \/ d = js " " -> AltText.isDecorative alt = true /\ status = decorative)
  /\ (trim d = [] -> status <> present)
  /\ (trim d = [] -> d <> [] -> d <> js " " ->
      AltText.isDecorative alt = marked
      /\ status = if marked then decorative else missing).
Proof.
  intros Hd alt status marked. subst alt status marked. unfold extractAltText.
  rewrite Hd. cbn [AltText.isDecorative AltText.altText].
  split; [| split].
  - intros Hblank.
    assert (Hdec : extractDecorativeFlag (CNvPr.extLst node)
                   || bool_decide (Some d = Some [])
                   || bool_decide (Some d = Some (js " ")) = true).
    { destruct Hblank as [->| ->].
      - rewrite (bool_decide_eq_true_2 (Some [] = Some [])) by reflexivity.
        rewrite orb_true_r. reflexivity.
      - rewrite (bool_decide_eq_true_2 (Some (js " ") = Some (js " ")))
          by reflexivity.
        rewrite orb_true_r. reflexivity. }
    rewrite Hdec. split; reflexivity.
  - intros Htrim. unfold determineAltTextStatus.
    destruct d as [|c d].
    + rewrite (bool_decide_eq_true_2 (Some [] = Some [])) by reflexivity.
      rewrite orb_true_r. discriminate.
    + destruct (extractDecorativeFlag (CNvPr.extLst node)
                || bool_decide (Some (c :: d) = Some [])
                || bool_decide (Some (c :: d) = Some (js " ")));
        [discriminate |].
      unfold opt_or. cbn [truthy_opt truthy negb].
      rewrite Htrim. unfold JS.eqb.
      rewrite bool_decide_eq_true_2 by reflexivity. discriminate.
  - intros Htrim Hne Hsp. unfold determineAltTextStatus.
    rewrite (bool_decide_eq_false_2 (Some d = Some [])) by congruence.
    rewrite (bool_decide_eq_false_2 (Some d = Some (js " "))) by congruence.
    rewrite !orb_false_r. split; [reflexivity |].
    destruct (extractDecorativeFlag (CNvPr.extLst node)); [reflexivity |].
    destruct d as [|c d]; [congruence |].
    unfold opt_or. cbn [truthy_opt truthy negb].
    rewrite Htrim. unfold JS.eqb.
    rewrite bool_decide_eq_true_2 by reflexivity. reflexivity.
Qed.

End AltText.

(** C9, as the code has it: a shape or picture whose description attribute
    is the empty string or one space character becomes a decorative element
    ([isDecorative] true, [altTextStatus] "decorative"). No description that
    consists of white space only is ever classified as "present": one that
    is neither empty nor a single space is decorative exactly when the node
    carries the decorative marker, and "missing" otherwise. *)
Theorem C9_blank_description_decorative
  (node : Parser.CNvPr.t) (d : jsstring) (slideNumber : Z) (w : World.t) :
  Parser.CNvPr.descr node = Some d ->
  let marked := Parser.extractDecorativeFlag (Parser.CNvPr.extLst node) in
  (forall pic : Parser.Picture.t,
     Parser.Picture.nvPicPr pic = Some (Some node) ->
     exists e,
       Parser.parsePicture pic slideNumber w = Some e
       /\ (d = [] \/ d = js " " ->
           SlideElement.isDecorative e = true
           /\ Content.altTextStatus (SlideElement.content e) = decorative)
       /\ (trim d = [] ->
           Content.altTextStatus (SlideElement.content e) <> present)
       /\ (trim d = [] -> d <> [] -> d <> js " " ->
           SlideElement.isDecorative e = marked
           /\ Content.altTextStatus (SlideElement.content e)
              = if marked then decorative else missing))
  /\ (forall shape : Parser.Shape.t,
        Parser.Shape.nvSpPr shape = Some (Some node) ->
        exists e,
          Parser.parseShape shape slideNumber w = Some e
          /\ (d = [] \/ d = js " " ->
              SlideElement.isDecorative e = true
              /\ Content.altTextStatus (SlideElement.content e) = decorative)
          /\ (trim d = [] ->
              Content.altTextStatus (SlideElement.content e) <> present)
          /\ (trim d = [] -> d <> [] -> d <> js " " ->
              SlideElement.isDecorative e = marked
              /\ Content.altTextStatus (SlideElement.content e)
                 = if marked then decorative else missing)).
Proof.
  intros Hd marked. split.
  - intros pic Hpic. unfold Parser.parsePicture. rewrite Hpic.
    eexists. split; [reflexivity |].
    cbn [SlideElement.isDecorative SlideElement.content Content.altTextStatus].
    apply (blank_description node d image Hd).
  - intros shape Hshape. unfold Parser.parseShape. rewrite Hshape.
    eexists. split; [reflexivity |].
    cbn [SlideElement.isDecorative SlideElement.content Content.altTextStatus].
    apply (blank_description node d _ Hd).
Qed.

(** C9 on samples: an empty description and a description of one space. *)
Lemma C9_blank_description_decorative_witness :
  (exists e,
     Parser.parsePicture (Sample.picture (Some [])) 2 (Sample.world 0 1) = Some e
     /\ SlideElement.isDecorative e = true
     /\ Content.altTextStatus (SlideElement.content e) = decorative)
  /\ (exists e,
        Parser.parseShape (Sample.shape (Some (js " "))) 2 (Sample.world 0 1)
        = Some e
        /\ SlideElement.isDecorative e = true
        /\ Content.altTextStatus (SlideElement.content e) = decorative).
Proof.
  split.
  - destruct (C9_blank_description_decorative
                (Sample.described (Some [])) [] 2 (Sample.world 0 1) eq_refl)
      as [Hpic _].
    destruct (Hpic (Sample.picture (Some [])) eq_refl) as (e & He & Hdec & _).
    exists e. split; [exact He |]. apply Hdec. left. reflexivity.
  - destruct (C9_blank_description_decorative
                (Sample.described (Some (js " "))) (js " ") 2 (Sample.world 0 1)
                eq_refl)
      as [_ Hshape].
    destruct (Hshape (Sample.shape (Some (js " "))) eq_refl) as (e & He & Hdec & _).
    exists e. split; [exact He |]. apply Hdec. right. reflexivity.
Defined.

(** C9 as stated fails: a description of two spaces, or of a tab, consists
    of white space only, and the picture and the shape that carry it are not
    decorative; their alt text status is "missing". *)
Lemma C9_whitespace_counterexample :
  let two := js "  " in
  let tab := [9%N] in
  let status e := Content.altTextStatus (SlideElement.content e) in
  trim two = [] /\ trim tab = []
  /\ (SlideElement.isDecorative <$>
        Parser.parsePicture (Sample.picture (Some two)) 2 (Sample.world 0 1))
     = Some false
  /\ (status <$>
        Parser.parsePicture (Sample.picture (Some two)) 2 (Sample.world 0 1))
     = Some missing
  /\ (SlideElement.isDecorative <$>
        Parser.parseShape (Sample.shape (Some tab)) 2 (Sample.world 0 1))
     = Some false
  /\ (status <$>
        Parser.parseShape (Sample.shape (Some tab)) 2 (Sample.world 0 1))
     = Some missing.
Proof. vm_compute. repeat split; reflexivity. Qed.

Section Tables.

Import Parser.

Lemma parseCell_fold (k : nat) (cells : list jsstring)
  (st : bool * list TableCell.t) :
  fst (fold_left (parseCell k) cells st)
  = fst st || (k =? 0)%nat && negb (bool_decide (cells = [])).
Proof.
  revert st. induction cells as [|c cells IH]; intros st; simpl.
  - rewrite andb_false_r, orb_false_r. reflexivity.
  - rewrite IH. unfold parseCell. simpl.
    destruct (k =? 0)%nat, (fst st), (bool_decide (cells = [])); reflexivity.
Qed.

(** Rows after the first leave the header flag and the row count as they
    are. *)
Lemma parseRows_later (k : nat) (rows : list (list jsstring))
  (td : TableData.t) :
  TableData.hasHeaderRow (parseRows (S k) rows td) = TableData.hasHeaderRow td
  /\ TableData.rows (parseRows (S k) rows td) = TableData.rows td
  /\ TableData.hasHeaderColumn (parseRows (S k) rows td)
     = TableData.hasHeaderColumn td.
Proof.
  revert k td. induction rows as [|cells rows IH]; intros k td; simpl; [auto |].
  destruct (fold_left (parseCell (S k)) cells (TableData.hasHeaderRow td, []))
    as [h rc] eqn:E.
  destruct (IH (S k)
              {| TableData.rows := TableData.rows td;
                 TableData.columns := TableData.columns td;
                 TableData.cells := TableData.cells td ++ [rc];
                 TableData.hasHeaderRow := h;
                 TableData.hasHeaderColumn := TableData.hasHeaderColumn td |})
    as (H1 & H2 & H3).
  rewrite H1, H2, H3. simpl. split; [| auto].
  pose proof (parseCell_fold (S k) cells (TableData.hasHeaderRow td, [])) as Hf.
  rewrite E in Hf. simpl in Hf. rewrite orb_false_r in Hf. exact Hf.
Qed.

(** The header flag after the first row: set when that row has a cell. *)
Lemma parseRows_first (cells : list jsstring) (rows : list (list jsstring))
  (td : TableData.t) :
  TableData.hasHeaderRow (parseRows 0 (cells :: rows) td)
  = TableData.hasHeaderRow td || negb (bool_decide (cells = [])).
Proof.
  cbn [parseRows].
  destruct (fold_left (parseCell 0) cells (TableData.hasHeaderRow td, []))
    as [h rc] eqn:E.
  match goal with
  | |- context [parseRows 1 rows ?t] =>
      destruct (parseRows_later 0 rows t) as (H1 & _)
  end.
  rewrite H1. cbn [TableData.hasHeaderRow].
  pose proof (parseCell_fold 0 cells (TableData.hasHeaderRow td, [])) as Hf.
  rewrite E in Hf. exact Hf.
Qed.

End Tables.

(** C10, as the code has it: a table whose first row has at least one cell
    is parsed with [hasHeaderRow] true; the parser attaches no issue to it,
    and the validator's checks of the element raise no
    [table_missing_headers] issue, whatever the slide number. *)
Theorem C10_parsed_table_has_header
  (rows : list (list jsstring)) (id : jsstring) (position : Position.t)
  (slideNumber n : Z) :
  (exists cell cells rest, rows = (cell :: cells) :: rest) ->
  let element := Parser.parseTable rows id position slideNumber in
  (exists tableData,
     SlideElement.tableData element = Some tableData
     /\ TableData.hasHeaderRow tableData = true)
  /\ SlideElement.issues element = []
  /\ Validator.hasType
       (Validator.validateElement element n ++ SlideElement.issues element)
       table_missing_headers = false.
Proof.
  intros (cell & cells & rest & ->) element. subst element.
  unfold Parser.parseTable.
  set (td := Parser.parseRows 0 ((cell :: cells) :: rest) _).
  assert (Hh : TableData.hasHeaderRow td = true)
    by (subst td; rewrite parseRows_first; reflexivity).
  cbn [SlideElement.tableData SlideElement.issues].
  rewrite Hh. cbn [negb andb].
  split; [exists td; auto |]. split; [reflexivity |].
  rewrite app_nil_r.
  unfold Validator.validateElement, Validator.validateTableStructure.
  cbn [SlideElement.tableData SlideElement.type SlideElement.hyperlink
       SlideElement.id SlideElement.content SlideElement.isDecorative
       Content.text].
  rewrite Hh.
  rewrite !(bool_decide_eq_false_2 (table = _)) by discriminate.
  rewrite (bool_decide_eq_true_2 (table = table)) by reflexivity.
  cbn [negb andb orb app truthy_opt].
  destruct (0 <? Validator.emptyCellCount (TableData.cells td));
    rewrite ?app_nil_r; reflexivity.
Qed.

(** C10 on a sample: a table with a header row and one data row. *)
Lemma C10_parsed_table_has_header_witness :
  let element :=
    Parser.parseTable Sample.yearTable (js "6") (Position.mk 40 100 600 200 0) 2 in
  (exists tableData,
     SlideElement.tableData element = Some tableData
     /\ TableData.hasHeaderRow tableData = true)
  /\ SlideElement.issues element = []
  /\ Validator.hasType
       (Validator.validateElement element 2 ++ SlideElement.issues element)
       table_missing_headers = false.
Proof.
  apply (C10_parsed_table_has_header Sample.yearTable).
  eexists _, _, _. reflexivity.
Defined.

(** C10 as stated fails: a table whose second row has cells and whose first
    row has none is parsed with [hasHeaderRow] false, and both the parser and
    the validator raise [table_missing_headers] for it. *)
Lemma C10_table_header_counterexample :
  let element :=
    Parser.parseTable Sample.headlessTable (js "6")
      (Position.mk 40 100 600 200 0) 2 in
  (exists r, In r Sample.headlessTable /\ r <> [])
  /\ (TableData.hasHeaderRow <$> SlideElement.tableData element) = Some false
  /\ List.map Issue.type (SlideElement.issues element) = [ table_missing_headers ]
  /\ Validator.hasType (Validator.validateElement element 2)
       table_missing_headers = true.
Proof.
  intros element. split.
  - exists [ js "2024"; js "17" ]. split; [right; left; reflexivity | discriminate].
  - vm_compute. repeat split; reflexivity.
Qed.

(* ===================================================================== *)
(** ** The issue list and the counts of a report                           *)
(* ===================================================================== *)

Section ReportIssues.

Import Validator.

Lemma dedupFrom_NoDup seen l : NoDup (List.map Issue.id (dedupFrom seen l)).
Proof.
  revert seen. induction l as [|i l IH]; intros seen; simpl.
  - constructor.
  - case_bool_decide as Hs; [apply IH |]. simpl.
    apply NoDup_cons. split; [| apply IH].
    rewrite list_elem_of_In, dedupFrom_ids. intros [_ Hn].
    apply Hn. apply elem_of_union. left. apply elem_of_singleton. reflexivity.
Qed.

Lemma dedupFrom_find seen l (id : jsstring) :
  id ∉ seen ->
  List.find (fun i => eqb (Issue.id i) id) (dedupFrom seen l)
  = List.find (fun i => eqb (Issue.id i) id) l.
Proof.
  revert seen. induction l as [|i l IH]; intros seen Hid; simpl; [reflexivity |].
  unfold eqb at 2. case_bool_decide as Hs.
  - rewrite bool_decide_eq_false_2 by (intros E; apply Hid; rewrite <- E; exact Hs).
    apply IH, Hid.
  - simpl. unfold eqb at 1. case_bool_decide as He; [reflexivity |].
    apply IH. apply not_in_seen_cons. split; assumption.
Qed.

Lemma dedupFrom_sublist seen l : sublist (dedupFrom seen l) l.
Proof.
  revert seen. induction l as [|i l IH]; intros seen; simpl.
  - constructor.
  - case_bool_decide.
    + apply sublist_cons, IH.
    + apply sublist_skip, IH.
Qed.

(** Issues whose ids all occur before them leave no trace. *)
Lemma dedupFrom_absorb seen l :
  (forall i, In i l -> Issue.id i ∈ seen) -> dedupFrom seen l = [].
Proof.
  induction l as [|i l IH]; intros Hall; simpl; [reflexivity |].
  rewrite bool_decide_eq_true_2 by (apply Hall; left; reflexivity).
  apply IH. intros j Hj. apply Hall. right. exact Hj.
Qed.

Lemma dedupFrom_fixed seen l :
  NoDup (List.map Issue.id l) ->
  (forall i, In i l -> Issue.id i ∉ seen) ->
  dedupFrom seen l = l.
Proof.
  revert seen. induction l as [|i l IH]; intros seen Hnd Hs; simpl; [reflexivity |].
  simpl in Hnd. apply NoDup_cons in Hnd as [Hni Hnd].
  rewrite bool_decide_eq_false_2 by (apply Hs; left; reflexivity).
  f_equal. apply IH; [exact Hnd |].
  intros j Hj. apply not_in_seen_cons. split.
  - intros E. apply Hni. rewrite E. apply list_elem_of_In, in_map, Hj.
  - apply Hs. right. exact Hj.
Qed.

Lemma length_by_severity (l : list Issue.t) :
  Z.of_nat (length l)
  = countSeverity error l + countSeverity warning l + countSeverity info l.
Proof.
  induction l as [|i l IH]; [reflexivity |].
  rewrite !countSeverity_cons. unfold hasSeverity.
  change (length (i :: l)) with (S (length l)).
  destruct (Issue.severity i); simpl bool_decide; cbv iota; lia.
Qed.

Lemma filter_length_le {X} (f : X -> bool) (l : list X) :
  (length (List.filter f l) <= length l)%nat.
Proof.
  induction l as [|a l IH]; simpl; [lia |]. destruct (f a); simpl; lia.
Qed.

End ReportIssues.

(** X1: the report lists every collected issue id exactly once. Its issue
    ids are pairwise distinct, an id is reported if and only if some check
    or some issue carried by the model has it, the issue reported for an id
    is the first one collected with that id, and the reported issues keep
    the order in which they were collected. *)
Theorem report_lists_each_id_once
  (p : Presentation.t) (profile : option ConversionProfile.t) (w : World.t) :
  let r := validatePresentation p profile w in
  let collected := Validator.collectedIssues p in
  NoDup (List.map Issue.id (Report.issues r))
  /\ (forall id, In id (List.map Issue.id (Report.issues r))
                 <-> In id (List.map Issue.id collected))
  /\ (forall id, List.find (fun i => eqb (Issue.id i) id) (Report.issues r)
                 = List.find (fun i => eqb (Issue.id i) id) collected)
  /\ sublist (Report.issues r) collected.
Proof.
  intros r collected.
  change (Report.issues r) with (Validator.deduplicateIssues collected).
  unfold Validator.deduplicateIssues.
  split; [apply dedupFrom_NoDup |].
  split; [intros id; apply deduplicateIssues_ids |].
  split; [intros id; apply dedupFrom_find, not_elem_of_empty |].
  apply dedupFrom_sublist.
Qed.

(** X2: deduplication absorbs repetitions and nothing else. Issues appended
    to a list are dropped when each of their ids already occurs in the
    list; a list without repeated ids is returned unchanged; deduplicating
    twice is deduplicating once. *)
Theorem deduplicateIssues_absorbs (l l' : list Issue.t) :
  ((forall i, In i l' -> In (Issue.id i) (List.map Issue.id l)) ->
   Validator.deduplicateIssues (l ++ l') = Validator.deduplicateIssues l)
  /\ (NoDup (List.map Issue.id l) -> Validator.deduplicateIssues l = l)
  /\ Validator.deduplicateIssues (Validator.deduplicateIssues l)
     = Validator.deduplicateIssues l.
Proof.
  unfold Validator.deduplicateIssues.
  split; [| split].
  - intros Hall.
    destruct (dedupFrom_app ∅ l l') as (s & E & Hs). rewrite E.
    rewrite (dedupFrom_absorb s l'); [apply app_nil_r |].
    intros i Hi. apply Hs. right. apply Hall, Hi.
  - intros Hnd. apply dedupFrom_fixed; [exact Hnd |].
    intros i _. apply not_elem_of_empty.
  - apply dedupFrom_fixed; [apply dedupFrom_NoDup |].
    intros i _. apply not_elem_of_empty.
Qed.

(** X2 on a sample: a model that carries the error e1 three times and the
    warning w1 once. *)
Lemma deduplicateIssues_absorbs_witness :
  Validator.deduplicateIssues
    ([ Sample.carried (js "e1") error; Sample.carried (js "w1") warning ]
     ++ [ Sample.carried (js "e1") error; Sample.carried (js "e1") warning ])
  = Validator.deduplicateIssues
      [ Sample.carried (js "e1") error; Sample.carried (js "w1") warning ]
  /\ Validator.deduplicateIssues
       [ Sample.carried (js "e1") error; Sample.carried (js "w1") warning ]
     = [ Sample.carried (js "e1") error; Sample.carried (js "w1") warning ].
Proof.
  pose proof
    (deduplicateIssues_absorbs
       [ Sample.carried (js "e1") error; Sample.carried (js "w1") warning ]
       [ Sample.carried (js "e1") error; Sample.carried (js "e1") warning ])
    as (H1 & H2 & _).
  split.
  - apply H1. intros i [<-|[<-|[]]]; vm_compute; auto.
  - apply H2. vm_compute.
    apply NoDup_cons. split; [rewrite list_elem_of_In; simpl; intros [E|[]]; discriminate E |].
    apply NoDup_cons. split; [rewrite list_elem_of_In; simpl; tauto |].
    apply NoDup_nil. exact I.
Defined.

(** X3: the counts of a report add up. The total is the sum of the errors,
    the warnings and the notes, at most that many issues are fixable
    automatically, the score lies between 0 and 100, and it is 100 exactly
    when the report has no issue at all. *)
Theorem report_counts_add_up
  (p : Presentation.t) (profile : option ConversionProfile.t) (w : World.t) :
  let r := validatePresentation p profile w in
  let s := Report.summary r in
  Summary.total s = Z.of_nat (length (Report.issues r))
  /\ Summary.total s = Summary.errors s + Summary.warnings s + Summary.info s
  /\ 0 <= Summary.errors s /\ 0 <= Summary.warnings s /\ 0 <= Summary.info s
  /\ 0 <= Summary.autoFixable s <= Summary.total s
  /\ 0 <= Report.overallScore r <= 100
  /\ (Report.overallScore r = 100 <-> Report.issues r = []).
Proof.
  intros r s.
  set (u := Validator.deduplicateIssues (Validator.collectedIssues p)).
  change (Report.issues r) with u.
  change (Summary.total s) with (Z.of_nat (length u)).
  change (Summary.errors s) with (Validator.countSeverity error u).
  change (Summary.warnings s) with (Validator.countSeverity warning u).
  change (Summary.info s) with (Validator.countSeverity info u).
  change (Summary.autoFixable s)
    with (Z.of_nat (length (List.filter Issue.autoFixable u))).
  change (Report.overallScore r)
    with (Validator.calculateScore (Validator.countSeverity error u)
            (Validator.countSeverity warning u) (Validator.countSeverity info u)).
  pose proof (length_by_severity u) as Hsum.
  pose proof (countSeverity_nonneg error u) as He.
  pose proof (countSeverity_nonneg warning u) as Hw.
  pose proof (countSeverity_nonneg info u) as Hi.
  pose proof (filter_length_le Issue.autoFixable u) as Hf.
  rewrite calculateScore_formula.
  repeat split; try lia.
  - intros H. destruct u as [|i u']; [reflexivity |]. simpl length in Hsum. lia.
  - intros E. rewrite E in *. simpl in Hsum. lia.
Qed.

(** X4: the text summaries speak of errors and warnings only. A report
    without error and warning prints the line that no issue was found, in
    both languages, whatever notes it lists and whatever its score is; the
    three title placeholders of the report differ. *)
Theorem summary_silent_on_notes
  (p : Presentation.t) (profile : option ConversionProfile.t) (w : World.t) :
  let r := validatePresentation p profile w in
  let docTitle := Metadata.title (Presentation.metadata p) in
  let t k := World.now w (World.ticks w + k)%nat in
  Summary.errors (Report.summary r) = 0 ->
  Summary.warnings (Report.summary r) = 0 ->
  Report.reportText r
  = join nl
      [ js "=== Accessibility Report ===" ++ nl;
        js "Document: " ++ or_else docTitle (js "Untitled");
        js "Date: " ++ Date.toISOString (t 0%nat) ++ nl;
        js "✅ No accessibility issues found." ++ nl ]
  /\ Report.reportTextDE r
     = join nl
         [ js "=== Barrierefreiheits-Prüfbericht ===" ++ nl;
           js "Dokument: " ++ or_else docTitle (js "Ohne Titel");
           js "Datum: " ++ Date.toLocaleDateString_de w (t 2%nat) ++ nl;
           js "✅ Keine Barrierefreiheitsprobleme gefunden." ++ nl ]
  /\ Report.documentTitle r = or_else docTitle (js "Unbenannt").
Proof.
  intros r docTitle t He Hw. subst r docTitle t. cbv beta.
  rewrite Nat.add_0_r.
  replace (World.ticks w + 2)%nat with (S (S (World.ticks w))) by lia.
  unfold validatePresentation, Validator.validate, Validator.generateReport in *.
  cbn [newDate fst snd Report.reportText Report.reportTextDE Report.summary
       Report.documentTitle Summary.errors Summary.warnings
       World.now World.ticks World.utcOffset] in *.
  unfold Validator.generateSummary, Validator.generateSummaryDE.
  rewrite He, Hw.
  change (0 =? 0) with true. change (0 <? 0) with false.
  cbn [andb app].
  rewrite (toLocaleDateString_de_offset _ w) by reflexivity.
  repeat split.
Qed.

(** X4 on a sample: a model whose only finding is the note that the author
    is not set; the score is 99. *)
Lemma summary_silent_on_notes_witness :
  let r := validatePresentation Sample.anonymous None (Sample.world 0 1) in
  Report.reportText r
  = join nl
      [ js "=== Accessibility Report ===" ++ nl;
        js "Document: Jahresbericht";
        js "Date: 1970-01-01T00:00:00.000Z" ++ nl;
        js "✅ No accessibility issues found." ++ nl ]
  /\ List.map Issue.id (Report.issues r) = [ js "doc-no-author" ]
  /\ Report.overallScore r = 99.
Proof.
  intros r.
  pose proof (summary_silent_on_notes Sample.anonymous None (Sample.world 0 1))
    as H.
  cbv zeta in H.
  destruct H as (H1 & _ & _); [vm_compute; reflexivity | vm_compute; reflexivity |].
  split; [| split; vm_compute; reflexivity].
  subst r. rewrite H1. vm_compute. reflexivity.
Defined.

(* ===================================================================== *)
(** ** The quality rules for alternative texts                             *)
(* ===================================================================== *)

Section AltTextQuality.

Import Validator.

Lemma isWhiteSpace_spec (c : N) :
  isWhiteSpace c = true
  <-> ((9 <= c <= 13) \/ c = 32 \/ c = 160 \/ c = 5760 \/ (8192 <= c <= 8202)
       \/ c = 8232 \/ c = 8233 \/ c = 8239 \/ c = 8287 \/ c = 12288
       \/ c = 65279)%N.
Proof.
  unfold isWhiteSpace.
  rewrite !orb_true_iff, !andb_true_iff, !N.leb_le, !N.eqb_eq. tauto.
Qed.

Lemma isWhiteSpace_false (c : N) :
  isWhiteSpace c = false
  <-> ~ ((9 <= c <= 13) \/ c = 32 \/ c = 160 \/ c = 5760 \/ (8192 <= c <= 8202)
         \/ c = 8232 \/ c = 8233 \/ c = 8239 \/ c = 8287 \/ c = 12288
         \/ c = 65279)%N.
Proof. rewrite <- isWhiteSpace_spec. destruct (isWhiteSpace c); split; congruence. Qed.

(** A text without white space. *)
Lemma splitWhitespace_nonempty (s : jsstring) : splitWhitespace s <> [].
Proof.
  induction s as [|c r IH]; simpl; [discriminate |].
  destruct (isWhiteSpace c).
  - destruct r as [|c' r']; [discriminate |].
    destruct (isWhiteSpace c'); [exact IH | discriminate].
  - destruct (splitWhitespace r); discriminate.
Qed.

Lemma splitWhitespace_one (s : jsstring) :
  List.forallb (fun c => negb (isWhiteSpace c)) s = true ->
  splitWhitespace s = [ s ].
Proof.
  induction s as [|c r IH]; simpl; [reflexivity |].
  destruct (isWhiteSpace c); simpl; [discriminate |].
  intros H. rewrite (IH H). reflexivity.
Qed.

Lemma splitWhitespace_more (s : jsstring) :
  List.forallb (fun c => negb (isWhiteSpace c)) s = false ->
  (2 <= length (splitWhitespace s))%nat.
Proof.
  induction s as [|c r IH]; simpl; [discriminate |].
  pose proof (splitWhitespace_nonempty r) as Hne.
  destruct (isWhiteSpace c) eqn:Ec; simpl.
  - intros _. destruct r as [|c' r']; [simpl; lia |].
    destruct (isWhiteSpace c') eqn:Ec'.
    + apply IH. simpl. rewrite Ec'. reflexivity.
    + destruct (splitWhitespace (c' :: r')); [congruence | simpl; lia].
  - intros H. specialize (IH H).
    destruct (splitWhitespace r); simpl in *; lia.
Qed.

(** [s.split(/\s+/).length < 2] holds exactly when [s] has no white
    space. *)
Lemma splitWhitespace_single (s : jsstring) :
  (length (splitWhitespace s) <? 2)%nat
  = List.forallb (fun c => negb (isWhiteSpace c)) s.
Proof.
  destruct (List.forallb (fun c => negb (isWhiteSpace c)) s) eqn:E.
  - rewrite (splitWhitespace_one s E). reflexivity.
  - apply Nat.ltb_ge, splitWhitespace_more, E.
Qed.

Lemma isPrefixOf_split (p s : jsstring) :
  isPrefixOf p s = true -> s = p ++ drop (length p) s.
Proof.
  revert s. induction p as [|a p IH]; intros s; simpl.
  - intros _. rewrite drop_0. reflexivity.
  - destruct s as [|b s]; [discriminate |].
    intros H. apply andb_true_iff in H as [Hab Hp].
    apply N.eqb_eq in Hab. subst b. simpl. f_equal. apply IH, Hp.
Qed.

Lemma digits_no_space (s : jsstring) :
  List.forallb isDigit s = true ->
  List.forallb (fun c => negb (isWhiteSpace c)) s = true.
Proof.
  induction s as [|c s IH]; simpl; [reflexivity |].
  intros H. apply andb_true_iff in H as [Hc Hs].
  rewrite (IH Hs), andb_true_r.
  apply negb_true_iff, isWhiteSpace_false.
  unfold isDigit in Hc. apply andb_true_iff in Hc as [H1 H2].
  apply N.leb_le in H1, H2. lia.
Qed.

Lemma wordThenDigits_no_space (word s : jsstring) :
  List.forallb (fun c => negb (isWhiteSpace c)) word = true ->
  wordThenDigits word s = true ->
  List.forallb (fun c => negb (isWhiteSpace c)) s = true.
Proof.
  unfold wordThenDigits. intros Hw H.
  apply andb_true_iff in H as [Hp Hd].
  rewrite (isPrefixOf_split word s Hp), forallb_app, Hw.
  apply digits_no_space, Hd.
Qed.

(** Every generic name is a single word. *)
Lemma generic_is_single_word (lowered : jsstring) :
  List.existsb (eqb lowered) genericWords
  || wordThenDigits (js "img") lowered
  || wordThenDigits (js "picture") lowered = true ->
  List.forallb (fun c => negb (isWhiteSpace c)) lowered = true.
Proof.
  intros H. apply orb_true_iff in H as [H|H]; [apply orb_true_iff in H as [H|H] |].
  - apply existsb_exists in H as (g & Hg & E).
    unfold eqb in E. apply bool_decide_eq_true in E. subst lowered.
    assert (Hall : List.forallb
                     (fun g => List.forallb (fun c => negb (isWhiteSpace c)) g)
                     genericWords = true) by (vm_compute; reflexivity).
    rewrite forallb_forall in Hall. apply Hall, Hg.
  - eapply wordThenDigits_no_space; [| exact H]. vm_compute. reflexivity.
  - eapply wordThenDigits_no_space; [| exact H]. vm_compute. reflexivity.
Qed.

Lemma lower_unit_no_space (c : N) :
  isWhiteSpace c = false ->
  List.forallb (fun d => negb (isWhiteSpace d)) (lower_unit c) = true.
Proof.
  intros Hc. unfold lower_unit, isAsciiUpper.
  destruct ((65 <=? c)%N && (c <=? 90)%N) eqn:E1.
  { apply andb_true_iff in E1 as [H1 H2]. apply N.leb_le in H1, H2.
    simpl. rewrite andb_true_r. apply negb_true_iff, isWhiteSpace_false. lia. }
  destruct ((192 <=? c)%N && (c <=? 222)%N && negb (c =? 215)%N) eqn:E2.
  { apply andb_true_iff in E2 as [E2 _].
    apply andb_true_iff in E2 as [H1 H2]. apply N.leb_le in H1, H2.
    simpl. rewrite andb_true_r. apply negb_true_iff, isWhiteSpace_false. lia. }
  destruct (c =? 304)%N; [vm_compute; reflexivity |].
  destruct (c =? 8490)%N; [vm_compute; reflexivity |].
  destruct (c =? 8491)%N; [vm_compute; reflexivity |].
  simpl. rewrite Hc. reflexivity.
Qed.

Lemma toLowerCase_no_space (s : jsstring) :
  List.forallb (fun c => negb (isWhiteSpace c)) s = true ->
  List.forallb (fun c => negb (isWhiteSpace c)) (toLowerCase s) = true.
Proof.
  unfold toLowerCase. induction s as [|c s IH]; simpl; [reflexivity |].
  intros H. apply andb_true_iff in H as [Hc Hs].
  rewrite forallb_app, (IH Hs), andb_true_r.
  apply lower_unit_no_space, negb_true_iff, Hc.
Qed.

Lemma trimStart_no_space (s : jsstring) :
  List.forallb (fun c => negb (isWhiteSpace c)) s = true -> trimStart s = s.
Proof.
  destruct s as [|c s]; simpl; [reflexivity |].
  destruct (isWhiteSpace c); simpl; [discriminate | reflexivity].
Qed.

Lemma forallb_reverse {X} (f : X -> bool) (l : list X) :
  List.forallb f (reverse l) = List.forallb f l.
Proof.
  induction l as [|a l IH]; [reflexivity |].
  rewrite reverse_cons, forallb_app, IH. simpl.
  rewrite andb_true_r. apply andb_comm.
Qed.

Lemma trim_no_space (s : jsstring) :
  List.forallb (fun c => negb (isWhiteSpace c)) s = true -> trim s = s.
Proof.
  intros H. unfold trim, trimEnd.
  rewrite (trimStart_no_space s H).
  rewrite trimStart_no_space by (rewrite forallb_reverse; exact H).
  apply reverse_involutive.
Qed.

End AltTextQuality.

(** X5: an alternative text is judged of low quality exactly when its
    trimmed lower-case form ends in one of the seven image file extensions
    or is a single word; the list of generic names never decides, because
    each generic name is a single word. In particular every alternative
    text that contains no white space is of low quality, and a picture that
    carries such a text is reported with the warning
    [insufficient_alt_text]. *)
Theorem low_quality_alt_text_rules (altText : jsstring) :
  let lowered := trim (toLowerCase altText) in
  let single (s : jsstring) := List.forallb (fun c => negb (isWhiteSpace c)) s in
  Validator.isLowQualityAltText altText
  = List.existsb
      (fun ext => endsWith (List.map ascii_lower lowered) (js "." ++ ext))
      Validator.imageExtensions
    || (length (splitWhitespace lowered) <? 2)%nat
  /\ (single altText = true -> Validator.isLowQualityAltText altText = true)
  /\ forall element n,
       SlideElement.isDecorative element = false ->
       Content.altTextStatus (SlideElement.content element) <> missing ->
       Content.altText (SlideElement.content element) = Some altText ->
       altText <> [] -> single altText = true ->
       List.map (fun i => (Issue.id i, Issue.type i, Issue.severity i))
         (Validator.validateImageAltText element n)
       = [ (Validator.slidePrefix n ++ js "-" ++ SlideElement.id element
              ++ js "-poor-alt",
            insufficient_alt_text, warning) ].
Proof.
  intros lowered single.
  assert (Hrule :
    Validator.isLowQualityAltText altText
    = List.existsb
        (fun ext => endsWith (List.map ascii_lower lowered) (js "." ++ ext))
        Validator.imageExtensions
      || (length (splitWhitespace lowered) <? 2)%nat).
  { unfold Validator.isLowQualityAltText. fold lowered.
    destruct (List.existsb _ Validator.imageExtensions); [reflexivity |].
    rewrite splitWhitespace_single. cbn [orb].
    destruct (List.existsb (eqb lowered) Validator.genericWords
              || Validator.wordThenDigits (js "img") lowered
              || Validator.wordThenDigits (js "picture") lowered) eqn:G.
    - symmetry. apply generic_is_single_word, G.
    - destruct (List.forallb (fun c => negb (isWhiteSpace c)) lowered);
        reflexivity. }
  assert (Hsingle :
    single altText = true -> Validator.isLowQualityAltText altText = true).
  { intros Hs. rewrite Hrule, splitWhitespace_single.
    subst lowered. rewrite trim_no_space by (apply toLowerCase_no_space, Hs).
    rewrite (toLowerCase_no_space altText Hs). apply orb_true_r. }
  split; [exact Hrule |]. split; [exact Hsingle |].
  intros element n Hdec Hst Halt Hne Hs.
  unfold Validator.validateImageAltText.
  rewrite Hdec, Halt.
  rewrite (bool_decide_eq_false_2 _ Hst).
  assert (Htext : has_text (Some altText) = true).
  { unfold has_text. rewrite (trim_no_space altText Hs).
    destruct altText; [congruence | reflexivity]. }
  rewrite Htext. cbn [negb orb].
  rewrite (Hsingle Hs).
  destruct altText as [|c rest]; [congruence |]. reflexivity.
Qed.

(** X5 on a sample: the one-word text Organigramm. *)
Lemma low_quality_alt_text_rules_witness :
  Validator.isLowQualityAltText (js "Organigramm") = true.
Proof.
  pose proof (low_quality_alt_text_rules (js "Organigramm")) as H.
  cbv zeta in H. destruct H as (_ & H & _).
  apply H. vm_compute. reflexivity.
Defined.

(* ===================================================================== *)
(** ** Overlapping elements                                                *)
(* ===================================================================== *)

Section Overlaps.

Import Validator.

Lemma findOverlapping_none (elements : list SlideElement.t) :
  Parser.checkForOverlaps elements
  = negb (bool_decide (findOverlappingElements elements = [])).
Proof.
  induction elements as [|a rest IH]; [reflexivity |].
  cbn [Parser.checkForOverlaps findOverlappingElements]. rewrite IH.
  change (fun b => Parser.overlapping (SlideElement.position a)
                     (SlideElement.position b))
    with (fun b => overlap (SlideElement.position a) (SlideElement.position b)).
  set (f := fun b => overlap (SlideElement.position a) (SlideElement.position b)).
  assert (Hex : List.existsb f rest = negb (bool_decide (List.filter f rest = []))).
  { clear. induction rest as [|b rest IH]; [reflexivity |]. simpl.
    destruct (f b); [reflexivity | exact IH]. }
  rewrite Hex.
  destruct (List.filter f rest) as [|b l]; simpl.
  - reflexivity.
  - reflexivity.
Qed.

Lemma findOverlapping_length (elements : list SlideElement.t) :
  (2 * length (findOverlappingElements elements)
   <= length elements * (length elements - 1))%nat.
Proof.
  induction elements as [|a rest IH]; [simpl; lia |].
  cbn [findOverlappingElements].
  rewrite length_app, length_map.
  pose proof (filter_length_le
                (fun b => overlap (SlideElement.position a)
                            (SlideElement.position b)) rest) as Hf.
  change (length (a :: rest)) with (S (length rest)).
  destruct (length rest) as [|n]; [simpl in *; lia |].
  simpl in IH. rewrite Nat.sub_0_r in IH. simpl. nia.
Qed.

Lemma hasType_overlaps n (pairs : list (SlideElement.t * SlideElement.t)) :
  hasType (List.map (overlapIssue n) pairs) overlapping_elements
  = negb (bool_decide (pairs = [])).
Proof.
  destruct pairs as [|pr pairs]; [reflexivity |].
  rewrite (bool_decide_eq_false_2 (pr :: pairs = [])) by discriminate.
  reflexivity.
Qed.

End Overlaps.

(** X6: the parser and the validator find the same overlaps. The parser's
    [checkForOverlaps] answers [true] on the elements of a slide exactly
    when the validator reports at least one [overlapping_elements] issue
    for the slide; the validator reports one issue for each overlapping
    pair, hence at most n (n - 1) / 2 issues for n elements. *)
Theorem overlap_checks_agree (slide : Slide.t) :
  let elements := Slide.elements slide in
  let found :=
    List.filter (fun i => bool_decide (Issue.type i = overlapping_elements))
      (Validator.validateReadingOrder slide) in
  Parser.checkForOverlaps elements
  = Validator.hasType (Validator.validateReadingOrder slide) overlapping_elements
  /\ length found = length (Validator.findOverlappingElements elements)
  /\ (2 * length found <= length elements * (length elements - 1))%nat.
Proof.
  intros elements found. subst found.
  unfold Validator.validateReadingOrder. fold elements.
  assert (Hnone :
    List.filter (fun i => bool_decide (Issue.type i = overlapping_elements))
      (Validator.orderUncertain slide) = []
    /\ Validator.hasType (Validator.orderUncertain slide) overlapping_elements
       = false).
  { unfold Validator.orderUncertain.
    destruct (Validator.Qltb _ _); split; reflexivity. }
  destruct Hnone as [Hf Hh].
  assert (Hall : forall pairs,
    List.filter (fun i => bool_decide (Issue.type i = overlapping_elements))
      (List.map (Validator.overlapIssue (Slide.number slide)) pairs)
    = List.map (Validator.overlapIssue (Slide.number slide)) pairs).
  { induction pairs as [|pr pairs IH]; [reflexivity |].
    cbn [List.map List.filter]. cbn [Validator.overlapIssue Issue.type].
    rewrite bool_decide_eq_true_2 by reflexivity. f_equal. exact IH. }
  rewrite List.filter_app, Hf, Hall. cbn [app]. rewrite length_map.
  split; [| split; [reflexivity | apply findOverlapping_length]].
  unfold Validator.hasType. rewrite existsb_app.
  fold (Validator.hasType (Validator.orderUncertain slide) overlapping_elements).
  rewrite Hh. cbn [orb].
  fold (Validator.hasType
          (List.map (Validator.overlapIssue (Slide.number slide))
             (Validator.findOverlappingElements elements))
          overlapping_elements).
  rewrite hasType_overlaps. apply findOverlapping_none.
Qed.



(* ===================================================================== *)
(** ** Text boxes arranged as a table                                      *)
(* ===================================================================== *)

Section Grid.

Import Validator.

Lemma rowsPush_total (rows : list (Z * list SlideElement.t)) (y : Z)
  (tb : SlideElement.t) :
  sum_list (List.map (fun r => length (snd r)) (rowsPush rows y tb))
  = S (sum_list (List.map (fun r => length (snd r)) rows)).
Proof.
  induction rows as [|[k g] rows IH]; [reflexivity |].
  cbn [rowsPush]. destruct (k =? y); cbn [List.map sum_list snd].
  - rewrite length_app. simpl. lia.
  - cbn [List.map sum_list snd] in IH. rewrite IH. lia.
Qed.

Lemma groupRows_total_acc (l : list SlideElement.t)
  (rows0 : list (Z * list SlideElement.t)) :
  sum_list
    (List.map (fun r => length (snd r))
       (fold_left (fun rows tb => rowsPush rows (rowKey tb) tb) l rows0))
  = (sum_list (List.map (fun r => length (snd r)) rows0) + length l)%nat.
Proof.
  revert rows0. induction l as [|tb l IH]; intros rows0; simpl; [lia |].
  rewrite IH, rowsPush_total. lia.
Qed.

(** Every text box is filed in exactly one row. *)
Lemma groupRows_total (l : list SlideElement.t) :
  sum_list (List.map (fun r => length (snd r)) (groupRows l)) = length l.
Proof. unfold groupRows. rewrite groupRows_total_acc. reflexivity. Qed.

Lemma sum_list_constant (sizes : list nat) (c : nat) :
  (forall s, In s sizes -> s = c) -> sum_list sizes = (length sizes * c)%nat.
Proof.
  induction sizes as [|s sizes IH]; intros Hall; [reflexivity |].
  simpl. rewrite IH by (intros t Ht; apply Hall; right; exact Ht).
  rewrite (Hall s) by (left; reflexivity). reflexivity.
Qed.

(** The parser's grid test is the validator's. *)
Lemma detectPseudoTable_isGrid (textboxes : list SlideElement.t) :
  Parser.detectPseudoTable textboxes
  = negb (length textboxes <? 4)%nat
    && isGrid (List.map (fun r => length (snd r)) (groupRows textboxes)).
Proof.
  unfold Parser.detectPseudoTable, isGrid.
  destruct (length textboxes <? 4)%nat; [reflexivity |]. cbn [negb andb].
  rewrite length_map.
  set (sizes := List.map (fun r => length (snd r)) (groupRows textboxes)).
  destruct (List.forallb (fun s => (s =? hd 0 sizes)%nat) sizes);
    [| rewrite andb_false_r; reflexivity].
  rewrite andb_true_r. cbn [andb].
  destruct (length (groupRows textboxes)) as [|[|n]]; reflexivity.
Qed.

End Grid.

(** X8: what the validator reports as a pseudo table is a full grid. When
    [validatePseudoTables] raises its issue for a slide, the text boxes of
    the slide fall into at least two rows of one and the same number of
    boxes, that number is at least two, and rows times columns is the
    number of text boxes; the context of the issue states these two
    numbers, and the issue is the only one of the check. *)
Theorem pseudo_table_is_full_grid (slide : Slide.t) :
  let textboxes :=
    List.filter (fun e => bool_decide (SlideElement.type e = textbox))
      (Slide.elements slide) in
  let rows := Validator.groupRows textboxes in
  Validator.validatePseudoTables slide <> [] ->
  exists columns : nat,
    (2 <= length rows)%nat /\ (2 <= columns)%nat
    /\ (forall r, In r rows -> length (snd r) = columns)
    /\ length textboxes = (length rows * columns)%nat
    /\ List.map (fun i => (Issue.id i, Issue.type i, Issue.context i))
         (Validator.validatePseudoTables slide)
       = [ (Validator.slidePrefix (Slide.number slide) ++ js "-pseudo-table",
            pseudo_table,
            Some (Number_toString (Z.of_nat (length rows)) ++ js " rows × "
                  ++ Number_toString (Z.of_nat columns)
                  ++ js " columns of textboxes")) ].
Proof.
  intros textboxes rows Hraised.
  unfold Validator.validatePseudoTables in *. fold textboxes in Hraised |- *.
  destruct (length textboxes <? 4)%nat; [congruence |].
  fold rows in Hraised |- *.
  set (sizes := List.map (fun r => length (snd r)) rows) in *.
  destruct (Validator.isGrid sizes) eqn:G; [| congruence].
  apply isGrid_forall in G as (Hlen & Hhd & Hall).
  exists (hd 0%nat sizes).
  assert (Hl : length sizes = length rows) by apply length_map.
  split; [lia |]. split; [exact Hhd |]. split; [| split; [| reflexivity]].
  - intros r Hr. apply Hall. unfold sizes.
    apply (in_map (fun r => length (snd r))), Hr.
  - rewrite <- (groupRows_total textboxes). fold rows. fold sizes.
    rewrite <- Hl. apply sum_list_constant, Hall.
Qed.

(** X8 on a sample: six text boxes in two rows of three. *)
Lemma pseudo_table_is_full_grid_witness :
  exists columns : nat,
    (2 <= columns)%nat
    /\ length
         (List.filter (fun e => bool_decide (SlideElement.type e = textbox))
            (Slide.elements Sample.gridSlide))
       = (length
            (Validator.groupRows
               (List.filter
                  (fun e => bool_decide (SlideElement.type e = textbox))
                  (Slide.elements Sample.gridSlide)))
          * columns)%nat.
Proof.
  destruct (pseudo_table_is_full_grid Sample.gridSlide)
    as (columns & _ & H2 & _ & H4 & _).
  - vm_compute. discriminate.
  - exists columns. split; [exact H2 | exact H4].
Defined.

(** X9: the parser's checks of a slide are the validator's, under other
    ids. The parser raises its missing-title warning for the elements of a
    slide exactly when the validator raises its own, and its pseudo-table
    warning exactly when the validator raises its own. For a slide that
    carries the parser's issues, both issues of each such finding are in
    the report, since their ids differ. *)
Theorem parser_slide_checks_repeated
  (p : Presentation.t) (profile : option ConversionProfile.t) (w : World.t)
  (slide : Slide.t) :
  let elements := Slide.elements slide in
  let n := Slide.number slide in
  let reported id :=
    List.existsb (eqb id)
      (List.map Issue.id (Report.issues (validatePresentation p profile w))) in
  (Parser.missingSlideTitle elements n = []
   <-> Validator.validateSlideTitle slide = [])
  /\ (Parser.pseudoTableFound elements n = []
      <-> Validator.validatePseudoTables slide = [])
  /\ (In slide (Presentation.slides p) ->
      Slide.issues slide = Parser.validateSlide elements n ->
      (Validator.validateSlideTitle slide <> [] ->
       reported (js "slide-" ++ Number_toString n ++ js "-no-title") = true
       /\ reported (js "issue-slide-" ++ Number_toString n ++ js "-no-title")
          = true)
      /\ (Validator.validatePseudoTables slide <> [] ->
          reported (js "slide-" ++ Number_toString n ++ js "-pseudo-table")
          = true
          /\ reported
               (js "issue-slide-" ++ Number_toString n ++ js "-pseudo-table")
             = true)).
Proof.
  intros elements n reported.
  assert (Htitle : Parser.missingSlideTitle elements n = []
                   <-> Validator.validateSlideTitle slide = []).
  { unfold Parser.missingSlideTitle, Validator.validateSlideTitle.
    fold elements.
    change (fun e : SlideElement.t =>
              bool_decide (SlideElement.type e = title)
              && has_text (Content.text (SlideElement.content e)))
      with Validator.isTitled.
    assert (Hfind : List.existsb Validator.isTitled elements
                    = match List.find Validator.isTitled elements with
                      | Some _ => true | None => false end).
    { clear. induction elements as [|e l IH]; [reflexivity |]. simpl.
      destruct (Validator.isTitled e); [reflexivity | exact IH]. }
    rewrite Hfind.
    destruct (List.find Validator.isTitled elements); simpl; split;
      congruence. }
  assert (Hgrid : Parser.pseudoTableFound elements n = []
                  <-> Validator.validatePseudoTables slide = []).
  { unfold Parser.pseudoTableFound, Validator.validatePseudoTables.
    fold elements.
    set (textboxes :=
           List.filter (fun e => bool_decide (SlideElement.type e = textbox))
             elements).
    rewrite detectPseudoTable_isGrid.
    destruct (Nat.ltb_spec (length textboxes) 4) as [Hlt|Hge].
    - rewrite (proj2 (Nat.leb_gt 4 (length textboxes)) Hlt). simpl. tauto.
    - rewrite (proj2 (Nat.leb_le 4 (length textboxes)) Hge). cbn [negb andb].
      destruct (Validator.isGrid _); split; congruence. }
  split; [exact Htitle |]. split; [exact Hgrid |].
  intros Hin Hcarried.
  assert (Hrep : forall i,
            In i (Validator.validateSlide slide) \/ In i (Slide.issues slide) ->
            reported (Issue.id i) = true).
  { intros i Hi. unfold reported. apply in_ids_test.
    change (Report.issues (validatePresentation p profile w))
      with (Validator.deduplicateIssues (Validator.collectedIssues p)).
    apply deduplicateIssues_ids, in_map.
    unfold Validator.collectedIssues, Validator.collectPresentationIssues.
    rewrite !in_app_iff, !in_flat_map.
    destruct Hi as [Hi|Hi].
    - right. left. exists slide. split; assumption.
    - right. right. right. exists slide. split; [exact Hin |].
      apply in_app_iff. left. exact Hi. }
  split.
  - intros Hv.
    assert (Hp : Parser.missingSlideTitle elements n <> []) by tauto.
    split.
    + unfold Validator.validateSlideTitle in Hv. fold elements in Hv.
      fold n in Hv.
      destruct (List.find Validator.isTitled elements) eqn:F; [congruence |].
      match type of Hv with
      | [ ?i ] <> [] =>
          apply (Hrep i); left; unfold Validator.validateSlide,
            Validator.validateSlideTitle; fold elements; fold n; rewrite F;
            left; reflexivity
      end.
    + unfold Parser.missingSlideTitle in Hp.
      destruct (negb _) eqn:F in Hp; [| congruence].
      match type of Hp with
      | [ ?i ] <> [] =>
          apply (Hrep i); right; rewrite Hcarried;
            unfold Parser.validateSlide, Parser.missingSlideTitle;
            rewrite F; left; reflexivity
      end.
  - intros Hv.
    assert (Hp : Parser.pseudoTableFound elements n <> []) by tauto.
    split.
    + unfold Validator.validatePseudoTables in Hv. fold elements in Hv.
      fold n in Hv.
      destruct (length _ <? 4)%nat eqn:F1 in Hv; [congruence |].
      destruct (Validator.isGrid _) eqn:F2 in Hv; [| congruence].
      match type of Hv with
      | [ ?i ] <> [] =>
          apply (Hrep i); left; unfold Validator.validateSlide,
            Validator.validatePseudoTables; fold elements; fold n;
            rewrite F1, F2; rewrite !in_app_iff; right; right; right; left;
            left; reflexivity
      end.
    + unfold Parser.pseudoTableFound in Hp.
      destruct (_ && _) eqn:F in Hp; [| congruence].
      match type of Hp with
      | [ ?i ] <> [] =>
          apply (Hrep i); right; rewrite Hcarried;
            unfold Parser.validateSlide, Parser.pseudoTableFound;
            rewrite F; rewrite !in_app_iff; right; left; left; reflexivity
      end.
Qed.

(** X9 on a sample: a parsed slide without title is reported under both
    ids, and the two warnings cost ten points. *)
Lemma parser_slide_checks_repeated_witness :
  let r :=
    validatePresentation
      (Sample.presentation (js "Jahresbericht") (js "de") [ Sample.parsedBare ])
      None (Sample.world 0 1) in
  List.existsb (eqb (js "slide-1-no-title")) (List.map Issue.id (Report.issues r))
  = true
  /\ List.existsb (eqb (js "issue-slide-1-no-title"))
       (List.map Issue.id (Report.issues r)) = true
  /\ Report.overallScore r = 90.
Proof.
  intros r.
  pose proof
    (parser_slide_checks_repeated
       (Sample.presentation (js "Jahresbericht") (js "de") [ Sample.parsedBare ])
       None (Sample.world 0 1) Sample.parsedBare) as H.
  cbv zeta in H. destruct H as (_ & _ & H).
  destruct H as [H _]; [left; reflexivity | reflexivity |].
  destruct H as [H1 H2]; [vm_compute; discriminate |].
  split; [| split].
  - etransitivity; [| exact H1]. vm_compute. reflexivity.
  - etransitivity; [| exact H2]. vm_compute. reflexivity.
  - vm_compute. reflexivity.
Defined.

(* ===================================================================== *)
(** ** Findings that the parser attaches to pictures, charts and tables    *)
(* ===================================================================== *)

Section ParsedElements.

Import Validator.

Lemma determineAltTextStatus_text (altText : option jsstring)
  (ty : ElementType) :
  Parser.determineAltTextStatus altText false ty
  = if has_text altText then present else missing.
Proof.
  unfold Parser.determineAltTextStatus, has_text.
  destruct altText as [[|c t]|]; [reflexivity | | reflexivity].
  cbn [truthy negb]. unfold eqb.
  destruct (trim (c :: t)); reflexivity.
Qed.

Lemma has_text_truthy (altText : option jsstring) :
  has_text altText = true -> truthy_opt altText = true.
Proof.
  destruct altText as [[|c t]|]; simpl; [| reflexivity | discriminate].
  unfold has_text. simpl. discriminate.
Qed.

(** The first character of an id of the parser and of an id of a check of
    the validator on a slide. *)
Lemma issue_id_head (r : jsstring) : hd 0%N (js "issue-" ++ r) = 105%N.
Proof. reflexivity. Qed.

Lemma slide_id_head (n : Z) (r : jsstring) : hd 0%N (slidePrefix n ++ r) = 115%N.
Proof. reflexivity. Qed.

Lemma validateImageAltText_ids (e : SlideElement.t) (m : Z) (j : Issue.t) :
  In j (validateImageAltText e m) -> hd 0%N (Issue.id j) = 115%N.
Proof.
  unfold validateImageAltText.
  destruct (SlideElement.isDecorative e); [intros [] |].
  destruct (_ || _).
  - intros [<-|[]]. apply slide_id_head.
  - destruct (Content.altText (SlideElement.content e)) as [txt|]; [| intros []].
    destruct (_ && _); [| intros []].
    intros [<-|[]]. apply slide_id_head.
Qed.

Lemma validateImageAltText_missing (e : SlideElement.t) (m : Z) :
  hasType (validateImageAltText e m) missing_alt_text
  = negb (SlideElement.isDecorative e)
    && (bool_decide (Content.altTextStatus (SlideElement.content e) = missing)
        || negb (has_text (Content.altText (SlideElement.content e)))).
Proof.
  unfold validateImageAltText.
  destruct (SlideElement.isDecorative e); [reflexivity |].
  destruct (_ || _); [reflexivity |].
  destruct (Content.altText (SlideElement.content e)) as [txt|]; [| reflexivity].
  destruct (_ && _); reflexivity.
Qed.

Lemma parseCell_cells (k : nat) (cells : list jsstring)
  (st : bool * list TableCell.t) :
  snd (fold_left (Parser.parseCell k) cells st)
  = snd st ++ List.map (cellOf k) cells.
Proof.
  revert st. induction cells as [|c cells IH]; intros st.
  - simpl. rewrite app_nil_r. reflexivity.
  - cbn [fold_left List.map]. rewrite IH. unfold Parser.parseCell. cbn [snd].
    rewrite <- app_assoc. reflexivity.
Qed.

Lemma parseRows_cells (k : nat) (rows : list (list jsstring))
  (td : TableData.t) :
  TableData.cells (Parser.parseRows k rows td)
  = TableData.cells td
    ++ imap (fun i texts => List.map (cellOf (k + i)) texts) rows.
Proof.
  revert k td. induction rows as [|cells rows IH]; intros k td.
  - simpl. rewrite app_nil_r. reflexivity.
  - cbn [Parser.parseRows].
    pose proof (parseCell_cells k cells (TableData.hasHeaderRow td, [])) as Hc.
    destruct (fold_left (Parser.parseCell k) cells
                (TableData.hasHeaderRow td, [])) as [h rc].
    cbn [snd app] in Hc. subst rc.
    rewrite IH. cbn [TableData.cells]. rewrite <- app_assoc.
    f_equal. cbn [imap app]. rewrite Nat.add_0_r. f_equal.
    apply imap_ext. intros i x _. cbn. do 2 f_equal. lia.
Qed.

Lemma parseTable_data (rows : list (list jsstring)) (id : jsstring)
  (position : Position.t) (n : Z) :
  exists td,
    SlideElement.tableData (Parser.parseTable rows id position n) = Some td
    /\ TableData.cells td = imap (fun i texts => List.map (cellOf i) texts) rows
    /\ TableData.rows td = Z.of_nat (length rows)
    /\ TableData.hasHeaderColumn td = false
    /\ TableData.hasHeaderRow td = negb (bool_decide (hd [] rows = [])).
Proof.
  unfold Parser.parseTable. cbn [SlideElement.tableData].
  eexists. split; [reflexivity |].
  split; [rewrite parseRows_cells; reflexivity |].
  destruct rows as [|cells rows]; [repeat split |].
  rewrite parseRows_first. cbn [Parser.parseRows].
  destruct (fold_left (Parser.parseCell 0) cells _) as [h rc].
  match goal with
  | |- context [Parser.parseRows 1 rows ?t] =>
      destruct (parseRows_later 0 rows t) as (_ & H2 & H3)
  end.
  rewrite H2, H3. repeat split.
Qed.

End ParsedElements.

(** X10: a picture without alternative text is found twice. For the
    element that [parsePicture] builds, the parser attaches its
    [missing_alt_text] issue exactly when the validator raises its own for
    that element, whatever slide number the validator is given; the ids of
    the two differ, so the report carries both; the parser never judges
    the quality of a text. *)
Theorem picture_findings_repeated
  (pic : Parser.Picture.t) (n m : Z) (w : World.t) (e : SlideElement.t) :
  Parser.parsePicture pic n w = Some e ->
  Validator.hasType (SlideElement.issues e) missing_alt_text
  = Validator.hasType (Validator.validateElement e m) missing_alt_text
  /\ (forall i j, In i (SlideElement.issues e) ->
                  In j (Validator.validateElement e m) ->
                  Issue.id i <> Issue.id j)
  /\ Validator.hasType (SlideElement.issues e) insufficient_alt_text = false.
Proof.
  unfold Parser.parsePicture.
  destruct (Parser.Picture.nvPicPr pic) as [cNvPr|]; [| discriminate].
  intros E. injection E as <-.
  set (alt := Parser.extractAltText cNvPr).
  set (e := {| SlideElement.id := _ |}).
  assert (Hv : Validator.validateElement e m
               = Validator.validateImageAltText e m).
  { unfold Validator.validateElement. subst e.
    cbn [SlideElement.type SlideElement.hyperlink truthy_opt].
    rewrite (bool_decide_eq_true_2 (image = image)) by reflexivity.
    rewrite !(bool_decide_eq_false_2 (image = _)) by discriminate.
    cbn [orb andb app]. rewrite !app_nil_r. reflexivity. }
  rewrite Hv. split; [| split].
  - rewrite validateImageAltText_missing. subst e.
    cbn [SlideElement.issues SlideElement.isDecorative SlideElement.content
         Content.altTextStatus Content.altText].
    destruct (Parser.AltText.isDecorative alt) eqn:D.
    + rewrite andb_false_r. reflexivity.
    + rewrite determineAltTextStatus_text.
      destruct (has_text (Parser.AltText.altText alt)); reflexivity.
  - intros i j Hi Hj Heq.
    apply validateImageAltText_ids in Hj. rewrite <- Heq in Hj.
    assert (Hi' : hd 0%N (Issue.id i) = 105%N).
    { subst e. cbn [SlideElement.issues] in Hi.
      destruct (_ && _) in Hi; [| destruct Hi].
      destruct Hi as [<-|[]]. apply issue_id_head. }
    rewrite Hi' in Hj. discriminate Hj.
  - subst e. cbn [SlideElement.issues].
    destruct (_ && _); reflexivity.
Qed.

(** X10 on a sample: the picture without description and title. *)
Lemma picture_findings_repeated_witness :
  exists e,
    Parser.parsePicture (Sample.picture None) 2 (Sample.world 0 1) = Some e
    /\ Validator.hasType (SlideElement.issues e) missing_alt_text
       = Validator.hasType (Validator.validateElement e 2) missing_alt_text
    /\ Validator.hasType (Validator.validateElement e 2) missing_alt_text = true.
Proof.
  eexists. split; [reflexivity |]. split.
  - apply (picture_findings_repeated (Sample.picture None) 2 2
             (Sample.world 0 1)).
    reflexivity.
  - vm_compute. reflexivity.
Defined.

(** X11: for a chart the validator is stricter than the parser. The parser
    attaches its [missing_alt_text] issue to a chart that is not decorative
    and whose alternative text is absent or empty; the validator raises its
    own for a chart that is not decorative and whose alternative text is
    absent or consists of white space. Every chart that the parser reports
    is hence reported by the validator as well. *)
Theorem chart_findings
  (id : jsstring) (position : Position.t) (cNvPr : option Parser.CNvPr.t)
  (n m : Z) :
  let e := Parser.parseChart id position cNvPr n in
  let alt := Parser.extractAltText cNvPr in
  Validator.hasType (SlideElement.issues e) missing_alt_text
  = negb (Parser.AltText.isDecorative alt)
    && negb (truthy_opt (Parser.AltText.altText alt))
  /\ Validator.hasType (Validator.validateElement e m) missing_alt_text
     = negb (Parser.AltText.isDecorative alt)
       && negb (has_text (Parser.AltText.altText alt))
  /\ (Validator.hasType (SlideElement.issues e) missing_alt_text = true ->
      Validator.hasType (Validator.validateElement e m) missing_alt_text = true).
Proof.
  intros e alt.
  assert (H1 : Validator.hasType (SlideElement.issues e) missing_alt_text
               = negb (Parser.AltText.isDecorative alt)
                 && negb (truthy_opt (Parser.AltText.altText alt))).
  { subst e. unfold Parser.parseChart. fold alt. cbn [SlideElement.issues].
    destruct (Parser.AltText.isDecorative alt),
      (truthy_opt (Parser.AltText.altText alt)); reflexivity. }
  assert (H2 : Validator.hasType (Validator.validateElement e m) missing_alt_text
               = negb (Parser.AltText.isDecorative alt)
                 && negb (has_text (Parser.AltText.altText alt))).
  { assert (Hv : Validator.validateElement e m
                 = Validator.validateImageAltText e m).
    { unfold Validator.validateElement. subst e. unfold Parser.parseChart.
      cbn [SlideElement.type SlideElement.hyperlink truthy_opt].
      rewrite (bool_decide_eq_true_2 (chart = chart)) by reflexivity.
      rewrite !(bool_decide_eq_false_2 (chart = _)) by discriminate.
      cbn [orb andb app]. rewrite !app_nil_r. reflexivity. }
    rewrite Hv, validateImageAltText_missing.
    subst e. unfold Parser.parseChart. fold alt.
    cbn [SlideElement.isDecorative SlideElement.content Content.altTextStatus
         Content.altText].
    destruct (Parser.AltText.isDecorative alt) eqn:D; [reflexivity |].
    rewrite determineAltTextStatus_text.
    destruct (has_text (Parser.AltText.altText alt)); reflexivity. }
  split; [exact H1 |]. split; [exact H2 |].
  rewrite H1, H2. intros H.
  apply andb_true_iff in H as [Hd Ht]. rewrite Hd. cbn [andb].
  destruct (has_text (Parser.AltText.altText alt)) eqn:T; [| reflexivity].
  rewrite (has_text_truthy _ T) in Ht. discriminate Ht.
Qed.

(** X11 on samples: a chart without any description is reported by both;
    a chart whose description is two spaces is reported by the validator
    only. *)
Lemma chart_findings_witness :
  let bare := Parser.parseChart (js "12") (Position.mk 40 100 400 300 0) None 2 in
  let blank :=
    Parser.parseChart (js "12") (Position.mk 40 100 400 300 0)
      (Some Sample.blankChart) 2 in
  Validator.hasType (Validator.validateElement bare 2) missing_alt_text = true
  /\ Validator.hasType (SlideElement.issues blank) missing_alt_text = false
  /\ Validator.hasType (Validator.validateElement blank 2) missing_alt_text
     = true.
Proof.
  intros bare blank. split; [| split; vm_compute; reflexivity].
  pose proof (chart_findings (js "12") (Position.mk 40 100 400 300 0) None 2 2)
    as H.
  cbv zeta in H. destruct H as (_ & _ & H).
  apply H. vm_compute. reflexivity.
Defined.

(** X12: a table without header row is found twice, and only such a table.
    For the element that [parseTable] builds, the parser attaches its
    [table_missing_headers] issue exactly when the validator raises its
    own, and both do so exactly when the table has two or more rows and its
    first row has no cell; the parser never marks a header column. *)
Theorem table_findings_repeated
  (rows : list (list jsstring)) (id : jsstring) (position : Position.t)
  (n m : Z) :
  let e := Parser.parseTable rows id position n in
  let headless := bool_decide (hd [] rows = []) && (1 <? length rows)%nat in
  Validator.hasType (SlideElement.issues e) table_missing_headers = headless
  /\ Validator.hasType (Validator.validateElement e m) table_missing_headers
     = headless
  /\ (TableData.hasHeaderColumn <$> SlideElement.tableData e) = Some false
  /\ (TableData.rows <$> SlideElement.tableData e)
     = Some (Z.of_nat (length rows)).
Proof.
  intros e headless.
  destruct (parseTable_data rows id position n)
    as (td & Htd & Hcells & Hrows & Hcol & Hrow).
  fold e in Htd.
  assert (Hlen : (1 <? TableData.rows td) = (1 <? length rows)%nat).
  { rewrite Hrows. destruct (Nat.ltb_spec 1 (length rows)).
    - apply Z.ltb_lt. lia.
    - apply Z.ltb_ge. lia. }
  split; [| split; [| rewrite Htd; cbn; rewrite Hcol, Hrows; auto]].
  - subst e headless. unfold Parser.parseTable in *.
    cbn [SlideElement.issues SlideElement.tableData] in *.
    injection Htd as Htd. rewrite Htd, Hrow, Hlen, negb_involutive.
    destruct (bool_decide (hd [] rows = [])), (1 <? length rows)%nat;
      reflexivity.
  - unfold Validator.validateElement, Validator.validateTableStructure.
    rewrite Htd. subst e. unfold Parser.parseTable.
    cbn [SlideElement.type SlideElement.hyperlink SlideElement.content
         SlideElement.isDecorative SlideElement.id Content.text truthy_opt].
    rewrite (bool_decide_eq_true_2 (table = table)) by reflexivity.
    rewrite !(bool_decide_eq_false_2 (table = _)) by discriminate.
    cbn [orb andb app]. rewrite !app_nil_r.
    rewrite Hrow, Hcol, Hlen, negb_involutive. subst headless. cbn [negb].
    rewrite andb_true_r.
    unfold Validator.hasType. rewrite existsb_app.
    destruct (bool_decide (hd [] rows = []) && (1 <? length rows)%nat);
      cbn [List.existsb Issue.type orb];
      destruct (0 <? Validator.emptyCellCount (TableData.cells td));
      reflexivity.
Qed.

(* ===================================================================== *)
(** ** Tags, pages and bookmarks of the generated document                 *)
(* ===================================================================== *)

Section Tags.

Import Generator.

Lemma imap_imap {X Y V} (f : nat -> Y -> V) (g : nat -> X -> Y) (l : list X) :
  imap f (imap g l) = imap (fun i x => f i (g i x)) l.
Proof.
  revert f g. induction l as [|x l IH]; intros f g; [reflexivity |].
  cbn [imap]. f_equal. apply IH.
Qed.

Lemma renderCell_cellOf (k : nat) (h : bool) (text : jsstring) :
  renderCell ((k =? 0)%nat && h) (cellOf k text) = cellNode k text.
Proof. unfold renderCell, cellOf, cellNode. destruct k; reflexivity. Qed.

Lemma renderSlide_pages cfg slides st :
  let st' := fold_left (renderSlide cfg) slides st in
  Doc.pageCount (State.doc st')
  = (Doc.pageCount (State.doc st) + length slides)%nat
  /\ State.bookmarks st'
     = State.bookmarks st
       ++ concat (imap (fun k slide =>
                          slideBookmark (Doc.pageCount (State.doc st) + k) slide)
                    slides)
  /\ Doc.Subject (State.doc st') = Doc.Subject (State.doc st)
  /\ Doc.Marked (State.doc st') = Doc.Marked (State.doc st)
  /\ Doc.DisplayDocTitle (State.doc st') = Doc.DisplayDocTitle (State.doc st).
Proof.
  revert st. induction slides as [|s slides IH]; intros st.
  - simpl. rewrite app_nil_r. repeat split; lia.
  - cbn [fold_left].
    destruct (IH (renderSlide cfg st s)) as (H1 & H2 & H3 & H4 & H5).
    cbv zeta. rewrite H1, H2, H3, H4, H5.
    cbn [renderSlide State.doc State.bookmarks addPage Doc.pageCount
         Doc.Subject Doc.Marked Doc.DisplayDocTitle length imap concat].
    split; [lia |]. split; [| auto].
    rewrite <- app_assoc. f_equal. f_equal.
    + unfold slideBookmark. rewrite Nat.add_0_r.
      destruct (List.find _ (getOrderedElements s)) as [t|]; [| reflexivity].
      destruct (Content.text (SlideElement.content t)) as [txt|]; [| reflexivity].
      destruct (truthy txt); [| reflexivity].
      do 2 f_equal. lia.
    + f_equal. apply imap_ext. intros k x _. cbn. f_equal. lia.
Qed.

Lemma slideBookmark_page (k : nat) (slide : Slide.t) (b : Bookmark.t) :
  In b (slideBookmark k slide) ->
  Bookmark.pageIndex b = Z.of_nat k /\ Bookmark.title b <> [].
Proof.
  unfold slideBookmark.
  destruct (List.find _ _) as [t|]; [| intros []].
  destruct (Content.text (SlideElement.content t)) as [txt|]; [| intros []].
  destruct txt as [|c txt]; [intros [] |].
  intros [<-|[]]. split; [reflexivity | discriminate].
Qed.

Lemma bookmarks_from (slides : list Slide.t) (k0 : nat) (i j : nat)
  (b b' : Bookmark.t) :
  let l := concat (imap (fun k slide => slideBookmark (k0 + k) slide) slides) in
  l !! i = Some b -> l !! j = Some b' -> (i < j)%nat ->
  Bookmark.pageIndex b < Bookmark.pageIndex b'
  /\ Z.of_nat k0 <= Bookmark.pageIndex b
  /\ Bookmark.pageIndex b' < Z.of_nat (k0 + length slides).
Proof.
  cbv zeta. revert k0 i j.
  induction slides as [|s slides IH]; intros k0 i j; [intros H; discriminate H |].
  cbn [imap concat]. rewrite Nat.add_0_r.
  assert (Hrest : forall n c,
            concat (imap (fun k slide => slideBookmark (k0 + S k) slide) slides)
              !! n = Some c ->
            Z.of_nat (S k0) <= Bookmark.pageIndex c
            < Z.of_nat (k0 + length (s :: slides))).
  { clear IH. intros n c Hc.
    apply list_elem_of_lookup_2 in Hc. apply list_elem_of_In in Hc.
    apply in_concat in Hc as (l & Hl & Hc).
    apply list_elem_of_In in Hl.
    apply list_elem_of_lookup_1 in Hl as (m & Hl).
    rewrite list_lookup_imap in Hl.
    destruct (slides !! m) as [sl|] eqn:E; [| discriminate Hl].
    injection Hl as <-. apply slideBookmark_page in Hc as [Hc _].
    apply lookup_lt_Some in E. rewrite Hc. simpl length. lia. }
  assert (Hlen : (length (slideBookmark k0 s) <= 1)%nat).
  { unfold slideBookmark.
    destruct (List.find _ _) as [t|]; [| simpl; lia].
    destruct (Content.text (SlideElement.content t)) as [txt|]; [| simpl; lia].
    destruct (truthy txt); simpl; lia. }
  intros Hi Hj Hij.
  destruct (slideBookmark k0 s) as [|b0 [|b1 r]] eqn:E; [| | simpl in Hlen; lia].
  - cbn [app] in Hi, Hj.
    assert (Heq : forall n,
              concat (imap (fun k slide => slideBookmark (k0 + S k) slide) slides)
                !! n
              = concat (imap (fun k slide => slideBookmark (S k0 + k) slide)
                          slides) !! n).
    { intros n. f_equal. f_equal. apply imap_ext. intros k x _. cbn.
      f_equal. lia. }
    rewrite Heq in Hi, Hj.
    destruct (IH (S k0) i j Hi Hj Hij) as (H1 & H2 & H3).
    split; [exact H1 |]. split; [lia |]. simpl length. lia.
  - cbn [app] in Hi, Hj.
    assert (Hb0 : Bookmark.pageIndex b0 = Z.of_nat k0).
    { apply (slideBookmark_page k0 s). rewrite E. left. reflexivity. }
    destruct j as [|j]; [lia |]. cbn [lookup list_lookup] in Hj.
    simpl in Hj. pose proof (Hrest j b' Hj) as Hb'.
    destruct i as [|i].
    + simpl in Hi. injection Hi as <-. rewrite Hb0. lia.
    + simpl in Hi. pose proof (Hrest i b Hi) as Hb.
      assert (Heq : forall n,
                concat (imap (fun k slide => slideBookmark (k0 + S k) slide)
                          slides) !! n
                = concat (imap (fun k slide => slideBookmark (S k0 + k) slide)
                            slides) !! n).
      { intros n. f_equal. f_equal. apply imap_ext. intros k x _. cbn.
        f_equal. lia. }
      rewrite Heq in Hi, Hj.
      destruct (IH (S k0) i j Hi Hj ltac:(lia)) as (H1 & H2 & H3).
      split; [exact H1 |]. split; [lia |]. simpl length. lia.
Qed.

End Tags.

(** X13: how a parsed table is tagged. The structure element of a table
    that comes from [parseTable] is a [Table] with one [TR] per row of the
    source table, in order; every cell of the first row is a [TH] with
    column scope, every cell of another row is a [TD] without scope, and
    each cell carries the text of its source cell. No cell outside the
    first row is ever a header. *)
Theorem parsed_table_rendering
  (cfg : Generator.Config.t) (rows : list (list jsstring)) (id : jsstring)
  (position : Position.t) (n : Z) :
  Generator.renderElement cfg (Parser.parseTable rows id position n)
  = Generator.StructElem Role.Table
      (imap (fun k texts =>
               Generator.StructElem Role.TR (List.map (cellNode k) texts)
                 None None None None)
         rows)
      None None None (Some (Generator.Config.language cfg)).
Proof.
  destruct (parseTable_data rows id position n)
    as (td & Htd & Hcells & _).
  unfold Generator.renderElement, Generator.renderTable.
  rewrite Htd.
  change (SlideElement.type (Parser.parseTable rows id position n)) with table.
  cbv iota. rewrite Hcells, imap_imap. f_equal.
  apply imap_ext. intros k texts _. cbn beta. f_equal.
  rewrite List.map_map. apply map_ext. intros text.
  apply renderCell_cellOf.
Qed.



(** X15: a figure always has an alternative text. A structure element that
    the generator tags [Figure] carries an alternative text that is not
    empty: the text of the element, or a placeholder for a picture or a
    chart that has none; SmartArt without alternative text is tagged [L]
    instead. Every structure element of an element carries the language of
    the generator. *)
Theorem figure_has_alt_text
  (cfg : Generator.Config.t) (element : SlideElement.t) :
  Generator.role (Generator.renderElement cfg element) = Role.Figure ->
  (exists t, altTextOf (Generator.renderElement cfg element) = Some t
             /\ t <> [])
  /\ (SlideElement.type element = image \/ SlideElement.type element = chart
      \/ SlideElement.type element = smartart)
  /\ (truthy_opt (Content.altText (SlideElement.content element)) = true ->
      altTextOf (Generator.renderElement cfg element)
      = Content.altText (SlideElement.content element)).
Proof.
  unfold Generator.renderElement.
  destruct (SlideElement.type element) eqn:T; try discriminate; intros Hrole.
  - (* table *)
    unfold Generator.renderTable in Hrole.
    destruct (SlideElement.tableData element); discriminate Hrole.
  - (* image *)
    unfold Generator.renderImage, altTextOf. split; [| split; [auto |]].
    + eexists. split; [reflexivity |].
      destruct (Content.altText (SlideElement.content element)) as [[|c t]|];
        simpl; discriminate.
    + destruct (Content.altText (SlideElement.content element)) as [[|c t]|];
        simpl; [discriminate | reflexivity | discriminate].
  - (* chart *)
    unfold Generator.renderChart, altTextOf. split; [| split; [auto |]].
    + eexists. split; [reflexivity |].
      destruct (Content.altText (SlideElement.content element)) as [[|c t]|];
        destruct (Content.longDescription (SlideElement.content element))
          as [[|c' t']|];
        simpl; discriminate.
    + destruct (Content.altText (SlideElement.content element)) as [[|c t]|];
        simpl; [discriminate | reflexivity | discriminate].
  - (* smartart *)
    unfold Generator.renderSmartArt, altTextOf in *. simpl in Hrole.
    destruct (Content.altText (SlideElement.content element)) as [[|c t]|];
      simpl in *; try discriminate.
    split; [| split; [auto | reflexivity]].
    eexists. split; [reflexivity | discriminate].
Qed.

(** X15 on a sample: a picture without alternative text. *)
Lemma figure_has_alt_text_witness :
  exists t,
    altTextOf
      (Generator.renderElement (Generator.constructor Sample.noOptions)
         (Sample.element (js "4") image 40 100 400 300 None))
    = Some t
    /\ t <> [].
Proof.
  apply (figure_has_alt_text (Generator.constructor Sample.noOptions)
           (Sample.element (js "4") image 40 100 400 300 None)).
  reflexivity.
Defined.

(** X16: pages, bookmarks and marks of the generated document. The
    document has one page per slide; it is marked as tagged and set to
    display its title; its subject is the subject of the model, if any,
    followed by the PDF/UA identifier. There is at most one bookmark per
    slide, for the first title element in rendering order when its text is
    not empty; the bookmarks point to existing pages, in increasing order of
    the page index, and none has an empty title. *)
Theorem generated_document_layout
  (options : Generator.Options.t) (p : Presentation.t) (w : World.t) :
  let st := fst (Generator.generate options p w) in
  let doc := Generator.State.doc st in
  let bookmarks := Generator.State.bookmarks st in
  let subject := Metadata.subject (Presentation.metadata p) in
  Generator.Doc.pageCount doc = length (Presentation.slides p)
  /\ Generator.Doc.Marked doc = true
  /\ Generator.Doc.DisplayDocTitle doc = true
  /\ Generator.Doc.Subject doc
     = Some (match subject with
             | Some s =>
                 if truthy s then s ++ js " | " ++ js "PDF/UA-1 (ISO 14289-1)"
                 else js "PDF/UA-1 (ISO 14289-1)"
             | None => js "PDF/UA-1 (ISO 14289-1)"
             end)
  /\ bookmarks = concat (imap slideBookmark (Presentation.slides p))
  /\ (forall b, In b bookmarks ->
        0 <= Generator.Bookmark.pageIndex b
           < Z.of_nat (Generator.Doc.pageCount doc)
        /\ Generator.Bookmark.title b <> [])
  /\ (forall i j b b',
        bookmarks !! i = Some b -> bookmarks !! j = Some b' -> (i < j)%nat ->
        Generator.Bookmark.pageIndex b < Generator.Bookmark.pageIndex b').
Proof.
  intros st doc bookmarks subject.
  assert (H : Generator.Doc.pageCount doc = length (Presentation.slides p)
              /\ bookmarks = concat (imap slideBookmark (Presentation.slides p))
              /\ Generator.Doc.Subject doc
                 = Some (match subject with
                         | Some s =>
                             if truthy s
                             then s ++ js " | " ++ js "PDF/UA-1 (ISO 14289-1)"
                             else js "PDF/UA-1 (ISO 14289-1)"
                         | None => js "PDF/UA-1 (ISO 14289-1)"
                         end)
              /\ Generator.Doc.Marked doc = true
              /\ Generator.Doc.DisplayDocTitle doc = true).
  { subst doc bookmarks st subject. unfold Generator.generate.
    set (cfg := Generator.constructor options).
    destruct (Generator.setMetadata cfg p Generator.emptyDoc w) as [d w'] eqn:E.
    cbn [fst Generator.State.doc Generator.State.bookmarks].
    destruct (renderSlide_pages cfg (Presentation.slides p)
                (Generator.State.mk d [] [] [])) as (H1 & H2 & H3 & _).
    cbn [Generator.State.doc Generator.State.bookmarks app] in H1, H2, H3.
    unfold Generator.setMetadata in E. cbn [newDate] in E.
    injection E as <- _.
    cbn [Generator.Doc.pageCount Generator.Doc.Subject Generator.emptyDoc
         Nat.add] in H1, H2, H3.
    unfold Generator.setPdfUaIdentifier, Generator.addStructureTree.
    cbn [Generator.Doc.pageCount Generator.Doc.Subject Generator.Doc.Marked
         Generator.Doc.DisplayDocTitle].
    rewrite H1, H2, H3. split; [reflexivity |]. split; [reflexivity |].
    split; [| split; reflexivity].
    destruct (Metadata.subject (Presentation.metadata p)) as [[|c s]|];
      cbn [truthy_opt truthy opt_or_else or_else app]; reflexivity. }
  destruct H as (Hpages & Hbm & Hsubj & Hmarked & Hshow).
  split; [exact Hpages |]. split; [exact Hmarked |]. split; [exact Hshow |].
  split; [exact Hsubj |]. split; [exact Hbm |].
  rewrite Hbm, Hpages. split.
  - intros b Hb. apply in_concat in Hb as (l & Hl & Hb).
    apply list_elem_of_In in Hl.
    apply list_elem_of_lookup_1 in Hl as (m & Hl).
    rewrite list_lookup_imap in Hl.
    destruct (Presentation.slides p !! m) as [sl|] eqn:E; [| discriminate Hl].
    injection Hl as <-. apply slideBookmark_page in Hb as [Hb Hne].
    apply lookup_lt_Some in E. split; [lia | exact Hne].
  - intros i j b b' Hi Hj Hij.
    apply (bookmarks_from (Presentation.slides p) 0 i j b b' Hi Hj Hij).
Qed.

(** X16 on a sample: of three slides the first and the third have a title;
    their bookmarks point to the pages 0 and 2. *)
Lemma generated_document_layout_witness :
  let st := fst (Generator.generate Sample.noOptions Sample.threeSlides
                   (Sample.world 0 1)) in
  List.map Generator.Bookmark.pageIndex (Generator.State.bookmarks st) = [ 0; 2 ]
  /\ forall b, In b (Generator.State.bookmarks st) ->
       0 <= Generator.Bookmark.pageIndex b < 3.
Proof.
  intros st. split; [vm_compute; reflexivity |].
  pose proof (generated_document_layout Sample.noOptions Sample.threeSlides
                (Sample.world 0 1)) as H.
  cbv zeta in H. destruct H as (Hp & _ & _ & _ & _ & Hb & _).
  intros b Hin. destruct (Hb b Hin) as [Hrange _].
  rewrite Hp in Hrange. exact Hrange.
Defined.

(* ===================================================================== *)
(** ** Text drawn on the pages: character table and line breaks           *)
(* ===================================================================== *)

Section Sanitize.

Import Generator.

Lemma replaceFrom_units (sep rep : jsstring) (k : nat) (s : jsstring) (c : N) :
  In c (replaceFrom sep rep k s) -> In c rep \/ In c s.
Proof.
  revert k. induction s as [|d r IH]; intros k; simpl; [tauto |].
  destruct k as [|k].
  - destruct (isPrefixOf sep (d :: r)).
    + rewrite in_app_iff. intros [H|H]; [auto |].
      destruct (IH _ H); auto.
    + intros [H|H]; [auto |]. destruct (IH _ H); auto.
  - intros H. destruct (IH _ H); auto.
Qed.

(** A text without the first code unit of the separator is left as it
    is. *)
Lemma replaceFrom_identity (a : N) (sep rep s : jsstring) :
  ~ In a s -> replaceFrom (a :: sep) rep 0 s = s.
Proof.
  induction s as [|d r IH]; intros Hn; [reflexivity |].
  cbn [replaceFrom isPrefixOf].
  destruct (N.eqb_spec a d) as [->|Hne]; [exfalso; apply Hn; left; reflexivity |].
  cbn [andb]. f_equal. apply IH. intros H. apply Hn. right. exact H.
Qed.

(** A separator of one code unit that the replacement does not contain is
    gone after the replacement. *)
Lemma replaceFrom_removes (a : N) (rep : jsstring) (k : nat) (s : jsstring) :
  ~ In a rep -> ~ In a (replaceFrom [a] rep k s).
Proof.
  intros Hrep. revert k. induction s as [|d r IH]; intros k; [intros [] |].
  cbn [replaceFrom isPrefixOf]. destruct k as [|k]; [| apply IH].
  destruct (N.eqb_spec a d) as [->|Hne]; cbn [andb length Nat.sub].
  - rewrite in_app_iff. intros [H|H]; [exact (Hrep H) | exact (IH _ H)].
  - intros [H|H]; [congruence | exact (IH _ H)].
Qed.

Lemma table_keys_not_kept :
  List.forallb
    (fun entry => match fst entry with a :: _ => negb (kept a) | [] => false end)
    UNICODE_REPLACEMENTS = true.
Proof. vm_compute. reflexivity. Qed.

Lemma replacements_identity (table : list (jsstring * jsstring))
  (s : jsstring) :
  List.forallb
    (fun entry => match fst entry with a :: _ => negb (kept a) | [] => false end)
    table = true ->
  List.forallb kept s = true ->
  fold_left (fun result entry => splitJoin (fst entry) (snd entry) result)
    table s = s.
Proof.
  induction table as [|[k r] table IH]; intros Ht Hs; [reflexivity |].
  cbn [fold_left fst snd]. cbn [List.forallb fst] in Ht.
  apply andb_true_iff in Ht as [Hk Ht].
  destruct k as [|a k]; [discriminate Hk |].
  unfold splitJoin at 2. rewrite replaceFrom_identity; [apply IH; assumption |].
  intros Hin. rewrite forallb_forall in Hs. rewrite (Hs a Hin) in Hk.
  discriminate Hk.
Qed.

Lemma replacements_last_two (s : jsstring) :
  fold_left (fun result entry => splitJoin (fst entry) (snd entry) result)
    UNICODE_REPLACEMENTS s
  = splitJoin [187%N] (js ">>")
      (splitJoin [171%N] (js "<<")
         (fold_left
            (fun result entry => splitJoin (fst entry) (snd entry) result)
            (take 24 UNICODE_REPLACEMENTS) s)).
Proof.
  change UNICODE_REPLACEMENTS
    with (take 24 UNICODE_REPLACEMENTS
          ++ [ ([171%N], js "<<"); ([187%N], js ">>") ]) at 1.
  rewrite fold_left_app. reflexivity.
Qed.

Lemma sanitize_kept (text : jsstring) :
  List.forallb kept (sanitizeForWinAnsi text) = true.
Proof.
  unfold sanitizeForWinAnsi. destruct (negb (truthy text)); [reflexivity |].
  rewrite replacements_last_two.
  set (s24 := fold_left _ (take 24 UNICODE_REPLACEMENTS) text).
  apply forallb_forall. intros c Hc. apply filter_In in Hc as [Hc Hle].
  unfold kept. rewrite Hle. cbn [andb].
  assert (H171 : c <> 171%N).
  { intros ->. unfold splitJoin in Hc.
    apply replaceFrom_units in Hc as [Hc|Hc].
    - vm_compute in Hc. destruct Hc as [Hc|[Hc|[]]]; discriminate Hc.
    - revert Hc. apply replaceFrom_removes. vm_compute.
      intros [Hc|[Hc|[]]]; discriminate Hc. }
  assert (H187 : c <> 187%N).
  { intros ->. revert Hc. unfold splitJoin at 1. apply replaceFrom_removes.
    vm_compute. intros [Hc|[Hc|[]]]; discriminate Hc. }
  apply N.eqb_neq in H171, H187. rewrite H171, H187. reflexivity.
Qed.

Lemma sanitize_identity (text : jsstring) :
  List.forallb kept text = true -> sanitizeForWinAnsi text = text.
Proof.
  intros Hk. unfold sanitizeForWinAnsi.
  destruct text as [|c text]; [reflexivity |]. cbn [truthy negb].
  rewrite (replacements_identity _ _ table_keys_not_kept Hk).
  apply forallb_filter_id. (* every unit is at most 255 *)
  apply forallb_forall. intros d Hd.
  rewrite forallb_forall in Hk. specialize (Hk d Hd).
  unfold kept in Hk. apply andb_true_iff in Hk as [Hk _].
  apply andb_true_iff in Hk as [Hk _]. exact Hk.
Qed.

End Sanitize.

Section Wrapping.

Import Generator.

Lemma splitWhitespace_words (s w : jsstring) :
  In w (splitWhitespace s) ->
  List.forallb (fun c => negb (isWhiteSpace c)) w = true.
Proof.
  revert w. induction s as [|c r IH]; intros w.
  - intros [<-|[]]. reflexivity.
  - cbn [splitWhitespace].
    destruct (isWhiteSpace c) eqn:Ec.
    + destruct r as [|c' r'].
      * intros [<-|H]; [reflexivity | apply IH, H].
      * destruct (isWhiteSpace c'); [apply IH |].
        intros [<-|H]; [reflexivity | apply IH, H].
    + destruct (splitWhitespace r) as [|piece pieces] eqn:E.
      * intros [<-|[]]. simpl. rewrite Ec. reflexivity.
      * intros [<-|H].
        -- simpl. rewrite Ec. apply IH. left. reflexivity.
        -- apply IH. right. exact H.
Qed.

Lemma splitWhitespace_payload (s : jsstring) :
  List.filter (fun c => negb (isWhiteSpace c)) (concat (splitWhitespace s))
  = List.filter (fun c => negb (isWhiteSpace c)) s.
Proof.
  induction s as [|c r IH]; [reflexivity |].
  cbn [splitWhitespace List.filter].
  destruct (isWhiteSpace c) eqn:Ec; cbn [negb].
  - destruct r as [|c' r']; [exact IH |].
    destruct (isWhiteSpace c'); exact IH.
  - pose proof (splitWhitespace_nonempty r) as Hne.
    destruct (splitWhitespace r) as [|piece pieces]; [congruence |].
    cbn [concat app List.filter] in *. rewrite Ec. cbn [negb].
    f_equal. exact IH.
Qed.

Lemma wrapWord_inv tooWide st word :
  List.forallb (fun c => negb (isWhiteSpace c)) word = true ->
  wrapInv tooWide st -> wrapInv tooWide (wrapWord tooWide st word).
Proof.
  intros Hw [Hlines Hcur]. unfold wrapWord.
  destruct (snd st) as [|c cur] eqn:Ecur.
  - cbn [truthy]. rewrite andb_false_r. split; [exact Hlines |].
    intros _. exact Hw.
  - cbn [truthy]. rewrite andb_true_r.
    destruct (tooWide ((c :: cur) ++ js " " ++ word)) eqn:Et.
    + split; [| intros _; exact Hw].
      cbn [fst]. intros line Hin. apply in_app_iff in Hin as [Hin|[<-|[]]].
      * apply Hlines, Hin.
      * split; [discriminate | exact Hcur].
    + split; [exact Hlines |]. cbn [snd]. rewrite Et. discriminate.
Qed.

Lemma wrapWord_payload tooWide st word :
  payload (wrapWord tooWide st word)
  = payload st ++ List.filter (fun c => negb (isWhiteSpace c)) word.
Proof.
  unfold wrapWord, payload.
  destruct (snd st) as [|c cur] eqn:Ecur.
  - cbn [truthy]. rewrite andb_false_r. cbn [fst snd].
    rewrite app_nil_r, List.filter_app. reflexivity.
  - cbn [truthy]. rewrite andb_true_r.
    destruct (tooWide _); cbn [fst snd].
    + rewrite concat_app. cbn [concat]. rewrite app_nil_r.
      rewrite !List.filter_app. reflexivity.
    + rewrite !List.filter_app. rewrite <- app_assoc. reflexivity.
Qed.

Lemma wrap_fold tooWide (words : list jsstring) st :
  (forall w, In w words ->
     List.forallb (fun c => negb (isWhiteSpace c)) w = true) ->
  wrapInv tooWide st ->
  wrapInv tooWide (fold_left (wrapWord tooWide) words st)
  /\ payload (fold_left (wrapWord tooWide) words st)
     = payload st
       ++ List.filter (fun c => negb (isWhiteSpace c)) (concat words).
Proof.
  revert st. induction words as [|w words IH]; intros st Hw Hinv.
  - simpl. rewrite app_nil_r. auto.
  - cbn [fold_left concat].
    destruct (IH (wrapWord tooWide st w)) as [H1 H2].
    + intros v Hv. apply Hw. right. exact Hv.
    + apply wrapWord_inv; [apply Hw; left; reflexivity | exact Hinv].
    + split; [exact H1 |].
      rewrite H2, wrapWord_payload, List.filter_app, app_assoc. reflexivity.
Qed.

End Wrapping.

(** X17: the character table leaves Latin-1 text and nothing else. Every
    code unit of a sanitized text is at most 0xFF and none is a guillemet;
    a text of code units up to 0xFF without guillemets is returned
    unchanged; sanitizing twice is sanitizing once. *)
Theorem sanitizeForWinAnsi_range (text : jsstring) :
  let latin1 (c : N) := (c <=? 255)%N in
  let guillemet (c : N) := (c =? 171)%N || (c =? 187)%N in
  List.forallb latin1 (Generator.sanitizeForWinAnsi text) = true
  /\ List.existsb guillemet (Generator.sanitizeForWinAnsi text) = false
  /\ (List.forallb latin1 text = true -> List.existsb guillemet text = false ->
      Generator.sanitizeForWinAnsi text = text)
  /\ Generator.sanitizeForWinAnsi (Generator.sanitizeForWinAnsi text)
     = Generator.sanitizeForWinAnsi text.
Proof.
  intros latin1 guillemet.
  assert (Hkept : forall s,
            List.forallb kept s = true
            <-> List.forallb latin1 s = true /\ List.existsb guillemet s = false).
  { intros s. induction s as [|c s IH]; [simpl; tauto |].
    cbn [List.forallb List.existsb].
    rewrite !andb_true_iff, orb_false_iff, IH.
    unfold kept, latin1, guillemet.
    destruct (c <=? 255)%N, (c =? 171)%N, (c =? 187)%N; simpl; intuition congruence. }
  pose proof (sanitize_kept text) as Hk.
  destruct (proj1 (Hkept _) Hk) as [H1 H2].
  split; [exact H1 |]. split; [exact H2 |]. split.
  - intros Hl Hg. apply sanitize_identity, Hkept. auto.
  - apply sanitize_identity, Hk.
Qed.

(** X17 on a sample: a text with an umlaut, a sharp s and a percent sign is
    left as it is. *)
Lemma sanitizeForWinAnsi_range_witness :
  Generator.sanitizeForWinAnsi (js "Größe: 100 % (Schätzung)")
  = js "Größe: 100 % (Schätzung)".
Proof.
  pose proof (sanitizeForWinAnsi_range (js "Größe: 100 % (Schätzung)")) as H.
  cbv zeta in H. destruct H as (_ & _ & H & _).
  apply H; vm_compute; reflexivity.
Defined.

(** X18: what the line breaker guarantees, whatever the font. The result
    is never empty; it is the single empty line or has no empty line; a
    line that is too wide is a single word, which cannot be broken; and the
    lines hold the characters of the sanitized text that are not white
    space, all of them and in their order. *)
Theorem wrapText_lines (tooWide : jsstring -> bool) (text : jsstring) :
  let lines := Generator.wrapText tooWide text in
  let solid (s : jsstring) :=
    List.forallb (fun c => negb (isWhiteSpace c)) s in
  lines <> []
  /\ (lines = [ [] ] \/ forall line, In line lines -> line <> [])
  /\ (forall line, In line lines -> tooWide line = true -> solid line = true)
  /\ List.filter (fun c => negb (isWhiteSpace c)) (concat lines)
     = List.filter (fun c => negb (isWhiteSpace c))
         (Generator.sanitizeForWinAnsi text).
Proof.
  intros lines solid. subst lines solid. unfold Generator.wrapText.
  destruct (wrap_fold tooWide
              (splitWhitespace (Generator.sanitizeForWinAnsi text)) ([], []))
    as [[Hlines Hcur] Hpay].
  { intros w Hw. apply (splitWhitespace_words _ _ Hw). }
  { split; [intros line [] | intros _; reflexivity]. }
  unfold payload in Hpay. cbn [fst snd concat app List.filter] in Hpay.
  rewrite splitWhitespace_payload in Hpay.
  destruct (fold_left (Generator.wrapWord tooWide) _ ([], []))
    as [ls cur].
  cbn [fst snd] in *.
  assert (Hall : forall line,
            In line (if truthy cur then ls ++ [cur] else ls) ->
            line <> []
            /\ (tooWide line = true ->
                List.forallb (fun c => negb (isWhiteSpace c)) line = true)).
  { intros line Hin. destruct cur as [|c cur]; cbn [truthy] in Hin.
    - apply Hlines, Hin.
    - apply in_app_iff in Hin as [Hin|[<-|[]]]; [apply Hlines, Hin |].
      split; [discriminate | exact Hcur]. }
  assert (Hcat : concat (if truthy cur then ls ++ [cur] else ls)
                 = concat ls ++ cur).
  { destruct cur as [|c cur]; cbn [truthy].
    - rewrite app_nil_r. reflexivity.
    - rewrite concat_app. cbn [concat]. rewrite app_nil_r. reflexivity. }
  destruct (if truthy cur then ls ++ [cur] else ls) as [|l0 rest] eqn:E.
  - split; [discriminate |]. split; [left; reflexivity |].
    split; [intros line [<-|[]] _; reflexivity |].
    rewrite <- Hpay, <- Hcat. reflexivity.
  - split; [discriminate |]. split; [right; intros line Hin; apply Hall, Hin |].
    split; [intros line Hin; apply Hall, Hin |].
    rewrite <- Hpay, <- Hcat. reflexivity.
Qed.

(** X18 on a sample: lines of at most ten characters. *)
Lemma wrapText_lines_witness :
  let tooWide (line : jsstring) := (10 <? length line)%nat in
  Generator.wrapText tooWide (js "eins zwei drei Haushaltsplan")
  = [ js "eins zwei"; js "drei"; js "Haushaltsplan" ]
  /\ List.forallb (fun c => negb (isWhiteSpace c)) (js "Haushaltsplan") = true.
Proof.
  intros tooWide. split; [vm_compute; reflexivity |].
  pose proof (wrapText_lines tooWide (js "eins zwei drei Haushaltsplan")) as H.
  cbv zeta in H. destruct H as (_ & _ & H & _).
  apply H; vm_compute; [right; right; left; reflexivity | reflexivity].
Defined.

(* ===================================================================== *)
(** ** The statistics of a parsed presentation                             *)
(* ===================================================================== *)

Section Statistics.

Lemma countIf_cons f e l :
  countIf f (e :: l) = (if f e then 1 else 0) + countIf f l.
Proof. unfold countIf. simpl. destruct (f e); simpl length; lia. Qed.

Lemma countIf_app f l l' : countIf f (l ++ l') = countIf f l + countIf f l'.
Proof. unfold countIf. rewrite List.filter_app, length_app. lia. Qed.

Lemma countIf_bounds f l : 0 <= countIf f l <= Z.of_nat (length l).
Proof. unfold countIf. pose proof (filter_length_le f l). lia. Qed.

Lemma countElement_fold (elements : list SlideElement.t) (st : Stats.t) :
  let st' := fold_left Parser.countElement elements st in
  let described e :=
    bool_decide (Content.altTextStatus (SlideElement.content e) = present) in
  Stats.totalElements st'
  = Stats.totalElements st + Z.of_nat (length elements)
  /\ Stats.imagesWithAltText st'
     = Stats.imagesWithAltText st
       + countIf (fun e => pictured e && negb (SlideElement.isDecorative e)
                           && described e) elements
  /\ Stats.imagesWithoutAltText st'
     = Stats.imagesWithoutAltText st
       + countIf (fun e => pictured e && negb (SlideElement.isDecorative e)
                           && negb (described e)) elements
  /\ Stats.decorativeImages st'
     = Stats.decorativeImages st
       + countIf (fun e => pictured e && SlideElement.isDecorative e) elements
  /\ Stats.tables st'
     = Stats.tables st
       + countIf (fun e => bool_decide (SlideElement.type e = table)) elements
  /\ Stats.lists st'
     = Stats.lists st
       + countIf (fun e => bool_decide (SlideElement.type e = list_)) elements
  /\ Stats.links st'
     = Stats.links st
       + countIf (fun e => truthy_opt (SlideElement.hyperlink e)) elements.
Proof.
  cbv zeta. revert st. induction elements as [|e l IH]; intros st.
  - unfold countIf. simpl. repeat split; lia.
  - cbn [fold_left]. destruct (IH (Parser.countElement st e))
      as (H1 & H2 & H3 & H4 & H5 & H6 & H7).
    rewrite H1, H2, H3, H4, H5, H6, H7, !countIf_cons.
    unfold Parser.countElement.
    cbn [Stats.totalElements Stats.imagesWithAltText Stats.imagesWithoutAltText
         Stats.decorativeImages Stats.tables Stats.lists Stats.links].
    unfold pictured. change (length (e :: l)) with (S (length l)).
    cbv zeta beta.
    destruct (bool_decide (SlideElement.type e = image)),
      (bool_decide (SlideElement.type e = chart)),
      (bool_decide (SlideElement.type e = table)),
      (bool_decide (SlideElement.type e = list_)),
      (SlideElement.isDecorative e),
      (bool_decide (Content.altTextStatus (SlideElement.content e) = present)),
      (truthy_opt (SlideElement.hyperlink e));
      cbn [orb andb negb]; repeat split; lia.
Qed.

Lemma calculateStats_fold (slides : list Slide.t) (st : Stats.t) :
  fold_left
    (fun stats slide =>
       fold_left Parser.countElement (Slide.elements slide) stats)
    slides st
  = fold_left Parser.countElement (flat_map Slide.elements slides) st.
Proof.
  revert st. induction slides as [|s slides IH]; intros st; [reflexivity |].
  cbn [fold_left flat_map]. rewrite fold_left_app. apply IH.
Qed.

End Statistics.

(** X19: the statistics count every element once. [totalElements] is the
    number of elements on all slides; every image or chart is counted in
    exactly one of [decorativeImages], [imagesWithAltText] and
    [imagesWithoutAltText], so the three add up to the number of images
    and charts; tables, lists and links are the numbers of such elements;
    no counter exceeds [totalElements]. Background elements are not
    counted. *)
Theorem stats_count_every_element (slides : list Slide.t) :
  let s := Parser.calculateStats slides in
  let elements := flat_map Slide.elements slides in
  Stats.totalElements s = Z.of_nat (length elements)
  /\ Stats.imagesWithAltText s + Stats.imagesWithoutAltText s
     + Stats.decorativeImages s
     = countIf pictured elements
  /\ Stats.decorativeImages s
     = countIf (fun e => pictured e && SlideElement.isDecorative e) elements
  /\ Stats.imagesWithAltText s
     = countIf
         (fun e =>
            pictured e && negb (SlideElement.isDecorative e)
            && bool_decide
                 (Content.altTextStatus (SlideElement.content e) = present))
         elements
  /\ Stats.tables s
     = countIf (fun e => bool_decide (SlideElement.type e = table)) elements
  /\ Stats.lists s
     = countIf (fun e => bool_decide (SlideElement.type e = list_)) elements
  /\ Stats.links s
     = countIf (fun e => truthy_opt (SlideElement.hyperlink e)) elements
  /\ 0 <= Stats.imagesWithoutAltText s
  /\ Stats.tables s + Stats.lists s + countIf pictured elements
     <= Stats.totalElements s.
Proof.
  intros s elements. subst s. unfold Parser.calculateStats.
  rewrite calculateStats_fold. fold elements.
  destruct (countElement_fold elements (Stats.mk 0 0 0 0 0 0 0))
    as (H1 & H2 & H3 & H4 & H5 & H6 & H7).
  cbn [Stats.totalElements Stats.imagesWithAltText Stats.imagesWithoutAltText
       Stats.decorativeImages Stats.tables Stats.lists Stats.links] in *.
  rewrite H1, H2, H3, H4, H5, H6, H7. clear.
  assert (Hsplit : forall l,
    countIf (fun e => pictured e && negb (SlideElement.isDecorative e)
               && bool_decide
                    (Content.altTextStatus (SlideElement.content e) = present)) l
    + countIf (fun e => pictured e && negb (SlideElement.isDecorative e)
                 && negb (bool_decide
                            (Content.altTextStatus (SlideElement.content e)
                             = present))) l
    + countIf (fun e => pictured e && SlideElement.isDecorative e) l
    = countIf pictured l).
  { induction l as [|e l IH]; [reflexivity |]. rewrite !countIf_cons.
    destruct (pictured e), (SlideElement.isDecorative e), (bool_decide _);
      simpl; lia. }
  assert (Hdisj : forall l,
    countIf (fun e => bool_decide (SlideElement.type e = table)) l
    + countIf (fun e => bool_decide (SlideElement.type e = list_)) l
    + countIf pictured l <= Z.of_nat (length l)).
  { induction l as [|e l IH]; [unfold countIf; simpl; lia |].
    rewrite !countIf_cons. change (length (e :: l)) with (S (length l)).
    assert (Hp : pictured e
                 = bool_decide (SlideElement.type e = image)
                   || bool_decide (SlideElement.type e = chart))
      by reflexivity.
    rewrite Hp. destruct (SlideElement.type e); simpl; lia. }
  pose proof (Hsplit elements). pose proof (Hdisj elements).
  pose proof (countIf_bounds
                (fun e => pictured e && negb (SlideElement.isDecorative e)
                   && negb (bool_decide
                              (Content.altTextStatus (SlideElement.content e)
                               = present))) elements).
  repeat split; lia.
Qed.

(* ===================================================================== *)
(** ** The elements of a parsed slide                                      *)
(* ===================================================================== *)

Section ParsedSlide.

Lemma place_fold (xs : list (option SlideElement.t))
  (st : list SlideElement.t * list SlideElement.t) :
  fold_left Parser.place xs st
  = (fst st
     ++ List.filter (fun e => negb (SlideElement.isDecorative e)) (omap id xs),
     snd st ++ List.filter SlideElement.isDecorative (omap id xs)).
Proof.
  revert st. induction xs as [|x xs IH]; intros [els bg].
  - simpl. rewrite !app_nil_r. reflexivity.
  - cbn [fold_left]. rewrite IH. destruct x as [e|]; [| reflexivity].
    change (omap id (Some e :: xs)) with (e :: omap id xs).
    cbn [Parser.place fst snd List.filter].
    destruct (SlideElement.isDecorative e); cbn [fst snd negb];
      rewrite <- app_assoc; reflexivity.
Qed.

Lemma validateBackgroundElement_decorative (e : SlideElement.t) (m : Z) :
  SlideElement.isDecorative e = true ->
  Validator.validateBackgroundElement e m = [].
Proof.
  intros H. unfold Validator.validateBackgroundElement. rewrite H.
  rewrite andb_false_r. reflexivity.
Qed.

Lemma validateBackground_silent (l : list SlideElement.t) (m : Z) :
  (forall e, In e l -> SlideElement.isDecorative e = true) ->
  flat_map (fun bg => Validator.validateBackgroundElement bg m) l = [].
Proof.
  induction l as [|e l IH]; intros Hd; [reflexivity |].
  cbn [flat_map].
  rewrite validateBackgroundElement_decorative by (apply Hd; left; reflexivity).
  apply IH. intros e' He'. apply Hd. right. exact He'.
Qed.

End ParsedSlide.

(** X20: where the parser puts the elements of a slide. The shapes and
    pictures that are not decorative become the elements of the slide, in
    the order of the nodes, followed by the graphic frames and the members
    of the groups; the decorative shapes and pictures become the background
    elements. Every background element of a parsed slide is therefore
    decorative, and the validator's check of the background elements raises
    nothing for it. The issues of the slide contain the issues of each of
    its elements. *)
Theorem parsed_slide_placement
  (shapes pics frames : list (option SlideElement.t))
  (groups : list (list SlideElement.t))
  (order : list SlideElement.t -> list jsstring * Q) (n m : Z) :
  let slide := Parser.parseSlide shapes pics frames groups order n in
  let plain (e : SlideElement.t) := negb (SlideElement.isDecorative e) in
  Slide.elements slide
  = List.filter plain (omap id shapes) ++ List.filter plain (omap id pics)
    ++ omap id frames ++ concat groups
  /\ Slide.backgroundElements slide
     = List.filter SlideElement.isDecorative (omap id shapes)
       ++ List.filter SlideElement.isDecorative (omap id pics)
  /\ (forall e, In e (Slide.backgroundElements slide) ->
        SlideElement.isDecorative e = true)
  /\ flat_map (fun bg => Validator.validateBackgroundElement bg m)
       (Slide.backgroundElements slide) = []
  /\ (forall e i, In e (Slide.elements slide) -> In i (SlideElement.issues e) ->
        In i (Slide.issues slide)).
Proof.
  intros slide plain.
  assert (He : Slide.elements slide
               = List.filter plain (omap id shapes)
                 ++ List.filter plain (omap id pics)
                 ++ omap id frames ++ concat groups).
  { subst slide. unfold Parser.parseSlide, Parser.placeAll.
    cbn [Slide.elements]. rewrite !place_fold. cbn [fst snd app].
    rewrite <- app_assoc. reflexivity. }
  assert (Hb : Slide.backgroundElements slide
               = List.filter SlideElement.isDecorative (omap id shapes)
                 ++ List.filter SlideElement.isDecorative (omap id pics)).
  { subst slide. unfold Parser.parseSlide, Parser.placeAll.
    cbn [Slide.backgroundElements]. rewrite !place_fold. reflexivity. }
  assert (Hd : forall e, In e (Slide.backgroundElements slide) ->
                 SlideElement.isDecorative e = true).
  { intros e. rewrite Hb, in_app_iff, !filter_In. tauto. }
  split; [exact He |]. split; [exact Hb |]. split; [exact Hd |]. split.
  - apply validateBackground_silent, Hd.
  - intros e i Hin Hi.
    change (Slide.issues slide)
      with (Parser.validateSlide (Slide.elements slide) n).
    unfold Parser.validateSlide. rewrite !in_app_iff, in_flat_map.
    right. right. exists e. split; assumption.
Qed.

(** X20 on a sample: a title, a picture and a decorative picture. *)
Lemma parsed_slide_placement_witness :
  List.map SlideElement.id (Slide.elements Sample.parsedTwoPictures)
  = [ js "2"; js "4" ]
  /\ List.map SlideElement.id (Slide.backgroundElements Sample.parsedTwoPictures)
     = [ js "9" ]
  /\ forall e, In e (Slide.backgroundElements Sample.parsedTwoPictures) ->
       SlideElement.isDecorative e = true.
Proof.
  split; [vm_compute; reflexivity |]. split; [vm_compute; reflexivity |].
  pose proof
    (parsed_slide_placement
       [ Some (Sample.heading (js "Standorte")) ]
       [ Some (Sample.element (js "4") image 40 100 400 300 None);
         Some Sample.ornament ]
       [] []
       (fun elements => (List.map SlideElement.id elements, 1%Q)) 2 2) as H.
  cbv zeta in H. destruct H as (_ & _ & H & _). exact H.
Defined.

(* ===================================================================== *)
(** ** Placeholder types                                                   *)
(* ===================================================================== *)

Section Placeholders.

Import Parser.



End Placeholders.



(* ===================================================================== *)
(** ** Findings of the parser in the report; the conversion route         *)
(* ===================================================================== *)

Section ValidatorIds.

Import Validator.

Lemma doc_id_head (p : Presentation.t) (i : Issue.t) :
  In i (validateDocument p) -> hd 0%N (Issue.id i) = 100%N.
Proof.
  unfold validateDocument. rewrite !in_app_iff.
  intros [H|[H|H]]; one_issue H; reflexivity.
Qed.

Lemma validateElement_ids (e : SlideElement.t) (m : Z) (i : Issue.t) :
  In i (validateElement e m) -> hd 0%N (Issue.id i) = 115%N.
Proof.
  unfold validateElement. rewrite !in_app_iff.
  intros [H|[H|[H|H]]].
  - destruct (_ || _) in H; [| destruct H].
    apply (validateImageAltText_ids e m i H).
  - destruct (bool_decide _) in H; [| destruct H].
    unfold validateTableStructure in H.
    destruct (SlideElement.tableData e) as [td|]; [| destruct H].
    apply in_app_iff in H as [H|H]; one_issue H; apply slide_id_head.
  - destruct (truthy_opt _) in H; [| destruct H].
    unfold validateLink in H.
    destruct (List.existsb _ _) in H; [| destruct H].
    destruct H as [<-|[]]. apply slide_id_head.
  - destruct (_ && _) in H; [| destruct H].
    destruct H as [<-|[]]. apply slide_id_head.
Qed.

Lemma validateSlide_ids (s : Slide.t) (i : Issue.t) :
  In i (validateSlide s) -> hd 0%N (Issue.id i) = 115%N.
Proof.
  unfold validateSlide. rewrite !in_app_iff, !in_flat_map.
  intros [H|[H|[H|[H|H]]]].
  - unfold validateSlideTitle in H.
    destruct (List.find _ _) in H; [destruct H |].
    destruct H as [<-|[]]. apply slide_id_head.
  - unfold validateReadingOrder in H. apply in_app_iff in H as [H|H].
    + unfold orderUncertain in H. destruct (Qltb _ _) in H; [| destruct H].
      destruct H as [<-|[]]. apply slide_id_head.
    + apply in_map_iff in H as (pr & <- & _). apply slide_id_head.
  - destruct H as (e & _ & H). apply (validateElement_ids e _ i H).
  - unfold validatePseudoTables in H.
    destruct (_ <? _)%nat in H; [destruct H |].
    destruct (isGrid _) in H; [| destruct H].
    destruct H as [<-|[]]. apply slide_id_head.
  - destruct H as (e & _ & H). unfold validateBackgroundElement in H.
    destruct (_ && _) in H; [| destruct H].
    destruct H as [<-|[]]. apply slide_id_head.
Qed.

(** No check of the validator uses an id of the parser. *)
Lemma checks_ids (p : Presentation.t) (i : Issue.t) :
  In i (validateDocument p ++ flat_map validateSlide (Presentation.slides p)) ->
  hd 0%N (Issue.id i) <> 105%N.
Proof.
  rewrite in_app_iff, in_flat_map. intros [H|(s & _ & H)].
  - rewrite (doc_id_head p i H). discriminate.
  - rewrite (validateSlide_ids s i H). discriminate.
Qed.

(** The first issue collected with an id is reported. *)
Lemma dedup_first (l1 l2 : list Issue.t) (x : Issue.t) :
  (forall i, In i l1 -> Issue.id i <> Issue.id x) ->
  In x (deduplicateIssues (l1 ++ x :: l2)).
Proof.
  intros Hfresh. unfold deduplicateIssues.
  destruct (dedupFrom_app ∅ l1 (x :: l2)) as (s & E & Hs). rewrite E.
  apply in_app_iff. right. cbn [dedupFrom].
  rewrite bool_decide_eq_false_2; [left; reflexivity |].
  rewrite Hs. intros [H|H]; [exact (not_elem_of_empty _ H) |].
  apply in_map_iff in H as (i & Heq & Hi). exact (Hfresh i Hi Heq).
Qed.

Lemma countSeverity_member (s : Severity) (l : list Issue.t) (i : Issue.t) :
  In i l -> Issue.severity i = s -> 1 <= countSeverity s l.
Proof.
  intros Hin Hs. apply in_split in Hin as (l1 & l2 & ->).
  rewrite countSeverity_insert. unfold hasSeverity.
  rewrite bool_decide_eq_true_2 by exact Hs.
  pose proof (countSeverity_nonneg s (l1 ++ l2)). lia.
Qed.

Lemma countSeverity_two (s : Severity) (l : list Issue.t) (i j : Issue.t) :
  In i l -> In j l -> i <> j ->
  Issue.severity i = s -> Issue.severity j = s -> 2 <= countSeverity s l.
Proof.
  intros Hi Hj Hne Hsi Hsj. apply in_split in Hi as (l1 & l2 & ->).
  rewrite countSeverity_insert. unfold hasSeverity.
  rewrite bool_decide_eq_true_2 by exact Hsi.
  assert (Hj' : In j (l1 ++ l2)).
  { apply in_app_iff in Hj as [H|[H|H]]; [| congruence |];
      apply in_app_iff; auto. }
  pose proof (countSeverity_member s (l1 ++ l2) j Hj' Hsj). lia.
Qed.

End ValidatorIds.

Section Route.

Lemma convert_report form profile parsed w :
  fst (Route.convert form profile parsed w)
  = validatePresentation (Route.applyForm form parsed) (Some profile) w.
Proof.
  unfold Route.convert, validatePresentation.
  destruct (Validator.validate _ _ w) as [r w1].
  destruct (Generator.generate _ _ w1) as [st w2]. reflexivity.
Qed.

Lemma convert_document form profile parsed w :
  snd (Route.convert form profile parsed w)
  = fst (Generator.generate
           (Route.generatorOptions profile (Route.applyForm form parsed))
           (Route.applyForm form parsed)
           (snd (Validator.validate (Route.applyForm form parsed)
                   (Some profile) w))).
Proof.
  unfold Route.convert.
  destruct (Validator.validate _ _ w) as [r w1].
  cbn [snd].
  destruct (Generator.generate _ _ w1) as [st w2]. reflexivity.
Qed.

Lemma language_truthy form : truthy (Route.language form) = true.
Proof.
  unfold Route.language.
  destruct (Route.Form.language form) as [[|c l]|]; reflexivity.
Qed.

(** The issue that the parser raises for a document without title. *)
Lemma parser_title_issue (metadata : Metadata.t) (slides : list Slide.t) :
  trim (Metadata.title metadata) = [] ->
  exists x rest,
    Parser.collectGlobalIssues metadata slides = x :: rest
    /\ Issue.id x = js "issue-global-no-title"
    /\ Issue.type x = missing_document_title
    /\ Issue.severity x = error.
Proof.
  intros Ht. unfold Parser.collectGlobalIssues. rewrite Ht. cbn [truthy negb app].
  eexists _, _. split; [reflexivity |]. repeat split.
Qed.

(** The parser's issue for a document without title is reported whenever
    the model carries the issues of the parser. *)
Lemma parser_title_issue_reported
  (p : Presentation.t) (profile : option ConversionProfile.t) (w : World.t)
  (x : Issue.t) (rest : list Issue.t) :
  Presentation.issues p = x :: rest ->
  Issue.id x = js "issue-global-no-title" ->
  In x (Report.issues (validatePresentation p profile w)).
Proof.
  intros Hp Hid.
  change (Report.issues (validatePresentation p profile w))
    with (Validator.deduplicateIssues (Validator.collectedIssues p)).
  unfold Validator.collectedIssues, Validator.collectPresentationIssues.
  rewrite Hp. rewrite app_assoc. cbn [app].
  apply dedup_first. intros i Hi Heq.
  apply (checks_ids p i Hi). rewrite Heq, Hid. reflexivity.
Qed.

End Route.

(** X22: the language and the title of a conversion. The language of the
    model that is validated and of the generated document is the language
    field of the request, or de when the request has none; the language of
    the uploaded file never reaches either. The title of the document is the
    title field of the request when that is not empty, else the title of
    the file, else a placeholder; the report shows the same title with a
    placeholder of its own. The validator reports a missing language
    exactly when the language field is und or a single character. *)
Theorem route_language_and_title
  (form : Route.Form.t) (profile : ConversionProfile.t)
  (parsed : Presentation.t) (w : World.t) :
  let result := Route.convert form profile parsed w in
  let p := Route.applyForm form parsed in
  let doc := Generator.State.doc (snd result) in
  let shown := Metadata.title (Presentation.metadata p) in
  let lang := opt_or_else (Route.Form.language form) (js "de") in
  Metadata.language (Presentation.metadata p) = lang
  /\ Generator.Doc.Language doc = Some lang
  /\ shown = opt_or_else (Route.Form.title form)
               (Metadata.title (Presentation.metadata parsed))
  /\ Generator.Doc.Title doc
     = Some (or_else shown (js "Unbenannte Präsentation"))
  /\ Report.documentTitle (fst result) = or_else shown (js "Unbenannt")
  /\ Validator.hasType (Validator.validateDocument p) missing_language
     = eqb lang (js "und") || (length lang <? 2)%nat.
Proof.
  intros result p doc shown lang. subst lang.
  change (opt_or_else (Route.Form.language form) (js "de"))
    with (Route.language form).
  pose proof (language_truthy form) as Hl.
  assert (Hlang : Metadata.language (Presentation.metadata p)
                  = Route.language form).
  { subst p. unfold Route.applyForm.
    cbn [Presentation.metadata Metadata.language]. rewrite Hl. reflexivity. }
  assert (Hshown : shown = opt_or_else (Route.Form.title form)
                             (Metadata.title (Presentation.metadata parsed))).
  { subst shown p. unfold Route.applyForm, opt_or_else, or_else.
    cbn [Presentation.metadata Metadata.title].
    destruct (Route.Form.title form) as [t|]; reflexivity. }
  split; [exact Hlang |].
  subst doc result. rewrite convert_document, convert_report. fold p.
  destruct (generate_doc (Route.generatorOptions profile p) p
              (snd (Validator.validate p (Some profile) w))) as [Ht Hg].
  cbv zeta in Ht, Hg.
  split; [| split; [exact Hshown | split; [| split; [reflexivity |]]]].
  - rewrite Hg. unfold Generator.constructor, Route.generatorOptions.
    cbn [Generator.Config.language Generator.Options.language opt_or_else].
    rewrite Hlang. unfold or_else. rewrite Hl. cbn [truthy].
    rewrite Hl. reflexivity.
  - rewrite Ht. unfold Generator.constructor, Route.generatorOptions.
    cbn [Generator.Config.documentTitle Generator.Options.documentTitle
         opt_or_else].
    fold shown. unfold or_else. destruct (truthy shown); reflexivity.
  - unfold Validator.validateDocument. rewrite Hlang, Hl.
    unfold Validator.hasType. rewrite !existsb_app.
    cbn [negb orb].
    assert (Hlen : (Z.of_nat (length (Route.language form)) <? 2)
                   = (length (Route.language form) <? 2)%nat).
    { destruct (Nat.ltb_spec (length (Route.language form)) 2).
      - apply Z.ltb_lt. lia.
      - apply Z.ltb_ge. lia. }
    rewrite Hlen.
    destruct (negb (truthy (trim (Metadata.title (Presentation.metadata p)))));
      destruct (eqb (Route.language form) (js "und")
                || (length (Route.language form) <? 2)%nat);
      destruct (negb (has_text (Metadata.author (Presentation.metadata p))));
      vm_compute; reflexivity.
Qed.

(** X23: a title typed into the form does not clear the parser's finding.
    When the uploaded file has no title, the parser's issue
    issue-global-no-title stays among the issues of the model: whatever
    title the request carries, the report of the conversion lists this
    error, counts at least one error and denies PDF/UA conformance,
    although the validator's own check of the document title is satisfied
    by a title from the form. *)
Theorem form_title_keeps_parser_finding
  (form : Route.Form.t) (profile : ConversionProfile.t)
  (metadata : Metadata.t) (slides : list Slide.t) (w : World.t) :
  let parsed := Parser.parse metadata slides in
  let report := fst (Route.convert form profile parsed w) in
  trim (Metadata.title metadata) = [] ->
  (exists x, In x (Report.issues report)
             /\ Issue.id x = js "issue-global-no-title"
             /\ Issue.type x = missing_document_title
             /\ Issue.severity x = error)
  /\ 1 <= Summary.errors (Report.summary report)
  /\ Report.pdfuaConformant report = false
  /\ (has_text (Route.Form.title form) = true ->
      Validator.hasType
        (Validator.validateDocument (Route.applyForm form parsed))
        missing_document_title = false).
Proof.
  intros parsed report Ht. subst report. rewrite convert_report.
  destruct (parser_title_issue metadata slides Ht) as (x & rest & Hx & Hid & Hty & Hsev).
  pose proof (parser_title_issue_reported (Route.applyForm form parsed)
                (Some profile) w x rest Hx Hid) as Hin.
  pose proof (countSeverity_member error _ x Hin Hsev) as Hcount.
  split; [exists x; auto |]. split; [exact Hcount |]. split.
  - change (Report.pdfuaConformant
              (validatePresentation (Route.applyForm form parsed)
                 (Some profile) w))
      with (Validator.countSeverity error
              (Report.issues
                 (validatePresentation (Route.applyForm form parsed)
                    (Some profile) w)) =? 0).
    apply Z.eqb_neq. lia.
  - intros Hform. unfold Validator.validateDocument, Route.applyForm.
    cbn [Presentation.metadata Metadata.title Metadata.language
         Metadata.author].
    destruct (Route.Form.title form) as [t|]; [| discriminate Hform].
    unfold has_text in Hform.
    assert (Htt : truthy t = true)
      by (destruct t; [discriminate Hform | reflexivity]).
    rewrite Htt, Hform. cbn [negb app].
    unfold Validator.hasType. rewrite existsb_app.
    destruct (_ || _ || _); destruct (negb (has_text _)); reflexivity.
Qed.

(** X23 on a sample: a file without title, converted with the title
    Jahresbericht from the form. The document and the report show the
    title; the report still lists the parser's error. *)
Lemma form_title_keeps_parser_finding_witness :
  let result :=
    Route.convert Sample.titledForm Sample.quick
      (Parser.parse Sample.untitledFile [ Sample.slide 1 [ Sample.heading (js "Ziele") ] ])
      (Sample.world 0 1) in
  Report.documentTitle (fst result) = js "Jahresbericht"
  /\ Report.pdfuaConformant (fst result) = false
  /\ List.map Issue.id (Report.issues (fst result))
     = [ js "issue-global-no-title" ].
Proof.
  intros result. split; [vm_compute; reflexivity |].
  split; [| vm_compute; reflexivity].
  pose proof (form_title_keeps_parser_finding Sample.titledForm Sample.quick
                Sample.untitledFile
                [ Sample.slide 1 [ Sample.heading (js "Ziele") ] ]
                (Sample.world 0 1)) as H.
  cbv zeta in H. destruct H as (_ & _ & H & _); [reflexivity |]. exact H.
Defined.

(** X24: a document without title is charged twice. The parser and the
    validator agree on when the document title is missing, and every
    missing language that the parser reports is reported by the validator
    too; their issues have different ids. The report of a parsed model
    without document title therefore counts two errors for it: its score
    is at most 70 and its level is neither AAA nor AA. *)
Theorem untitled_document_charged_twice
  (metadata : Metadata.t) (slides : list Slide.t)
  (profile : option ConversionProfile.t) (w : World.t) :
  let p := Parser.parse metadata slides in
  let r := validatePresentation p profile w in
  let own := Parser.collectGlobalIssues metadata slides in
  Validator.hasType own missing_document_title
  = Validator.hasType (Validator.validateDocument p) missing_document_title
  /\ (Validator.hasType own missing_language = true ->
      Validator.hasType (Validator.validateDocument p) missing_language = true)
  /\ (trim (Metadata.title metadata) = [] ->
      2 <= Summary.errors (Report.summary r)
      /\ Report.overallScore r <= 70
      /\ Report.wcagLevel r <> Wcag.AAA /\ Report.wcagLevel r <> Wcag.AA).
Proof.
  intros p r own. split; [| split].
  - subst own p. unfold Parser.collectGlobalIssues, Validator.validateDocument.
    cbn [Parser.parse Presentation.metadata].
    unfold Validator.hasType. rewrite !existsb_app.
    destruct (negb (truthy (trim (Metadata.title metadata)))),
      (negb (truthy (Metadata.language metadata))),
      (eqb (Metadata.language metadata) (js "und")),
      (Z.of_nat (length (Metadata.language metadata)) <? 2),
      (negb (has_text (Metadata.author metadata))); vm_compute; reflexivity.
  - subst own p. unfold Parser.collectGlobalIssues, Validator.validateDocument.
    cbn [Parser.parse Presentation.metadata].
    unfold Validator.hasType. rewrite !existsb_app.
    destruct (negb (truthy (Metadata.language metadata))
              || eqb (Metadata.language metadata) (js "und")) eqn:E.
    + cbn [orb]. intros _.
      destruct (negb (truthy (trim (Metadata.title metadata))));
        destruct (negb (has_text _)); vm_compute; reflexivity.
    + destruct (negb (truthy (trim (Metadata.title metadata))));
        intros H; discriminate H.
  - intros Ht.
    destruct (parser_title_issue metadata slides Ht)
      as (x & rest & Hx & Hid & Hty & Hsev).
    pose proof (parser_title_issue_reported p profile w x rest Hx Hid) as Hin.
    assert (Hv : exists y tail,
              Validator.collectedIssues p = y :: tail
              /\ Issue.id y = js "doc-no-title" /\ Issue.severity y = error).
    { unfold Validator.collectedIssues, Validator.validateDocument.
      subst p. cbn [Parser.parse Presentation.metadata]. rewrite Ht.
      cbn [truthy negb app]. eexists _, _. split; [reflexivity |].
      split; reflexivity. }
    destruct Hv as (y & tail & Hy & Hyid & Hysev).
    assert (Hiny : In y (Report.issues r)).
    { change (Report.issues r)
        with (Validator.deduplicateIssues (Validator.collectedIssues p)).
      rewrite Hy. apply (dedup_first [] tail y). intros i []. }
    assert (Hne : x <> y).
    { intros E. rewrite E, Hyid in Hid. revert Hid.
      apply jsstring_neq. vm_compute. reflexivity. }
    pose proof (countSeverity_two error _ x y Hin Hiny Hne Hsev Hysev) as H2.
    pose proof (countSeverity_nonneg warning (Report.issues r)) as Hw.
    pose proof (countSeverity_nonneg info (Report.issues r)) as Hi.
    change (2 <= Validator.countSeverity error (Report.issues r)) in H2.
    set (e := Validator.countSeverity error (Report.issues r)) in *.
    split; [exact H2 |]. split.
    + change (Report.overallScore r)
        with (Validator.calculateScore e
                (Validator.countSeverity warning (Report.issues r))
                (Validator.countSeverity info (Report.issues r))).
      rewrite calculateScore_formula. lia.
    + change (Report.wcagLevel r)
        with (Conformance.wcagLevel
                (Validator.determineConformance e
                   (Validator.countSeverity warning (Report.issues r)))).
      unfold Validator.determineConformance.
      destruct (Z.eqb_spec e 0) as [E0|E0]; [lia |]. cbn [andb].
      destruct (e <=? 3); split; discriminate.
Qed.

(** X24 on a sample: the file without title, validated as parsed. *)
Lemma untitled_document_charged_twice_witness :
  let r :=
    validatePresentation
      (Parser.parse Sample.untitledFile
         [ Sample.slide 1 [ Sample.heading (js "Ziele") ] ])
      None (Sample.world 0 1) in
  2 <= Summary.errors (Report.summary r) /\ Report.overallScore r <= 70.
Proof.
  intros r.
  pose proof (untitled_document_charged_twice Sample.untitledFile
                [ Sample.slide 1 [ Sample.heading (js "Ziele") ] ]
                None (Sample.world 0 1)) as H.
  cbv zeta in H. destruct H as (_ & _ & H).
  destruct H as (H1 & H2 & _); [reflexivity |]. split; assumption.
Defined.

(* ===================================================================== *)
(** ** The names of uploaded files                                         *)
(* ===================================================================== *)

Section FileNames.

Import Route.

Lemma getFileExtension_suffix (name : jsstring) :
  exists stem, name = stem ++ getFileExtension name.
Proof.
  induction name as [|c r IH]; [exists []; reflexivity |].
  cbn [getFileExtension]. destruct (_ && _).
  - exists []. reflexivity.
  - destruct IH as (stem & E). exists (c :: stem). cbn [app]. f_equal. exact E.
Qed.

Lemma getFileExtension_found (stem r : jsstring) :
  r <> [] -> List.forallb (fun d => negb (d =? 46)%N) r = true ->
  getFileExtension (stem ++ 46%N :: r) = 46%N :: r.
Proof.
  intros Hr Hdots. induction stem as [|c stem IH].
  - cbn [app getFileExtension]. rewrite Hdots.
    destruct r; [congruence | reflexivity].
  - cbn [app getFileExtension]. rewrite forallb_app. cbn [List.forallb].
    rewrite !andb_false_r. exact IH.
Qed.

Lemma lower_unit_head (c d : N) (rest0 rest : jsstring) :
  lower_unit c ++ rest0 = d :: rest -> In d [ 46; 112; 116; 120 ]%N ->
  rest0 = rest /\ ascii_lower c = d.
Proof.
  unfold lower_unit, ascii_lower. intros E Hd.
  destruct (isAsciiUpper c); [injection E as <- <-; auto |].
  destruct ((192 <=? c)%N && (c <=? 222)%N && negb (c =? 215)%N) eqn:L.
  { injection E as <- <-. exfalso.
    apply andb_true_iff in L as [L _]. apply andb_true_iff in L as [L _].
    apply N.leb_le in L. simpl in Hd. lia. }
  destruct (c =? 304)%N.
  { injection E as <- _. exfalso. simpl in Hd. lia. }
  destruct (c =? 8490)%N.
  { injection E as <- _. exfalso. simpl in Hd. lia. }
  destruct (c =? 8491)%N.
  { injection E as <- _. exfalso. simpl in Hd. lia. }
  injection E as <- <-. auto.
Qed.

Lemma lower_unit_nonempty (c : N) : lower_unit c <> [].
Proof.
  unfold lower_unit.
  repeat match goal with
         | |- context [if ?b then _ else _] => destruct b
         end; discriminate.
Qed.

Lemma toLowerCase_ascii (e target : jsstring) :
  (forall d, In d target -> In d [ 46; 112; 116; 120 ]%N) ->
  toLowerCase e = target -> List.map ascii_lower e = target.
Proof.
  unfold toLowerCase. revert target.
  induction e as [|c e IH]; intros target Ht E; [exact E |].
  cbn [flat_map List.map] in *.
  destruct target as [|d target].
  - apply app_eq_nil in E as [E _]. destruct (lower_unit_nonempty c E).
  - destruct (lower_unit_head c d _ _ E) as [E' Hc];
      [apply Ht; left; reflexivity |].
    rewrite Hc. f_equal. apply IH; [| exact E'].
    intros d' Hd'. apply Ht. right. exact Hd'.
Qed.

Lemma ascii_toLowerCase (e target : jsstring) :
  (forall d, In d target -> In d [ 46; 112; 116; 120 ]%N) ->
  List.map ascii_lower e = target -> toLowerCase e = target.
Proof.
  unfold toLowerCase. revert target.
  induction e as [|c e IH]; intros target Ht E; [exact E |].
  cbn [flat_map List.map] in *.
  destruct target as [|d target]; [discriminate E |].
  injection E as Hc E.
  rewrite (IH target); [| intros d' Hd'; apply Ht; right; exact Hd' | exact E].
  assert (Hd : In d [ 46; 112; 116; 120 ]%N) by (apply Ht; left; reflexivity).
  assert (Hl : lower_unit c = [d]).
  { unfold lower_unit. unfold ascii_lower in Hc.
    destruct (isAsciiUpper c); [rewrite Hc; reflexivity |].
    subst c. simpl in Hd.
    destruct Hd as [<-|[<-|[<-|[<-|[]]]]]; reflexivity. }
  rewrite Hl. reflexivity.
Qed.

Lemma pptx_units (d : N) :
  In d (js ".pptx") -> In d [ 46; 112; 116; 120 ]%N.
Proof.
  change (js ".pptx") with [ 46; 112; 112; 116; 120 ]%N. simpl. tauto.
Qed.

Lemma eqb_nocase_pptx (e : jsstring) :
  eqb_nocase (js ".pptx") e = true <-> List.map ascii_lower e = js ".pptx".
Proof.
  unfold eqb_nocase, eqb. rewrite bool_decide_eq_true.
  change (List.map ascii_lower (js ".pptx")) with (js ".pptx").
  split; intros H; symmetry; exact H.
Qed.

(** A name that ends in the extension, in any case of its letters, has the
    extension as its match. *)
Lemma pptx_extension (ext : jsstring) :
  List.map ascii_lower ext = js ".pptx" ->
  exists r, ext = 46%N :: r /\ r <> []
            /\ List.forallb (fun d => negb (d =? 46)%N) r = true.
Proof.
  change (js ".pptx") with [ 46; 112; 112; 116; 120 ]%N.
  destruct ext as [|c0 [|c1 [|c2 [|c3 [|c4 [|c5 ext]]]]]]; try discriminate.
  intros E. injection E as H0 H1 H2 H3 H4.
  assert (Hdot : forall c d, ascii_lower c = d -> d <> 46%N -> (c =? 46)%N = false).
  { intros c d Hc Hd. apply N.eqb_neq. intros ->. apply Hd. rewrite <- Hc.
    reflexivity. }
  assert (E0 : c0 = 46%N).
  { unfold ascii_lower, isAsciiUpper in H0.
    destruct ((65 <=? c0)%N && (c0 <=? 90)%N) eqn:U; [| exact H0].
    apply andb_true_iff in U as [U _]. apply N.leb_le in U. lia. }
  exists [ c1; c2; c3; c4 ]. split; [rewrite E0; reflexivity |].
  split; [discriminate |]. cbn [List.forallb].
  rewrite (Hdot c1 112%N H1), (Hdot c2 112%N H2), (Hdot c3 116%N H3),
    (Hdot c4 120%N H4) by discriminate.
  reflexivity.
Qed.

Lemma originalName_found (stem ext : jsstring) :
  eqb_nocase (js ".pptx") ext = true ->
  originalName (stem ++ ext) = stem ++ js ".pdf".
Proof.
  intros He. pose proof (proj1 (eqb_nocase_pptx ext) He) as Hm.
  assert (Hlen : length ext = 5%nat).
  { rewrite <- (length_map ascii_lower), Hm. reflexivity. }
  induction stem as [|c stem IH].
  - cbn [app]. destruct ext as [|c0 ext]; [discriminate Hlen |].
    cbn [originalName]. rewrite He. reflexivity.
  - cbn [app originalName].
    assert (Hno : eqb_nocase (js ".pptx") (c :: stem ++ ext) = false).
    { unfold eqb_nocase, eqb. apply bool_decide_eq_false. intros E.
      apply (f_equal length) in E. rewrite !length_map in E.
      cbn [length] in E. rewrite length_app, Hlen in E.
      change (length (js ".pptx")) with 5%nat in E. lia. }
    rewrite Hno. f_equal. exact IH.
Qed.

End FileNames.

(** X25: which uploads are accepted, and how the download is named. A file
    is accepted exactly when it has at most 100 MB and its name ends in
    .pptx, in any case of the letters; the name offered for the download is
    then the name with that ending replaced by .pdf. A name without full
    stop, or with nothing after its last full stop, is refused. *)
Theorem accepted_uploads (name : jsstring) (size : Z) :
  (Route.validateFile name size = None
   <-> size <= 104857600
       /\ exists stem ext,
            name = stem ++ ext /\ eqb_nocase (js ".pptx") ext = true)
  /\ (forall stem ext,
        name = stem ++ ext -> eqb_nocase (js ".pptx") ext = true ->
        Route.getFileExtension name = ext
        /\ Route.originalName name = stem ++ js ".pdf")
  /\ (Route.getFileExtension name = [] -> Route.validateFile name size <> None).
Proof.
  assert (Hfound : forall stem ext,
            name = stem ++ ext -> eqb_nocase (js ".pptx") ext = true ->
            Route.getFileExtension name = ext
            /\ Route.originalName name = stem ++ js ".pdf").
  { intros stem ext -> He. split; [| apply originalName_found, He].
    destruct (pptx_extension ext (proj1 (eqb_nocase_pptx ext) He))
      as (r & -> & Hr & Hdots).
    apply getFileExtension_found; assumption. }
  assert (Hvalid : Route.validateFile name size = None
                   <-> size <= 104857600
                       /\ toLowerCase (Route.getFileExtension name) = js ".pptx").
  { unfold Route.validateFile.
    change Route.MAX_FILE_SIZE with 104857600.
    destruct (Z.ltb_spec 104857600 size) as [Hs|Hs].
    - split; [discriminate | lia].
    - cbn [Route.ALLOWED_EXTENSIONS List.existsb]. rewrite orb_false_r.
      unfold eqb. case_bool_decide as He; cbn [negb].
      + split; [auto | reflexivity].
      + split; [discriminate | tauto]. }
  split; [| split; [exact Hfound |]].
  - rewrite Hvalid. split.
    + intros [Hs He]. split; [exact Hs |].
      destruct (getFileExtension_suffix name) as (stem & E).
      exists stem, (Route.getFileExtension name). split; [exact E |].
      apply eqb_nocase_pptx, toLowerCase_ascii; [apply pptx_units | exact He].
    + intros [Hs (stem & ext & E & He)]. split; [exact Hs |].
      destruct (Hfound stem ext E He) as [-> _].
      apply ascii_toLowerCase; [apply pptx_units | apply eqb_nocase_pptx, He].
  - intros Hext Hv. apply Hvalid in Hv as [_ Hv]. rewrite Hext in Hv.
    discriminate Hv.
Qed.

(** X25 on a sample: a name in capital letters. *)
Lemma accepted_uploads_witness :
  Route.validateFile (js "Haushalt.2026.PPTX") 5242880 = None
  /\ Route.originalName (js "Haushalt.2026.PPTX") = js "Haushalt.2026.pdf".
Proof.
  pose proof (accepted_uploads (js "Haushalt.2026.PPTX") 5242880)
    as (H1 & H2 & _).
  split.
  - apply H1. split; [vm_compute; discriminate |].
    exists (js "Haushalt.2026"), (js ".PPTX").
    split; vm_compute; reflexivity.
  - destruct (H2 (js "Haushalt.2026") (js ".PPTX")) as [_ H];
      [vm_compute; reflexivity | vm_compute; reflexivity |].
    rewrite H. vm_compute. reflexivity.
Defined.

(* ===================================================================== *)
(** ** What the generator and the response read                            *)
(* ===================================================================== *)

Section GeneratorInput.

Import Generator.

Lemma getOrderedElements_content (s s' : Slide.t) :
  sameContent s s' -> getOrderedElements s = getOrderedElements s'.
Proof.
  intros [He Hr]. unfold getOrderedElements. rewrite He, Hr. reflexivity.
Qed.

Lemma renderSlide_content cfg st (s s' : Slide.t) :
  sameContent s s' -> renderSlide cfg st s = renderSlide cfg st s'.
Proof.
  intros H. unfold renderSlide, pageStructure.
  rewrite (getOrderedElements_content s s' H). reflexivity.
Qed.

Lemma renderSlides_content cfg (slides slides' : list Slide.t) st :
  Forall2 sameContent slides slides' ->
  fold_left (renderSlide cfg) slides st = fold_left (renderSlide cfg) slides' st.
Proof.
  intros H. revert st. induction H as [|s s' l l' Hs _ IH]; intros st.
  - reflexivity.
  - cbn [fold_left]. rewrite (renderSlide_content cfg st s s' Hs). apply IH.
Qed.

End GeneratorInput.

(** X26: the generator reads the metadata, the elements and the reading
    order, and nothing else. Two models with the same metadata whose slides
    agree, one by one, in their elements and their reading order yield the
    same document, structure tree and bookmarks. In particular the
    background elements never reach the document: the decorative shapes
    and pictures that the parser moves there are not drawn, not even as
    artifacts. *)
Theorem generator_reads_elements_only
  (options : Generator.Options.t) (p p' : Presentation.t) (w : World.t) :
  Presentation.metadata p = Presentation.metadata p' ->
  Forall2 sameContent (Presentation.slides p) (Presentation.slides p') ->
  Generator.generate options p w = Generator.generate options p' w.
Proof.
  intros Hm Hs. unfold Generator.generate.
  assert (Hmeta : Generator.setMetadata (Generator.constructor options) p
                    Generator.emptyDoc w
                  = Generator.setMetadata (Generator.constructor options) p'
                      Generator.emptyDoc w).
  { unfold Generator.setMetadata. rewrite Hm. reflexivity. }
  rewrite Hmeta.
  destruct (Generator.setMetadata _ p' Generator.emptyDoc w) as [doc w'].
  rewrite (renderSlides_content _ _ _ _ Hs). reflexivity.
Qed.

(** X26 on a sample: the parsed slide with a decorative picture in the
    background, and the same slide without that picture. *)
Lemma generator_reads_elements_only_witness :
  Generator.generate Sample.noOptions
    (Sample.presentation (js "Jahresbericht") (js "de")
       [ Sample.parsedTwoPictures ])
    (Sample.world 0 1)
  = Generator.generate Sample.noOptions
      (Sample.presentation (js "Jahresbericht") (js "de")
         [ Sample.slide 2
             [ Sample.heading (js "Standorte");
               Sample.element (js "4") image 40 100 400 300 None ] ])
      (Sample.world 0 1).
Proof.
  apply generator_reads_elements_only; [reflexivity |].
  constructor; [| constructor]. split; vm_compute; reflexivity.
Defined.

(** X27: the warnings of the response. The response of a conversion
    carries warnings exactly when the report counts at least one; it then
    lists the messages of the first warnings of the report, at most five
    of them, in German where the issue has a German message. *)
Theorem response_warnings_bounded
  (p : Presentation.t) (profile : option ConversionProfile.t) (w : World.t) :
  let r := validatePresentation p profile w in
  let n := Summary.warnings (Report.summary r) in
  match Route.responseWarnings r with
  | None => n = 0
  | Some l =>
      0 < n /\ Z.of_nat (length l) = Z.min 5 n
      /\ l = List.map (fun i => or_else (Issue.messageDE i) (Issue.message i))
               (take 5
                  (List.filter (Validator.hasSeverity warning)
                     (Report.issues r)))
  end.
Proof.
  intros r n. unfold Route.responseWarnings. fold n.
  assert (Hn : n = Z.of_nat
                     (length (List.filter (Validator.hasSeverity warning)
                                (Report.issues r)))) by reflexivity.
  destruct (Z.ltb_spec 0 n) as [Hpos|Hle].
  - split; [exact Hpos |]. split; [| reflexivity].
    rewrite length_map, length_take, Hn. lia.
  - rewrite Hn in *. lia.
Qed.

(* ===================================================================== *)
(** ** The checks of the validator and the types of the parser            *)
(* ===================================================================== *)

Section Checks.

Import Validator.

Lemma validateDocument_table (p : Presentation.t) (i : Issue.t) :
  In i (validateDocument p) ->
  In (Issue.type i, Issue.severity i, Issue.autoFixable i) checkTable
  /\ Issue.slideNumber i = None.
Proof.
  unfold validateDocument. rewrite !in_app_iff.
  intros [H|[H|H]]; one_issue H; (split; [in_table | reflexivity]).
Qed.

Lemma validateImageAltText_table (e : SlideElement.t) (m : Z) (i : Issue.t) :
  In i (validateImageAltText e m) ->
  In (Issue.type i, Issue.severity i, Issue.autoFixable i) checkTable
  /\ Issue.slideNumber i = Some m.
Proof.
  unfold validateImageAltText.
  destruct (SlideElement.isDecorative e); [intros [] |].
  destruct (_ || _).
  - intros [<-|[]]. split; [in_table | reflexivity].
  - destruct (Content.altText (SlideElement.content e)) as [txt|]; [| intros []].
    destruct (_ && _); [| intros []].
    intros [<-|[]]. split; [in_table | reflexivity].
Qed.

Lemma validateElement_table (e : SlideElement.t) (m : Z) (i : Issue.t) :
  In i (validateElement e m) ->
  In (Issue.type i, Issue.severity i, Issue.autoFixable i) checkTable
  /\ Issue.slideNumber i = Some m.
Proof.
  unfold validateElement. rewrite !in_app_iff.
  intros [H|[H|[H|H]]].
  - destruct (_ || _) in H; [| destruct H].
    apply (validateImageAltText_table e m i H).
  - destruct (bool_decide _) in H; [| destruct H].
    unfold validateTableStructure in H.
    destruct (SlideElement.tableData e) as [td|]; [| destruct H].
    apply in_app_iff in H as [H|H]; one_issue H;
      (split; [in_table | reflexivity]).
  - destruct (truthy_opt _) in H; [| destruct H].
    unfold validateLink in H.
    destruct (List.existsb _ _) in H; [| destruct H].
    destruct H as [<-|[]]. split; [in_table | reflexivity].
  - destruct (_ && _) in H; [| destruct H].
    destruct H as [<-|[]]. split; [in_table | reflexivity].
Qed.

Lemma validateSlide_table (s : Slide.t) (i : Issue.t) :
  In i (validateSlide s) ->
  In (Issue.type i, Issue.severity i, Issue.autoFixable i) checkTable
  /\ Issue.slideNumber i = Some (Slide.number s).
Proof.
  unfold validateSlide. rewrite !in_app_iff, !in_flat_map.
  intros [H|[H|[H|[H|H]]]].
  - unfold validateSlideTitle in H.
    destruct (List.find _ _) in H; [destruct H |].
    destruct H as [<-|[]]. split; [in_table | reflexivity].
  - unfold validateReadingOrder in H. apply in_app_iff in H as [H|H].
    + unfold orderUncertain in H. destruct (Qltb _ _) in H; [| destruct H].
      destruct H as [<-|[]]. split; [in_table | reflexivity].
    + apply in_map_iff in H as (pr & <- & _). split; [in_table | reflexivity].
  - destruct H as (e & _ & H). apply (validateElement_table e _ i H).
  - unfold validatePseudoTables in H.
    destruct (_ <? _)%nat in H; [destruct H |].
    destruct (isGrid _) in H; [| destruct H].
    destruct H as [<-|[]]. split; [in_table | reflexivity].
  - destruct H as (e & _ & H). unfold validateBackgroundElement in H.
    destruct (_ && _) in H; [| destruct H].
    destruct H as [<-|[]]. split; [in_table | reflexivity].
Qed.

Lemma unchecked_not_in_table (t : IssueType) (s : Severity) (b : bool) :
  In t uncheckedTypes -> ~ In (t, s, b) checkTable.
Proof.
  intros Ht Hin.
  assert (Hty : In t (List.map (fun r => fst (fst r)) checkTable))
    by (apply (in_map (fun r => fst (fst r)) _ _ Hin)).
  revert Ht Hty. clear. unfold uncheckedTypes. cbn [List.map checkTable fst In].
  intros Ht Hty.
  repeat destruct Ht as [<-|Ht];
    try (repeat destruct Hty as [Hty|Hty]; try discriminate Hty; exact Hty).
  exact Ht.
Qed.

End Checks.

(** X28: every check of the validator has one type, one severity and one
    setting of [autoFixable]. An issue that the validator raises itself is
    one of fourteen kinds: a missing document title or language is an
    error, as is a missing alternative text; low-quality alternative text,
    a slide without title, an uncertain reading order, a table without
    headers, an unclear link text and a pseudo table are warnings; the
    rest are notes. An issue of the document has no slide number and an
    issue of a slide has the number of that slide. The validator has no
    check for the other fourteen issue types, among them contrast, heading
    hierarchy and empty link texts: such an issue is in a report only if
    the model carries it. *)
Theorem checks_have_fixed_severity
  (p : Presentation.t) (profile : option ConversionProfile.t) (w : World.t) :
  (forall i, In i (raisedIssues p) ->
     In (Issue.type i, Issue.severity i, Issue.autoFixable i) checkTable)
  /\ (forall i, In i (Validator.validateDocument p) ->
        Issue.slideNumber i = None)
  /\ (forall s i, In i (Validator.validateSlide s) ->
        Issue.slideNumber i = Some (Slide.number s))
  /\ (forall t, In t uncheckedTypes ->
        Validator.hasType (raisedIssues p) t = false)
  /\ (forall t, In t uncheckedTypes ->
        Validator.hasType (Report.issues (validatePresentation p profile w)) t
        = true ->
        Validator.hasType (Validator.collectPresentationIssues p) t = true).
Proof.
  assert (Htable : forall i, In i (raisedIssues p) ->
            In (Issue.type i, Issue.severity i, Issue.autoFixable i) checkTable).
  { intros i Hi. unfold raisedIssues in Hi.
    apply in_app_iff in Hi as [Hi|Hi].
    - apply (validateDocument_table p i Hi).
    - apply in_flat_map in Hi as (s & _ & Hi).
      apply (validateSlide_table s i Hi). }
  assert (Hnone : forall t, In t uncheckedTypes ->
            Validator.hasType (raisedIssues p) t = false).
  { intros t Ht. unfold Validator.hasType.
    destruct (List.existsb _ (raisedIssues p)) eqn:E; [| reflexivity].
    apply existsb_exists in E as (i & Hi & Hty).
    apply bool_decide_eq_true in Hty. subst t.
    destruct (unchecked_not_in_table _ _ _ Ht (Htable i Hi)). }
  split; [exact Htable |].
  split; [intros i Hi; apply (validateDocument_table p i Hi) |].
  split; [intros s i Hi; apply (validateSlide_table s i Hi) |].
  split; [exact Hnone |].
  intros t Ht Hrep. unfold Validator.hasType in *.
  apply existsb_exists in Hrep as (i & Hi & Hty).
  change (Report.issues (validatePresentation p profile w))
    with (Validator.deduplicateIssues (Validator.collectedIssues p)) in Hi.
  apply dedupFrom_sub in Hi.
  unfold Validator.collectedIssues in Hi. rewrite app_assoc in Hi.
  apply in_app_iff in Hi as [Hi|Hi].
  - specialize (Hnone t Ht). unfold Validator.hasType in Hnone.
    assert (Hex : List.existsb (fun i => bool_decide (Issue.type i = t))
                    (raisedIssues p) = true)
      by (apply existsb_exists; exists i; split; assumption).
    rewrite Hex in Hnone. discriminate Hnone.
  - apply existsb_exists. exists i. split; assumption.
Qed.

(** X28 on a sample: the model that carries an issue of the type
    [missing_alt_text] under the id c1 and raises no finding of its own; a
    contrast issue can come from the model only. *)
Lemma checks_have_fixed_severity_witness :
  Validator.hasType
    (raisedIssues (Sample.carrying [ Sample.carried (js "c1") warning ]))
    insufficient_contrast = false.
Proof.
  pose proof (checks_have_fixed_severity
                (Sample.carrying [ Sample.carried (js "c1") warning ])
                None (Sample.world 0 1))
    as (_ & _ & _ & H & _).
  apply H. unfold uncheckedTypes. in_table.
Defined.

Section ParsedTypes.



End ParsedTypes.


